(** * rollux-sanity: a node-health verifier, embedded from [src/main.py]

    The program probes TCP ports of a target node, compares the hash of the
    reference node's head block between a reference and a target JSON-RPC
    endpoint, and polls the target until its head advances or a timeout
    elapses.  Every function of [main.py] is translated below as a
    computation in a small state-and-exception monad over an abstract
    platform (network, sockets, clock); the effects each computation performs
    are recorded, in order, in a trace. *)

From Stdlib Require Import ZArith QArith Qround String Ascii List Bool Lia Lqa.
From Stdlib Require HexString.
Import ListNotations.

Set Warnings "-register-all".

Local Open Scope string_scope.
Local Open Scope list_scope.
Local Open Scope Z_scope.

(* ================================================================= *)
(** ** Python values, exceptions and builtins *)

(** The exception classes the program can meet.  All of them derive from
    Python's [Exception], so [except Exception] catches each one
    (asynchronous interrupts, which do not, are outside the model). *)
Inductive exn : Type :=
| RequestsConnectionError          (* requests.exceptions.ConnectionError *)
| RequestsTimeout                  (* requests.exceptions.Timeout *)
| JSONDecodeError                  (* raised by response.json() *)
| AttributeError
| TypeError
| ValueError
| GaiError                         (* socket.gaierror: name resolution *)
| OSError                          (* e.g. no descriptor left for a socket *)
| OtherException (name : string).

(** What a library primitive hands back: a value or a raised exception. *)
Inductive result (A : Type) : Type :=
| Ok (a : A)
| Exc (e : exn).
Arguments Ok {A} a.
Arguments Exc {A} e.

(** A decoded JSON document, as [response.json()] returns it.  [JNull] is
    Python's [None]; the keys of a [JObj] are pairwise distinct, as in a
    [dict].  Non-integer numbers are not part of the model. *)
Inductive json : Type :=
| JNull
| JBool (b : bool)
| JInt (n : Z)
| JStr (s : string)
| JList (items : list json)
| JObj (fields : list (string * json)).

Fixpoint assoc {A : Type} (k : string) (kvs : list (string * A)) : option A :=
  match kvs with
  | [] => None
  | (k', v) :: rest => if String.eqb k k' then Some v else assoc k rest
  end.

(** [d.get(key, default)]: defined on dicts only, anything else has no
    attribute [get]. *)
Definition py_get (d : json) (key : string) (default : json) : result json :=
  match d with
  | JObj fields =>
      match assoc key fields with
      | Some v => Ok v
      | None => Ok default
      end
  | _ => Exc AttributeError
  end.

(** Python's [==] on decoded JSON ([True == 1] holds in Python). *)
Fixpoint py_eq (a b : json) {struct a} : bool :=
  match a, b with
  | JNull, JNull => true
  | JBool x, JBool y => Bool.eqb x y
  | JBool x, JInt n => Z.eqb n (if x then 1 else 0)
  | JInt n, JBool x => Z.eqb n (if x then 1 else 0)
  | JInt n, JInt m => Z.eqb n m
  | JStr s, JStr t => String.eqb s t
  | JList xs, JList ys =>
      (fix items_eq (l : list json) (r : list json) {struct l} : bool :=
         match l, r with
         | [], [] => true
         | x :: l', y :: r' => py_eq x y && items_eq l' r'
         | _, _ => false
         end) xs ys
  | JObj kvs, JObj kvs' =>
      Nat.eqb (List.length kvs) (List.length kvs')
      && (fix fields_sub (l : list (string * json)) : bool :=
            match l with
            | [] => true
            | (k, v) :: l' =>
                match assoc k kvs' with
                | Some v' => py_eq v v'
                | None => false
                end && fields_sub l'
            end) kvs
  | _, _ => false
  end.

(** [hex(n)] for an integer: ["0x2a"], ["-0x2a"], ["0x0"]. *)
Definition hex (n : Z) : string := HexString.of_Z n.

(** [hex(x)] for a value that is an integer or [None]. *)
Definition py_hex (x : option Z) : result string :=
  match x with
  | Some n => Ok (hex n)
  | None => Exc TypeError
  end.

Module Int16.

(** [int(s, 16)] on text.  A Python [str] is held as its UTF-8 encoding.
    CPython first brings the text to ASCII, character by character: an
    ASCII character stays, a Unicode space becomes a blank, a Unicode
    decimal digit becomes the ASCII digit of its value, anything else
    becomes a question mark.  It then reads: surrounding whitespace, an
    optional sign, an optional [0x] prefix, then hexadecimal digits in
    which single underscores may separate digits (and one may follow the
    prefix). *)

Definition bytes_of (s : string) : list Z :=
  map (fun c => Z.of_nat (nat_of_ascii c)) (list_ascii_of_string s).

Definition continuation (b : Z) : option Z :=
  if (128 <=? b) && (b <? 192) then Some (b - 128) else None.

(** The code points of a UTF-8 byte sequence; [-1] stands for bytes that
    encode no character. *)
Fixpoint code_points (bs : list Z) : list Z :=
  match bs with
  | [] => []
  | b0 :: rest =>
      if b0 <? 128 then b0 :: code_points rest
      else if b0 <? 192 then -1 :: code_points rest
      else if b0 <? 224 then
        match rest with
        | b1 :: rest1 =>
            match continuation b1 with
            | Some c1 => (b0 - 192) * 64 + c1 :: code_points rest1
            | None => -1 :: code_points rest
            end
        | [] => [-1]
        end
      else if b0 <? 240 then
        match rest with
        | b1 :: b2 :: rest2 =>
            match continuation b1, continuation b2 with
            | Some c1, Some c2 =>
                ((b0 - 224) * 64 + c1) * 64 + c2 :: code_points rest2
            | _, _ => -1 :: code_points rest
            end
        | _ => [-1]
        end
      else
        match rest with
        | b1 :: b2 :: b3 :: rest3 =>
            match continuation b1, continuation b2, continuation b3 with
            | Some c1, Some c2, Some c3 =>
                (((b0 - 240) * 64 + c1) * 64 + c2) * 64 + c3 :: code_points rest3
            | _, _, _ => -1 :: code_points rest
            end
        | _ => [-1]
        end
  end.

(** [str.isspace] beyond ASCII: U+0085, U+00A0, U+1680, U+2000 to U+200A,
    U+2028, U+2029, U+202F, U+205F and U+3000. *)
Definition unicode_space (cp : Z) : bool :=
  (cp =? 0x85) || (cp =? 0xa0) || (cp =? 0x1680)
  || ((0x2000 <=? cp) && (cp <=? 0x200a))
  || (cp =? 0x2028) || (cp =? 0x2029) || (cp =? 0x202f)
  || (cp =? 0x205f) || (cp =? 0x3000).

(** The decimal digits beyond ASCII (Unicode 14.0, the tables of CPython
    3.11), as runs: the code point of a zero and the length of the run that
    starts there; the digits of a run count 0 to 9 over and over. *)
Definition decimal_runs : list (Z * Z) :=
  [
   (0x660, 10); (0x6f0, 10); (0x7c0, 10); (0x966, 10); (0x9e6, 10);
   (0xa66, 10); (0xae6, 10); (0xb66, 10); (0xbe6, 10); (0xc66, 10);
   (0xce6, 10); (0xd66, 10); (0xde6, 10); (0xe50, 10); (0xed0, 10);
   (0xf20, 10); (0x1040, 10); (0x1090, 10); (0x17e0, 10); (0x1810, 10);
   (0x1946, 10); (0x19d0, 10); (0x1a80, 10); (0x1a90, 10); (0x1b50, 10);
   (0x1bb0, 10); (0x1c40, 10); (0x1c50, 10); (0xa620, 10); (0xa8d0, 10);
   (0xa900, 10); (0xa9d0, 10); (0xa9f0, 10); (0xaa50, 10); (0xabf0, 10);
   (0xff10, 10); (0x104a0, 10); (0x10d30, 10); (0x11066, 10); (0x110f0, 10);
   (0x11136, 10); (0x111d0, 10); (0x112f0, 10); (0x11450, 10); (0x114d0, 10);
   (0x11650, 10); (0x116c0, 10); (0x11730, 10); (0x118e0, 10); (0x11950, 10);
   (0x11c50, 10); (0x11d50, 10); (0x11da0, 10); (0x16a60, 10); (0x16ac0, 10);
   (0x16b50, 10); (0x1d7ce, 50); (0x1e140, 10); (0x1e2f0, 10); (0x1e950, 10);
   (0x1fbf0, 10)
  ].

Definition unicode_decimal (cp : Z) : option Z :=
  match find (fun run => (fst run <=? cp) && (cp <? fst run + snd run)) decimal_runs with
  | Some run => Some ((cp - fst run) mod 10)
  | None => None
  end.

Definition to_ascii (cp : Z) : ascii :=
  if cp <? 0 then "?"
  else if cp <? 127 then ascii_of_nat (Z.to_nat cp)
  else if unicode_space cp then " "
  else
    match unicode_decimal cp with
    | Some d => ascii_of_nat (Z.to_nat (48 + d))
    | None => "?"
    end.

Definition is_space (c : ascii) : bool :=
  let n := nat_of_ascii c in
  (Nat.leb 9 n && Nat.leb n 13) || Nat.eqb n 32.

Definition digit_value (c : ascii) : option Z :=
  let n := Z.of_nat (nat_of_ascii c) in
  if (48 <=? n) && (n <=? 57) then Some (n - 48)
  else if (97 <=? n) && (n <=? 102) then Some (n - 87)
  else if (65 <=? n) && (n <=? 70) then Some (n - 55)
  else None.

Fixpoint lstrip (cs : list ascii) : list ascii :=
  match cs with
  | c :: rest => if is_space c then lstrip rest else cs
  | [] => []
  end.

Definition strip (cs : list ascii) : list ascii :=
  rev (lstrip (rev (lstrip cs))).

(** Digits after the first one: [acc] is the value so far, [prev_us] tells
    whether the previous character was an underscore. *)
Fixpoint digits (cs : list ascii) (acc : Z) (prev_us : bool) : option Z :=
  match cs with
  | [] => if prev_us then None else Some acc
  | c :: rest =>
      if Ascii.eqb c "_" then
        if prev_us then None else digits rest acc true
      else
        match digit_value c with
        | Some d => digits rest (16 * acc + d) false
        | None => None
        end
  end.

Definition skip_prefix (cs : list ascii) : list ascii :=
  match cs with
  | z :: x :: rest =>
      if Ascii.eqb z "0" && (Ascii.eqb x "x" || Ascii.eqb x "X") then
        match rest with
        | u :: rest' => if Ascii.eqb u "_" then rest' else rest
        | [] => rest
        end
      else cs
  | _ => cs
  end.

Definition magnitude (cs : list ascii) : option Z :=
  match skip_prefix cs with
  | [] => None
  | c :: rest =>
      match digit_value c with
      | Some d => digits rest d false
      | None => None
      end
  end.

Definition parse (s : string) : option Z :=
  match strip (map to_ascii (code_points (bytes_of s))) with
  | c :: rest =>
      if Ascii.eqb c "-" then option_map Z.opp (magnitude rest)
      else if Ascii.eqb c "+" then magnitude rest
      else magnitude (c :: rest)
  | [] => None
  end.

End Int16.

(** [int(x, 16)]: a [TypeError] on anything but text, a [ValueError] on text
    that is not a hexadecimal literal. *)
Definition py_int16 (x : json) : result Z :=
  match x with
  | JStr s =>
      match Int16.parse s with
      | Some n => Ok n
      | None => Exc ValueError
      end
  | _ => Exc TypeError
  end.

(* ================================================================= *)
(** ** The platform and the effect monad *)

(** An HTTP response as [requests] presents it: the status code and what
    [response.json()] yields ([None] when the body is not valid JSON). *)
Record response : Type := { status_code : Z; body_json : option json }.

Inductive level : Type := INFO | ERROR.

(** The log lines of [main.py], one constructor per format string. *)
Inductive message : Type :=
| MsgStarting
| MsgPortError (port : Z) (e : exn)
| MsgPortOpen (port : Z)
| MsgPortClosed (port : Z)
| MsgFetchLatestFailed
| MsgHashPassed
| MsgHashFailed (block : Z) (target_hash reference_hash : json)
| MsgProgressionPassed
| MsgProgressionFailed
| MsgPortsPassed
| MsgPortsFailed
| MsgCompleted (hash_pass progression_pass port_pass : bool).

(** Every effect the program performs, with the answer it received.  A
    socket that could not be created, or whose timeout could not be set, is
    recorded with the exception raised. *)
Inductive event : Type :=
| EvSocket (fd : nat)
| EvSocketError (e : exn)
| EvSetTimeout (fd : nat) (secs : Z)
| EvSetTimeoutError (fd : nat) (secs : Z) (e : exn)
| EvConnect (fd : nat) (host : string) (port : Z) (r : result Z)
| EvClose (fd : nat)
| EvPost (url : string) (payload : json) (r : result response)
| EvTime (t : Q)
| EvSleep (secs : Q)
| EvLog (lvl : level) (msg : message).

(** The outside world: URL parsing, the HTTP transport, the TCP stack, the
    clock and float arithmetic.  [W] is the state of the environment; each
    primitive may change it.  [socket_create] is the system's answer to
    [socket.socket(AF_INET, SOCK_STREAM)] and [socket_settimeout] its answer
    to [sock.settimeout]: either may raise ([OSError] when the process has no
    descriptor left, say).  [float_sub a b] is the float [a - b]: the clock
    hands out floats, and their difference is rounded to a float. *)
Class Platform (W : Type) : Type := {
  urlparse_hostname : string -> result (option string);
  requests_post : string -> json -> W -> result response * W;
  socket_create : W -> result unit * W;
  socket_settimeout : Z -> W -> result unit * W;
  socket_connect_ex : string -> Z -> W -> result Z * W;
  time_time : W -> Q * W;
  time_sleep : Q -> W -> W;
  float_sub : Q -> Q -> Q
}.

(** The interpreter's side of the state: the world, the trace of effects so
    far (oldest first), and the socket table. *)
Record machine (W : Type) : Type := {
  world : W;
  trace : list event;
  next_fd : nat;
  open_fds : list nat
}.
Arguments world {W} m.
Arguments trace {W} m.
Arguments next_fd {W} m.
Arguments open_fds {W} m.

(** How a computation ends: with a value, with a raised exception, or (an
    artefact of the model only) with the loop budget exhausted. *)
Inductive outcome (A : Type) : Type :=
| Ret (a : A)
| Raise (e : exn)
| OutOfFuel.
Arguments Ret {A} a.
Arguments Raise {A} e.
Arguments OutOfFuel {A}.

Definition M (W A : Type) : Type := machine W -> outcome A * machine W.

Definition ret {W A : Type} (a : A) : M W A := fun s => (Ret a, s).

Definition bind {W A B : Type} (c : M W A) (k : A -> M W B) : M W B :=
  fun s =>
    match c s with
    | (Ret a, s') => k a s'
    | (Raise e, s') => (Raise e, s')
    | (OutOfFuel, s') => (OutOfFuel, s')
    end.

Definition raise {W A : Type} (e : exn) : M W A := fun s => (Raise e, s).

Definition out_of_fuel {W A : Type} : M W A := fun s => (OutOfFuel, s).

(** [try: c  except Exception as e: handler e]. *)
Definition try_except {W A : Type} (c : M W A) (handler : exn -> M W A) : M W A :=
  fun s =>
    match c s with
    | (Raise e, s') => handler e s'
    | other => other
    end.

Definition lift {W A : Type} (r : result A) : M W A :=
  match r with
  | Ok a => ret a
  | Exc e => raise e
  end.

Declare Scope py_scope.
Delimit Scope py_scope with py.
Notation "x <- c ;; k" := (bind c (fun x => k))
  (at level 61, c at next level, right associativity) : py_scope.
Notation "c ;; k" := (bind c (fun _ => k))
  (at level 61, right associativity) : py_scope.

Definition emit {W : Type} (ev : event) (s : machine W) : machine W :=
  {| world := world s; trace := trace s ++ [ev];
     next_fd := next_fd s; open_fds := open_fds s |}.

Definition set_world {W : Type} (w : W) (s : machine W) : machine W :=
  {| world := w; trace := trace s; next_fd := next_fd s; open_fds := open_fds s |}.

(** The socket table without [fd] (descriptors in it are distinct). *)
Fixpoint remove_fd (fd : nat) (fds : list nat) : list nat :=
  match fds with
  | [] => []
  | x :: rest => if Nat.eqb x fd then rest else x :: remove_fd fd rest
  end.

Section Primitives.
Context {W : Type} {P : Platform W}.
Local Open Scope py_scope.

Definition logging_info (msg : message) : M W unit :=
  fun s => (Ret tt, emit (EvLog INFO msg) s).

Definition logging_error (msg : message) : M W unit :=
  fun s => (Ret tt, emit (EvLog ERROR msg) s).

(** [requests.post(url, json=payload)] *)
Definition post (url : string) (payload : json) : M W response :=
  fun s =>
    let (r, w) := requests_post url payload (world s) in
    lift r (emit (EvPost url payload r) (set_world w s)).

(** [response.json()] *)
Definition response_json (r : response) : M W json :=
  match body_json r with
  | Some j => ret j
  | None => raise JSONDecodeError
  end.

(** [time.time()] *)
Definition time_now : M W Q :=
  fun s =>
    let (t, w) := time_time (world s) in
    (Ret t, emit (EvTime t) (set_world w s)).

(** [time.sleep(secs)] *)
Definition sleep (secs : Q) : M W unit :=
  fun s => (Ret tt, emit (EvSleep secs) (set_world (time_sleep secs (world s)) s)).

(** [socket.socket(socket.AF_INET, socket.SOCK_STREAM)]: when the system
    grants it, a fresh descriptor, entered in the table of open sockets;
    otherwise the exception the system raised, and no descriptor. *)
Definition socket_socket : M W nat :=
  fun s =>
    let (r, w) := socket_create (world s) in
    match r with
    | Ok _ =>
        let fd := next_fd s in
        (Ret fd,
         {| world := w; trace := trace s ++ [EvSocket fd];
            next_fd := S fd; open_fds := fd :: open_fds s |})
    | Exc e => (Raise e, emit (EvSocketError e) (set_world w s))
    end.

(** [sock.settimeout(secs)] *)
Definition sock_settimeout (fd : nat) (secs : Z) : M W unit :=
  fun s =>
    let (r, w) := socket_settimeout secs (world s) in
    match r with
    | Ok _ => (Ret tt, emit (EvSetTimeout fd secs) (set_world w s))
    | Exc e => (Raise e, emit (EvSetTimeoutError fd secs e) (set_world w s))
    end.

(** [sock.connect_ex((host, port))]: the error indicator of the C-level
    connect, or an exception for every other problem; a host that is
    [None] is a [TypeError] before anything reaches the network. *)
Definition sock_connect_ex (fd : nat) (host : option string) (port : Z) : M W Z :=
  match host with
  | None => raise TypeError
  | Some h =>
      fun s =>
        let (r, w) := socket_connect_ex h port (world s) in
        lift r (emit (EvConnect fd h port r) (set_world w s))
  end.

(** [sock.close()] *)
Definition sock_close (fd : nat) : M W unit :=
  fun s =>
    (Ret tt,
     {| world := world s; trace := trace s ++ [EvClose fd];
        next_fd := next_fd s; open_fds := remove_fd fd (open_fds s) |}).

(** A dict comprehension [{k: f(k) for k in keys}], evaluated left to
    right. *)
Fixpoint dict_comprehension {K V : Type} (f : K -> M W V) (keys : list K)
  : M W (list (K * V)) :=
  match keys with
  | [] => ret []
  | k :: rest =>
      v <- f k ;;
      tail <- dict_comprehension f rest ;;
      ret ((k, v) :: tail)
  end.

(** [for x in xs: body(x)] *)
Fixpoint for_each {A : Type} (xs : list A) (body : A -> M W unit) : M W unit :=
  match xs with
  | [] => ret tt
  | x :: rest => body x ;; for_each rest body
  end.

End Primitives.

(* ================================================================= *)
(** ** The program: [src/main.py] *)

Definition rpc_payload (method : string) (params : list json) : json :=
  JObj [("jsonrpc", JStr "2.0"); ("method", JStr method);
        ("params", JList params); ("id", JInt 1)].

Definition block_number_payload : json := rpc_payload "eth_blockNumber" [].

Definition block_details_payload (block_hex : string) : json :=
  rpc_payload "eth_getBlockByNumber" [JStr block_hex; JBool false].

(** [reference_block_hash == target_block_hash], the consistency verdict. *)
Definition hashes_match (reference_block_hash target_block_hash : json) : bool :=
  py_eq reference_block_hash target_block_hash.

(** [a < b] on numbers. *)
Definition Qlt_bool (a b : Q) : bool := negb (Qle_bool b a).

(** [if rpc_url:] on a value that is a string or [None]. *)
Definition truthy (x : option string) : bool :=
  match x with
  | Some s => negb (String.eqb s "")
  | None => false
  end.

(** The report of [perform_checks]. *)
Record check_results : Type := {
  port_status : list (Z * bool);
  block_hash_check : bool;
  block_progression : bool
}.

(** What a Flask view returns: a JSON body and a status code. *)
Inductive api_body : Type :=
| JsonResults (r : check_results)
| JsonError (fields : list (string * string)).

Record flask_response : Type := { resp_body : api_body; resp_status : Z }.

Definition default_reference_url : string := "https://rpc.rollux.com".
Definition default_timeout : Q := 30%Q.

Section Program.
Context {W : Type} {P : Platform W}.
Local Open Scope py_scope.

Definition fetch_latest_block_number (rpc_url : string) : M W (option Z) :=
  response <- post rpc_url block_number_payload ;;
  if status_code response =? 200 then
    body <- response_json response ;;
    result <- lift (py_get body "result" JNull) ;;
    match result with
    | JNull => ret None
    | _ => n <- lift (py_int16 result) ;; ret (Some n)
    end
  else ret None.

Definition get_hostname (url : string) : M W (option string) :=
  lift (urlparse_hostname url).

Definition is_port_open (host : string) (port : Z) : M W bool :=
  sock <- socket_socket ;;
  sock_settimeout sock 1 ;;
  try_except
    (hostname <- get_hostname host ;;
     result <- sock_connect_ex sock hostname port ;;
     sock_close sock ;;
     ret (result =? 0))
    (fun e => logging_error (MsgPortError port e) ;; ret false).

(** [block_number] is whatever the caller passes: an integer or [None]. *)
Definition fetch_block_details (rpc_url : string) (block_number : option Z) : M W json :=
  block_hex <- lift (py_hex block_number) ;;
  response <- post rpc_url (block_details_payload block_hex) ;;
  if status_code response =? 200 then
    body <- response_json response ;;
    lift (py_get body "result" (JObj []))
  else ret (JObj []).

(** [current is not None and current > initial] *)
Definition advanced (current : option Z) (initial : Z) : bool :=
  match current with
  | Some c => initial <? c
  | None => false
  end.

(** The [while] loop of [check_block_progression]; [fuel] bounds the
    number of times its condition is evaluated.  The condition subtracts
    two floats and compares the rounded difference with [timeout]. *)
Fixpoint poll (fuel : nat) (rpc_url : string) (timeout start_time : Q)
         (initial_block_number : Z) : M W bool :=
  match fuel with
  | O => out_of_fuel
  | S fuel' =>
      t <- time_now ;;
      if Qlt_bool (float_sub t start_time) timeout then
        current_block_number <- fetch_latest_block_number rpc_url ;;
        if advanced current_block_number initial_block_number then ret true
        else
          sleep 5 ;;
          poll fuel' rpc_url timeout start_time initial_block_number
      else ret false
  end.

Definition check_block_progression (fuel : nat) (rpc_url : string) (timeout : Q)
  : M W bool :=
  start_time <- time_now ;;
  initial_block_number <- fetch_latest_block_number rpc_url ;;
  match initial_block_number with
  | None => ret false
  | Some initial => poll fuel rpc_url timeout start_time initial
  end.

(** [details.get('hash')]: the block's canonical identifier, [None] when
    the field is missing. *)
Definition block_hash (details : json) : M W json :=
  lift (py_get details "hash" JNull).

Definition main (fuel : nat) (rpc_url reference_url : string) (timeout : Q) : M W unit :=
  logging_info MsgStarting ;;
  let ports_to_check := [30303; 9003; 30304] in
  port_status <- dict_comprehension (is_port_open rpc_url) ports_to_check ;;
  let all_ports_open := forallb snd port_status in
  for_each port_status
    (fun entry =>
       if snd entry then logging_info (MsgPortOpen (fst entry))
       else logging_error (MsgPortClosed (fst entry))) ;;
  latest_block_number <- fetch_latest_block_number reference_url ;;
  match latest_block_number with
  | None => logging_error MsgFetchLatestFailed
  | Some latest =>
      reference_block_details <- fetch_block_details reference_url (Some latest) ;;
      target_block_details <- fetch_block_details rpc_url (Some latest) ;;
      reference_block_hash <- block_hash reference_block_details ;;
      target_block_hash <- block_hash target_block_details ;;
      let hash_check_pass := hashes_match reference_block_hash target_block_hash in
      block_progression_pass <- check_block_progression fuel rpc_url timeout ;;
      let port_check_pass := all_ports_open in
      (if hash_check_pass then logging_info MsgHashPassed
       else logging_error (MsgHashFailed latest target_block_hash reference_block_hash)) ;;
      (if block_progression_pass then logging_info MsgProgressionPassed
       else logging_error MsgProgressionFailed) ;;
      (if port_check_pass then logging_info MsgPortsPassed
       else logging_error MsgPortsFailed) ;;
      logging_info (MsgCompleted hash_check_pass block_progression_pass port_check_pass)
  end.

Definition perform_checks (fuel : nat) (rpc_url reference_url : string) (timeout : Q)
  : M W check_results :=
  port_results <- dict_comprehension (is_port_open rpc_url)
                    [30303; 9003; 30304; 8369; 18369] ;;
  latest_block_number <- fetch_latest_block_number reference_url ;;
  reference_block_details <- fetch_block_details reference_url latest_block_number ;;
  target_block_details <- fetch_block_details rpc_url latest_block_number ;;
  reference_block_hash <- block_hash reference_block_details ;;
  target_block_hash <- block_hash target_block_details ;;
  let hash_pass := hashes_match reference_block_hash target_block_hash in
  progression <- check_block_progression fuel rpc_url timeout ;;
  ret {| port_status := port_results;
         block_hash_check := hash_pass;
         block_progression := progression |}.

(** The view behind [GET /api/check]; [rpc_url] is
    [request.args.get('rpc_url', type=str)]. *)
Definition api_check (fuel : nat) (rpc_url : option string) : M W flask_response :=
  if truthy rpc_url then
    match rpc_url with
    | Some url =>
        results <- perform_checks fuel url default_reference_url default_timeout ;;
        ret {| resp_body := JsonResults results; resp_status := 200 |}
    | None => ret {| resp_body := JsonError [("error", "RPC URL is required")];
                     resp_status := 400 |}
    end
  else ret {| resp_body := JsonError [("error", "RPC URL is required")];
              resp_status := 400 |}.

End Program.

(* ================================================================= *)
(** ** Reading a run: decoders and projections of the trace *)

(** What [fetch_latest_block_number] makes of the transport's answer. *)
Definition head_of_response (r : result response) : outcome (option Z) :=
  match r with
  | Exc e => Raise e
  | Ok resp =>
      if status_code resp =? 200 then
        match body_json resp with
        | None => Raise JSONDecodeError
        | Some body =>
            match py_get body "result" JNull with
            | Exc e => Raise e
            | Ok JNull => Ret None
            | Ok v =>
                match py_int16 v with
                | Ok n => Ret (Some n)
                | Exc e => Raise e
                end
            end
        end
      else Ret None
  end.

(** What [fetch_block_details] makes of the transport's answer. *)
Definition details_of_response (r : result response) : outcome json :=
  match r with
  | Exc e => Raise e
  | Ok resp =>
      if status_code resp =? 200 then
        match body_json resp with
        | None => Raise JSONDecodeError
        | Some body =>
            match py_get body "result" (JObj []) with
            | Exc e => Raise e
            | Ok v => Ret v
            end
        end
      else Ret (JObj [])
  end.

(** The JSON-RPC calls among some events, in order: URL, payload, answer. *)
Fixpoint rpc_calls (evs : list event) : list (string * json * result response) :=
  match evs with
  | [] => []
  | EvPost url payload r :: rest => (url, payload, r) :: rpc_calls rest
  | _ :: rest => rpc_calls rest
  end.

(** The log records among some events, in order. *)
Fixpoint log_records (evs : list event) : list (level * message) :=
  match evs with
  | [] => []
  | EvLog lvl msg :: rest => (lvl, msg) :: log_records rest
  | _ :: rest => log_records rest
  end.

(** A poll of the head whose answer is a block number above [baseline]. *)
Definition advanced_poll (baseline : Z) (ev : event) : Prop :=
  match ev with
  | EvPost _ _ r => exists c, head_of_response r = Ret (Some c) /\ baseline < c
  | _ => False
  end.

(** An event that is not a poll, or a poll answered without an exception by
    a head that is missing or not above [baseline]. *)
Definition quiet_poll (baseline : Z) (ev : event) : Prop :=
  match ev with
  | EvPost _ _ r => exists h, head_of_response r = Ret h /\ advanced h baseline = false
  | _ => True
  end.

(** The events a port probe may leave: socket traffic and its own error
    line. *)
Definition probe_event (ev : event) : Prop :=
  match ev with
  | EvSocket _ | EvSetTimeout _ _ | EvConnect _ _ _ _ | EvClose _ => True
  | EvSocketError _ | EvSetTimeoutError _ _ _ => True
  | EvLog _ (MsgPortError _ _) => True
  | _ => False
  end.

(** The events of the port report of [main]: one line per port. *)
Definition port_line (ev : event) : Prop :=
  match ev with
  | EvLog _ (MsgPortOpen _) | EvLog _ (MsgPortClosed _) => True
  | _ => False
  end.

(** A log line that states the verdict of the hash or progression check, or
    the final summary. *)
Definition verdict_line (msg : message) : bool :=
  match msg with
  | MsgHashPassed | MsgHashFailed _ _ _
  | MsgProgressionPassed | MsgProgressionFailed
  | MsgCompleted _ _ _ => true
  | _ => false
  end.

(** The polling state machine, as a description of what one run of the loop
    leaves in the trace and how it ends.  Each round opens with a clock
    reading [t]; [sub t start], the elapsed time as the loop computes it, is
    compared with the timeout.  At or past the timeout the loop is left and
    the verdict is false.  Below it the head is polled, and then: a head
    above the baseline ends the loop with true, at once; a poll that raises
    ends it with that exception; any other head is followed by a sleep of
    five seconds and another round.  [loop_exhausted] is the model's budget
    running out where a round would start. *)
Inductive loop_trace (sub : Q -> Q -> Q) (url : string) (timeout start : Q)
          (baseline : Z)
  : list event -> outcome bool -> Prop :=
| loop_exhausted :
    loop_trace sub url timeout start baseline [] OutOfFuel
| loop_timeout (t : Q) :
    (timeout <= sub t start)%Q ->
    loop_trace sub url timeout start baseline [EvTime t] (Ret false)
| loop_success (t : Q) (r : result response) (c : Z) :
    (sub t start < timeout)%Q ->
    head_of_response r = Ret (Some c) ->
    baseline < c ->
    loop_trace sub url timeout start baseline
      [EvTime t; EvPost url block_number_payload r] (Ret true)
| loop_raise (t : Q) (r : result response) (e : exn) :
    (sub t start < timeout)%Q ->
    head_of_response r = Raise e ->
    loop_trace sub url timeout start baseline
      [EvTime t; EvPost url block_number_payload r] (Raise e)
| loop_again (t : Q) (r : result response) (h : option Z)
             (evs : list event) (o : outcome bool) :
    (sub t start < timeout)%Q ->
    head_of_response r = Ret h ->
    advanced h baseline = false ->
    loop_trace sub url timeout start baseline evs o ->
    loop_trace sub url timeout start baseline
      (EvTime t :: EvPost url block_number_payload r :: EvSleep 5 :: evs) o.

(** The rounds of the loop that ran to their end: one sleep each. *)
Fixpoint sleeps (evs : list event) : nat :=
  match evs with
  | [] => O
  | EvSleep _ :: rest => S (sleeps rest)
  | _ :: rest => sleeps rest
  end.

(** The steps [main] and [perform_checks] share once the reference head
    [latest] is known, in source order: both block-details queries, both
    hash lookups, the progression check.  It yields the reference hash, the
    target hash and the progression verdict. *)
Definition compare_and_poll {W : Type} {P : Platform W}
           (fuel : nat) (rpc_url reference_url : string) (timeout : Q) (latest : Z)
  : M W (json * json * bool) :=
  (reference_block_details <- fetch_block_details reference_url (Some latest) ;;
   target_block_details <- fetch_block_details rpc_url (Some latest) ;;
   reference_block_hash <- block_hash reference_block_details ;;
   target_block_hash <- block_hash target_block_details ;;
   block_progression_pass <- check_block_progression fuel rpc_url timeout ;;
   ret (reference_block_hash, target_block_hash, block_progression_pass))%py.

(** What a run of those steps leaves in the trace, and how it ends. *)
Inductive phase_trace (rpc_url reference_url : string) (latest : Z)
  : list event -> outcome (json * json * bool) -> Prop :=
| phase_reference_raise (r1 : result response) (e : exn) :
    details_of_response r1 = Raise e ->
    phase_trace rpc_url reference_url latest
      [EvPost reference_url (block_details_payload (hex latest)) r1] (Raise e)
| phase_target_raise (r1 r2 : result response) (d1 : json) (e : exn) :
    details_of_response r1 = Ret d1 ->
    details_of_response r2 = Raise e ->
    phase_trace rpc_url reference_url latest
      [EvPost reference_url (block_details_payload (hex latest)) r1;
       EvPost rpc_url (block_details_payload (hex latest)) r2] (Raise e)
| phase_hash_raise (r1 r2 : result response) (d1 d2 : json) (e : exn) :
    details_of_response r1 = Ret d1 ->
    details_of_response r2 = Ret d2 ->
    (py_get d1 "hash" JNull = Exc e
     \/ exists h1, py_get d1 "hash" JNull = Ok h1 /\ py_get d2 "hash" JNull = Exc e) ->
    phase_trace rpc_url reference_url latest
      [EvPost reference_url (block_details_payload (hex latest)) r1;
       EvPost rpc_url (block_details_payload (hex latest)) r2] (Raise e)
| phase_polled (r1 r2 : result response) (d1 d2 h1 h2 : json)
               (polls : list event) (verdict : outcome bool) :
    details_of_response r1 = Ret d1 ->
    details_of_response r2 = Ret d2 ->
    py_get d1 "hash" JNull = Ok h1 ->
    py_get d2 "hash" JNull = Ok h2 ->
    Forall (fun call => fst call = (rpc_url, block_number_payload)) (rpc_calls polls) ->
    Forall (fun r => verdict_line (snd r) = false) (log_records polls) ->
    phase_trace rpc_url reference_url latest
      (EvPost reference_url (block_details_payload (hex latest)) r1
       :: EvPost rpc_url (block_details_payload (hex latest)) r2 :: polls)
      match verdict with
      | Ret p => Ret (h1, h2, p)
      | Raise e => Raise e
      | OutOfFuel => OutOfFuel
      end.

(** The report [main] logs once all three verdicts are known. *)
Definition summary_lines (latest : Z) (reference_hash target_hash : json)
           (progression_pass port_pass : bool) : list event :=
  let hash_pass := hashes_match reference_hash target_hash in
  [ if hash_pass then EvLog INFO MsgHashPassed
    else EvLog ERROR (MsgHashFailed latest target_hash reference_hash);
    if progression_pass then EvLog INFO MsgProgressionPassed
    else EvLog ERROR MsgProgressionFailed;
    if port_pass then EvLog INFO MsgPortsPassed
    else EvLog ERROR MsgPortsFailed;
    EvLog INFO (MsgCompleted hash_pass progression_pass port_pass) ].

(** The same report as the computation [main] ends with. *)
Definition log_summary {W : Type} (latest : Z) (reference_hash target_hash : json)
           (progression_pass port_pass : bool) : M W unit :=
  (let hash_pass := hashes_match reference_hash target_hash in
   (if hash_pass then logging_info MsgHashPassed
    else logging_error (MsgHashFailed latest target_hash reference_hash)) ;;
   (if progression_pass then logging_info MsgProgressionPassed
    else logging_error MsgProgressionFailed) ;;
   (if port_pass then logging_info MsgPortsPassed
    else logging_error MsgPortsFailed) ;;
   logging_info (MsgCompleted hash_pass progression_pass port_pass))%py.

(** The fixed port sets: of the command line, and of the service. *)
Definition cli_ports : list Z := [30303; 9003; 30304].
Definition service_ports : list Z := [30303; 9003; 30304; 8369; 18369].

(** The canonical identifier an endpoint's answer to [eth_getBlockByNumber]
    yields: the [hash] field of the block details, [JNull] standing for
    Absent (the call answered with a non-200 status, or without a result, or
    with a block that has no hash). *)
Definition identifier_of_response (r : result response) : outcome json :=
  match details_of_response r with
  | Ret details =>
      match py_get details "hash" JNull with
      | Ok h => Ret h
      | Exc e => Raise e
      end
  | Raise e => Raise e
  | OutOfFuel => OutOfFuel
  end.

(** The JSON-RPC calls of an aggregator run after its head lookup at the
    reference, and how the run ends, given the answer [r0] to that lookup.
    When [r0] decodes to a block number [n], the calls that follow are the
    block-details query for [n] at the reference and, unless that one
    raised, the block-details query for the same [n] at the target; whatever
    comes after those two is the target's head being polled.  When the
    lookup is absent there is no further call; when it raised there is
    none either, and the run raises the same exception. *)
Definition calls_after_head {A : Type} (rpc_url reference_url : string)
           (r0 : result response)
           (rest : list (string * json * result response)) (o : outcome A) : Prop :=
  match head_of_response r0 with
  | Ret (Some n) =>
      (exists r1 e,
          rest = [(reference_url, block_details_payload (hex n), r1)]
          /\ details_of_response r1 = Raise e
          /\ o = Raise e)
      \/ (exists r1 r2 d1 polls,
            rest = (reference_url, block_details_payload (hex n), r1)
                   :: (rpc_url, block_details_payload (hex n), r2)
                   :: polls
            /\ details_of_response r1 = Ret d1
            /\ Forall (fun call => fst call = (rpc_url, block_number_payload)) polls)
  | Ret None => rest = []
  | Raise e => rest = [] /\ o = Raise e
  | OutOfFuel => False
  end.

(** The calls of a run that went through the whole comparison. *)
Definition compared_block (rpc_url reference_url : string) (n : Z)
           (r1 r2 : result response)
           (calls : list (string * json * result response)) : Prop :=
  exists r0 polls,
    head_of_response r0 = Ret (Some n)
    /\ calls = (reference_url, block_number_payload, r0)
               :: (reference_url, block_details_payload (hex n), r1)
               :: (rpc_url, block_details_payload (hex n), r2)
               :: polls
    /\ Forall (fun call => fst call = (rpc_url, block_number_payload)) polls.

(** A block identifier as the data model has it: a hash string, or absent. *)
Definition json_of_identifier (h : option string) : json :=
  match h with
  | Some s => JStr s
  | None => JNull
  end.

(** A clock [clk] on worlds for which time never runs backwards and a sleep
    lasts at least as long as asked, with float subtraction as IEEE 754 has
    it: the difference is rounded to the nearest float, which is monotone and
    leaves floats unchanged, so that zero minus zero is zero and a
    difference that is at least a float [c] (a number with [c - 0 = c]) is
    not rounded below [c]. *)
Record Ticking {W : Type} {P : Platform W} (clk : W -> Q) : Prop := {
  tick_read : forall w, (clk w <= fst (time_time w) <= clk (snd (time_time w)))%Q;
  tick_post : forall url payload w, (clk w <= clk (snd (requests_post url payload w)))%Q;
  tick_sleep : forall secs w, (clk w + secs <= clk (time_sleep secs w))%Q;
  tick_zero : (float_sub 0 0 == 0)%Q;
  tick_round : forall a b c,
      (float_sub c 0 == c)%Q -> (c <= a - b)%Q -> (c <= float_sub a b)%Q
}.

(* ================================================================= *)
(** ** A scripted platform, to run the program on concrete inputs *)

Module Script.

(** The environment's state: the clock, the answers the transport will
    give to the coming POSTs (in order), the verdict of the TCP stack for
    each host and port, and the number of sockets the process may still
    create. *)
Record env : Type := {
  clock : Q;
  replies : list (result response);
  connects : string -> Z -> result Z;
  descriptors : nat
}.

Fixpoint until_delim (cs : list ascii) : list ascii :=
  match cs with
  | [] => []
  | c :: rest =>
      if Ascii.eqb c "/" || Ascii.eqb c ":" || Ascii.eqb c "?" || Ascii.eqb c "#"
      then [] else c :: until_delim rest
  end.

Fixpoint after_slashes (cs : list ascii) : option (list ascii) :=
  match cs with
  | a :: rest =>
      match rest with
      | b :: rest' =>
          if Ascii.eqb a "/" && Ascii.eqb b "/" then Some rest' else after_slashes rest
      | [] => None
      end
  | [] => None
  end.

(** The hostname of a URL of the shape [scheme://host[:port][/path]];
    [None] when there is no [//] or nothing after it. *)
Definition hostname (url : string) : result (option string) :=
  match after_slashes (list_ascii_of_string url) with
  | Some rest =>
      match until_delim rest with
      | [] => Ok None
      | h => Ok (Some (string_of_list_ascii h))
      end
  | None => Ok None
  end.

Definition do_post (w : env) : result response * env :=
  match replies w with
  | r :: rest =>
      (r, {| clock := clock w; replies := rest; connects := connects w;
             descriptors := descriptors w |})
  | [] => (Exc RequestsConnectionError, w)
  end.

Definition do_sleep (secs : Q) (w : env) : env :=
  {| clock := (clock w + secs)%Q; replies := replies w; connects := connects w;
     descriptors := descriptors w |}.

(** One more socket, while the process may create one. *)
Definition do_socket (w : env) : result unit * env :=
  match descriptors w with
  | S n =>
      (Ok tt, {| clock := clock w; replies := replies w; connects := connects w;
                 descriptors := n |})
  | O => (Exc OSError, w)
  end.

(** The scripted clock hands out small integers, whose float difference is
    exact. *)
#[export] Instance platform : Platform env := {
  urlparse_hostname := hostname;
  requests_post := fun _ _ w => do_post w;
  socket_create := do_socket;
  socket_settimeout := fun _ w => (Ok tt, w);
  socket_connect_ex := fun host port w => (connects w host port, w);
  time_time := fun w => (clock w, w);
  time_sleep := do_sleep;
  float_sub := Qminus
}.

(** A fresh process: nothing traced, descriptors 0-2 taken. *)
Definition boot (w : env) : machine env :=
  {| world := w; trace := []; next_fd := 3; open_fds := [] |}.

(** A 200 answer carrying the JSON-RPC result [j]. *)
Definition rpc_result (j : json) : result response :=
  Ok {| status_code := 200;
        body_json := Some (JObj [("jsonrpc", JStr "2.0"); ("id", JInt 1); ("result", j)]) |}.

(** A 200 answer with a block object whose hash is [h]. *)
Definition block_reply (h : string) : result response :=
  rpc_result (JObj [("number", JStr "0x3e8"); ("hash", JStr h)]).

(** A 200 answer to [eth_blockNumber] with head [n]. *)
Definition head_reply (n : Z) : result response := rpc_result (JStr (hex n)).

(** A 503, a 200 whose body is not JSON, and a 200 JSON-RPC error object
    (no [result] field). *)
Definition unavailable : result response :=
  Ok {| status_code := 503; body_json := None |}.
Definition garbled : result response :=
  Ok {| status_code := 200; body_json := None |}.
Definition rpc_error : result response :=
  Ok {| status_code := 200;
        body_json := Some (JObj [("jsonrpc", JStr "2.0"); ("id", JInt 1);
                                 ("error", JObj [("code", JInt (-32601))])]) |}.

Definition all_open : string -> Z -> result Z := fun _ _ => Ok 0.
Definition all_refused : string -> Z -> result Z := fun _ _ => Ok 111.
Definition unresolvable : string -> Z -> result Z := fun _ _ => Exc GaiError.

Definition scripted (answers : list (result response))
           (tcp : string -> Z -> result Z) : env :=
  {| clock := 100; replies := answers; connects := tcp; descriptors := 1024 |}.

Definition target : string := "http://node.example:8545".

(** Reference and target agree on block 1000 and the target advances. *)
Definition healthy : env :=
  scripted [head_reply 1000; block_reply "0xabc"; block_reply "0xabc";
            head_reply 1000; head_reply 1000; head_reply 1001] all_open.

(** Neither endpoint yields a hash for block 1000. *)
Definition hashless : env :=
  scripted [head_reply 1000; unavailable; rpc_result (JObj []);
            head_reply 1000; head_reply 1001] all_open.

(** The reference answers its head lookup with a 503. *)
Definition reference_down : env := scripted [unavailable] all_open.

(** Nothing can be reached: every POST is refused, no name resolves. *)
Definition offline : env := scripted [] unresolvable.

(** The target's head stays at block 1000. *)
Definition stalled : env := scripted (repeat (head_reply 1000) 10) all_open.

(** The target's head is at block 1000 for the baseline query and for the
    first poll, and at block 1001 for the second poll. *)
Definition advancing : env :=
  scripted [head_reply 1000; head_reply 1000; head_reply 1001;
            head_reply 1002] all_open.

(** Both endpoints answer as in [healthy], but the process may create
    [sockets] more sockets and no further one. *)
Definition short_of_descriptors (sockets : nat) : env :=
  {| clock := 100;
     replies := [head_reply 1000; block_reply "0xabc"; block_reply "0xabc";
                 head_reply 1000; head_reply 1000; head_reply 1001];
     connects := all_open;
     descriptors := sockets |}.

End Script.

(* ================================================================= *)
(** ** More ways to read a run *)

(** A string made of hexadecimal digits only. *)
Fixpoint all_hex (s : string) : bool :=
  match s with
  | EmptyString => true
  | String c rest =>
      match HexString.ascii_to_digit c with
      | Some _ => all_hex rest
      | None => false
      end
  end.

(** The text whose UTF-8 encoding is the given bytes. *)
Definition text_of_bytes (bytes : list nat) : string :=
  string_of_list_ascii (map ascii_of_nat bytes).

(** [isinstance(d, dict)] *)
Definition is_object (d : json) : bool :=
  match d with
  | JObj _ => true
  | _ => false
  end.

(** The error line of a probe that ended in its [except] branch. *)
Definition port_error_line (r : level * message) : bool :=
  match snd r with
  | MsgPortError _ _ => true
  | _ => false
  end.

(** A socket that could not be created, or could not be configured. *)
Definition setup_error (ev : event) : bool :=
  match ev with
  | EvSocketError _ | EvSetTimeoutError _ _ _ => true
  | _ => false
  end.

(** The events of a probe that raised before its [try] block: the socket
    was refused, or it was created and its timeout could not be set. *)
Definition setup_failure (e : exn) (evs : list event) : Prop :=
  evs = [EvSocketError e]
  \/ exists fd secs, evs = [EvSocket fd; EvSetTimeoutError fd secs e].

(** The events of a port scan that was cut short by such a probe. *)
Definition scan_aborted (e : exn) (evs : list event) : Prop :=
  exists done last,
    evs = done ++ last
    /\ Forall (fun ev => setup_error ev = false) done
    /\ setup_failure e last.

(** Some connect to [port] among the events reported success. *)
Definition connected (port : Z) (evs : list event) : Prop :=
  exists fd h, In (EvConnect fd h port (Ok 0)) evs.

(** The per-port report of [main] for a given port status. *)
Definition port_lines (status : list (Z * bool)) : list event :=
  map (fun entry : Z * bool =>
         if snd entry then EvLog INFO (MsgPortOpen (fst entry))
         else EvLog ERROR (MsgPortClosed (fst entry)))
      status.

(* ================================================================= *)
(** ** More scripted platforms *)

(** Only the first peer port answers; the others refuse. *)
Definition only_p2p : string -> Z -> result Z :=
  fun _ port => if port =? 30303 then Ok 0 else Ok 111.

(** The target does not know block 1000 yet: its answer is [result: null]. *)
Definition lagging_target : Script.env :=
  Script.scripted [Script.head_reply 1000; Script.block_reply "0xabc";
                   Script.rpc_result JNull] Script.all_open.

(** The target is on another chain, and only one of its ports is open. *)
Definition disagreeing : Script.env :=
  Script.scripted [Script.head_reply 1000; Script.block_reply "0xabc";
                   Script.block_reply "0xdef";
                   Script.head_reply 1000; Script.head_reply 1001] only_p2p.

(** A fresh process whose transport gives the one answer [r]. *)
Definition answering (r : result response) : machine Script.env :=
  Script.boot (Script.scripted [r] Script.all_open).

(** A 200 answer whose JSON body is a list. *)
Definition list_body : result response :=
  Ok {| status_code := 200; body_json := Some (JList []) |}.

(** The response inside a transport answer. *)
Definition answer_of (r : result response) : response :=
  match r with
  | Ok resp => resp
  | Exc _ => {| status_code := 0; body_json := None |}
  end.

(* ================================================================= *)
(** * Properties *)

Example int16_samples :
  map Int16.parse ["0x1f"; " 0x1f "; "-0x5"; "+0X1F"; "0x_1f"; "1_f"; "DeadBeef"; "-0"]
  = [Some 31; Some 31; Some (-5); Some 31; Some 31; Some 31; Some 3735928559; Some 0]
  /\ map Int16.parse [""; "0x"; "0x__1"; "_1"; "1__f"; "1f_"; "x1"; "0x-1"; "- 1"; "1 2"; "0xg"; "-_1"]
     = [None; None; None; None; None; None; None; None; None; None; None; None].
Proof. split; vm_compute; reflexivity. Qed.

(** Beyond ASCII.  Arabic-Indic digits (U+0661 U+0662), fullwidth digits
    (U+FF11 U+FF10) and a Devanagari zero (U+0966) are digits; a no-break
    space (U+00A0) and an ideographic space (U+3000) around the number are
    stripped.  A superscript two (U+00B2), a no-break space inside the
    number, an ASCII file separator (0x1C) before it and a letter with an
    accent (U+00E9) are refused. *)
Example int16_unicode_samples :
  map Int16.parse
    [text_of_bytes [217; 161; 217; 162]%nat;
     text_of_bytes [194; 160; 49; 102; 227; 128; 128]%nat;
     text_of_bytes [239; 188; 145; 239; 188; 144]%nat;
     text_of_bytes [48; 120; 217; 161]%nat;
     text_of_bytes [224; 165; 166; 97]%nat]
  = [Some 18; Some 31; Some 16; Some 1; Some 10]
  /\ map Int16.parse
       [text_of_bytes [194; 178]%nat;
        text_of_bytes [49; 194; 160; 102]%nat;
        text_of_bytes [28; 49; 102]%nat;
        text_of_bytes [195; 169]%nat]
     = [None; None; None; None].
Proof. split; vm_compute; reflexivity. Qed.

Example hex_samples : map hex [255; -255; 0; 1000] = ["0xff"; "-0xff"; "0x0"; "0x3e8"].
Proof. reflexivity. Qed.

(** ** Projections of a trace distribute over concatenation *)

Lemma rpc_calls_app (a b : list event) : rpc_calls (a ++ b) = rpc_calls a ++ rpc_calls b.
Proof.
  induction a as [|ev a IH]; simpl; [reflexivity|].
  destruct ev; simpl; rewrite ?IH; reflexivity.
Qed.

Lemma log_records_app (a b : list event) :
  log_records (a ++ b) = log_records a ++ log_records b.
Proof.
  induction a as [|ev a IH]; simpl; [reflexivity|].
  destruct ev; simpl; rewrite ?IH; reflexivity.
Qed.

Lemma Qlt_bool_iff (a b : Q) : Qlt_bool a b = true <-> (a < b)%Q.
Proof.
  unfold Qlt_bool. rewrite negb_true_iff.
  destruct (Qle_bool b a) eqn:E.
  - apply Qle_bool_iff in E. split; [discriminate|]. intros H.
    exfalso. apply (Qlt_irrefl a). eapply Qlt_le_trans; eauto.
  - split; [|reflexivity]. intros _. apply Qnot_le_lt. intros H.
    apply Qle_bool_iff in H. congruence.
Qed.

Lemma Qlt_bool_false (a b : Q) : Qlt_bool a b = false <-> (b <= a)%Q.
Proof.
  unfold Qlt_bool. rewrite negb_false_iff. apply Qle_bool_iff.
Qed.

Lemma connected_app (port : Z) (a b : list event) :
  connected port (a ++ b) <-> connected port a \/ connected port b.
Proof.
  unfold connected. split.
  - intros (fd & h & Hin). apply in_app_or in Hin. destruct Hin; eauto.
  - intros [(fd & h & Hin)|(fd & h & Hin)]; exists fd, h; apply in_or_app; auto.
Qed.

Section Runs.
Context {W : Type} {P : Platform W}.

(** *** The RPC client: one POST, then a pure decoding of its answer *)

Lemma fetch_latest_block_number_run (url : string) (s : machine W) :
  fetch_latest_block_number url s =
    (head_of_response (fst (requests_post url block_number_payload (world s))),
     emit (EvPost url block_number_payload
             (fst (requests_post url block_number_payload (world s))))
          (set_world (snd (requests_post url block_number_payload (world s))) s)).
Proof.
  unfold fetch_latest_block_number, bind, post.
  destruct (requests_post url block_number_payload (world s)) as [r w]; simpl.
  destruct r as [resp|e]; simpl; [|reflexivity].
  destruct (status_code resp =? 200); [|reflexivity].
  unfold response_json. destruct (body_json resp) as [body|]; simpl; [|reflexivity].
  destruct (py_get body "result" JNull) as [v|e]; simpl; [|reflexivity].
  destruct v; simpl; try reflexivity.
  unfold py_int16. destruct (Int16.parse _); reflexivity.
Qed.

Lemma fetch_block_details_run (url : string) (n : Z) (s : machine W) :
  let payload := block_details_payload (hex n) in
  fetch_block_details url (Some n) s =
    (details_of_response (fst (requests_post url payload (world s))),
     emit (EvPost url payload (fst (requests_post url payload (world s))))
          (set_world (snd (requests_post url payload (world s))) s)).
Proof.
  unfold fetch_block_details, bind, post; simpl.
  destruct (requests_post url (block_details_payload (hex n)) (world s)) as [r w]; simpl.
  destruct r as [resp|e]; simpl; [|reflexivity].
  destruct (status_code resp =? 200); [|reflexivity].
  unfold response_json. destruct (body_json resp) as [body|]; simpl; [|reflexivity].
  destruct (py_get body "result" (JObj [])) as [v|e]; reflexivity.
Qed.

Lemma fetch_block_details_none (url : string) (s : machine W) :
  fetch_block_details url None s = (Raise TypeError, s).
Proof. reflexivity. Qed.

Lemma head_of_response_fueled (r : result response) : head_of_response r <> OutOfFuel.
Proof.
  destruct r as [resp|e]; simpl; [|discriminate].
  destruct (status_code resp =? 200); [|discriminate].
  destruct (body_json resp) as [body|]; [|discriminate].
  destruct (py_get body "result" JNull) as [v|e]; [|discriminate].
  destruct v; simpl; try discriminate.
  destruct (Int16.parse s); discriminate.
Qed.

Lemma details_of_response_fueled (r : result response) :
  details_of_response r <> OutOfFuel.
Proof.
  destruct r as [resp|e]; simpl; [|discriminate].
  destruct (status_code resp =? 200); [|discriminate].
  destruct (body_json resp) as [body|]; [|discriminate].
  destruct (py_get body "result" (JObj [])) as [v|e]; discriminate.
Qed.

(** *** The port probe *)

(** One probe.  It either raises before its [try] block, with the exception
    the system raised for the socket, or returns a boolean: true exactly
    when its connect reported success.  A probe that returns has left the
    socket table longer by one exactly when it ended in its [except]
    branch. *)
Lemma is_port_open_connects (host : string) (port : Z) (s : machine W) :
  exists o s' evs,
    is_port_open host port s = (o, s')
    /\ trace s' = trace s ++ evs
    /\ Forall probe_event evs
    /\ (forall fd h p r, In (EvConnect fd h p r) evs -> p = port)
    /\ match o with
       | Ret b =>
           (b = true <-> connected port evs)
           /\ (b = true -> open_fds s' = open_fds s)
           /\ Forall (fun ev => setup_error ev = false) evs
           /\ List.length (open_fds s')
              = (List.length (open_fds s)
                 + List.length (filter port_error_line (log_records evs)))%nat
       | Raise e => setup_failure e evs
       | OutOfFuel => False
       end.
Proof.
  unfold is_port_open, bind, try_except, socket_socket, sock_settimeout,
    get_hostname, sock_connect_ex, sock_close, logging_error, emit, set_world.
  destruct (socket_create (world s)) as [[[]|e0] w0]; cbn [world trace next_fd open_fds].
  2:{ do 3 eexists. split; [reflexivity|]. cbn [trace].
      split; [reflexivity|]. split; [repeat constructor|].
      split; [|left; reflexivity].
      intros fd h p r [H|[]]. discriminate. }
  destruct (socket_settimeout 1 w0) as [[[]|e1] w1]; cbn [world trace next_fd open_fds].
  2:{ do 3 eexists. split; [reflexivity|]. cbn [trace].
      split; [rewrite <- !app_assoc; reflexivity|]. split; [repeat constructor|].
      split; [|right; do 2 eexists; reflexivity].
      intros fd h p r [H|[H|[]]]; discriminate. }
  destruct (urlparse_hostname host) as [[h|]|e]; simpl.
  - destruct (socket_connect_ex h port w1) as [[code|e] w] eqn:E; simpl.
    + do 3 eexists. split; [reflexivity|]. simpl.
      split; [rewrite <- !app_assoc; simpl; reflexivity|].
      split; [repeat constructor|].
      rewrite Nat.eqb_refl. simpl.
      split; [|split; [|split; [reflexivity|split; [repeat constructor|lia]]]].
      * intros fd h' p r Hin. simpl in Hin.
        destruct Hin as [H|[H|[H|[H|[]]]]]; try discriminate.
        injection H as _ _ -> _. reflexivity.
      * split.
        -- intros H. apply Z.eqb_eq in H. subst code.
           exists (next_fd s), h. simpl. auto.
        -- intros (fd & h' & Hin). simpl in Hin.
           destruct Hin as [H|[H|[H|[H|[]]]]]; try discriminate.
           injection H as _ _ ->. reflexivity.
    + do 3 eexists. split; [reflexivity|]. simpl.
      split; [rewrite <- !app_assoc; simpl; reflexivity|].
      split; [repeat constructor|].
      split; [|split; [|split; [discriminate|split; [repeat constructor|simpl; lia]]]].
      * intros fd h' p r Hin. simpl in Hin.
        destruct Hin as [H|[H|[H|[H|[]]]]]; try discriminate.
        injection H as _ _ -> _. reflexivity.
      * split; [discriminate|].
        intros (fd & h' & Hin). simpl in Hin.
        destruct Hin as [H|[H|[H|[H|[]]]]]; discriminate.
  - do 3 eexists. split; [reflexivity|]. simpl.
    split; [rewrite <- !app_assoc; simpl; reflexivity|].
    split; [repeat constructor|].
    split; [|split; [|split; [discriminate|split; [repeat constructor|simpl; lia]]]].
    * intros fd h' p r Hin. simpl in Hin.
      destruct Hin as [H|[H|[H|[]]]]; discriminate.
    * split; [discriminate|].
      intros (fd & h' & Hin). simpl in Hin.
      destruct Hin as [H|[H|[H|[]]]]; discriminate.
  - do 3 eexists. split; [reflexivity|]. simpl.
    split; [rewrite <- !app_assoc; simpl; reflexivity|].
    split; [repeat constructor|].
    split; [|split; [|split; [discriminate|split; [repeat constructor|simpl; lia]]]].
    * intros fd h' p r Hin. simpl in Hin.
      destruct Hin as [H|[H|[H|[]]]]; discriminate.
    * split; [discriminate|].
      intros (fd & h' & Hin). simpl in Hin.
      destruct Hin as [H|[H|[H|[]]]]; discriminate.
Qed.

Lemma probe_events_no_rpc (evs : list event) :
  Forall probe_event evs -> rpc_calls evs = [] /\
    Forall (fun r => verdict_line (snd r) = false) (log_records evs).
Proof.
  induction 1 as [|ev evs Hev _ [IH1 IH2]]; simpl; [split; [reflexivity|constructor]|].
  destruct ev; simpl in *; try contradiction; try (split; assumption).
  destruct msg; try contradiction. split; [assumption|]. constructor; [reflexivity|assumption].
Qed.

(** The scan as a whole.  It raises only when a probe raised before its
    [try] block, and then the scan stops there.  Otherwise it returns one
    entry per port, in order; with distinct ports, each entry tells whether
    that port's connect succeeded. *)
Lemma port_scan_status (url : string) (ports : list Z) :
  forall s : machine W,
  exists o s' evs,
    dict_comprehension (is_port_open url) ports s = (o, s')
    /\ trace s' = trace s ++ evs
    /\ Forall probe_event evs
    /\ (forall fd h p r, In (EvConnect fd h p r) evs -> In p ports)
    /\ match o with
       | Ret status =>
           map fst status = ports
           /\ (NoDup ports ->
               forall p b, In (p, b) status -> (b = true <-> connected p evs))
           /\ Forall (fun ev => setup_error ev = false) evs
           /\ List.length (open_fds s')
              = (List.length (open_fds s)
                 + List.length (filter port_error_line (log_records evs)))%nat
       | Raise e => scan_aborted e evs
       | OutOfFuel => False
       end.
Proof.
  induction ports as [|port ports IH]; intros s; simpl.
  - exists (Ret []), s, []. rewrite app_nil_r. simpl.
    repeat split; try constructor; try contradiction; try lia.
  - unfold bind at 1.
    destruct (is_port_open_connects url port s)
      as (o1 & s1 & e1 & Hrun & Ht1 & Hp1 & Hports1 & Ho1).
    rewrite Hrun.
    destruct o1 as [b|e|]; [| |contradiction].
    2:{ exists (Raise e), s1, e1. split; [reflexivity|]. split; [exact Ht1|].
        split; [exact Hp1|]. split.
        - intros fd h p r Hin. left. symmetry. eapply Hports1; eauto.
        - exists [], e1. split; [reflexivity|]. split; [constructor|exact Ho1]. }
    destruct Ho1 as (Hb & _ & Hok1 & Hfd1).
    destruct (IH s1) as (o2 & s2 & e2 & Hrest & Ht2 & Hp2 & Hports2 & Ho2).
    unfold bind at 1. rewrite Hrest.
    assert (Htrace : trace s2 = trace s ++ e1 ++ e2)
      by (rewrite Ht2, Ht1, app_assoc; reflexivity).
    assert (Hin : forall fd h p r, In (EvConnect fd h p r) (e1 ++ e2) -> In p (port :: ports)).
    { intros fd h p r Hin. apply in_app_or in Hin. destruct Hin as [Hin|Hin].
      - left. symmetry. eapply Hports1; eauto.
      - right. eapply Hports2; eauto. }
    destruct o2 as [status|e|]; [| |contradiction].
    + exists (Ret ((port, b) :: status)), s2, (e1 ++ e2).
      destruct Ho2 as (Hkeys & Hst & Hok2 & Hfd2).
      split; [reflexivity|]. split; [exact Htrace|].
      split; [apply Forall_app; split; assumption|].
      split; [exact Hin|].
      split; [simpl; rewrite Hkeys; reflexivity|].
      split; [|split].
      * intros Hnd p c Hc. apply NoDup_cons_iff in Hnd. destruct Hnd as [Hnotin Hnd'].
        rewrite connected_app. destruct Hc as [Heq|Hc].
        -- injection Heq as <- <-. rewrite Hb. split; [auto|].
           intros [H|(fd & h & Hcn)]; [exact H|].
           exfalso. apply Hnotin. eapply Hports2; eauto.
        -- rewrite (Hst Hnd' p c Hc). split; [auto|].
           intros [(fd & h & Hcn)|H]; [|exact H].
           exfalso. apply Hnotin. pose proof (Hports1 _ _ _ _ Hcn) as Hp. subst p.
           rewrite <- Hkeys. apply (in_map fst) in Hc. exact Hc.
      * apply Forall_app. split; assumption.
      * rewrite Hfd2, Hfd1, log_records_app, filter_app, length_app. lia.
    + exists (Raise e), s2, (e1 ++ e2).
      split; [reflexivity|]. split; [exact Htrace|].
      split; [apply Forall_app; split; assumption|].
      split; [exact Hin|].
      destruct Ho2 as (done & last & -> & Hdone & Hlast).
      exists (e1 ++ done), last. split; [rewrite app_assoc; reflexivity|].
      split; [apply Forall_app; split; assumption|exact Hlast].
Qed.

(** The per-port report of [main] only logs: one line per entry. *)
Lemma port_report_lines (status : list (Z * bool)) :
  forall s : machine W,
  exists s',
    for_each status
      (fun entry =>
         if snd entry then logging_info (MsgPortOpen (fst entry))
         else logging_error (MsgPortClosed (fst entry))) s = (Ret tt, s')
    /\ trace s' = trace s ++ port_lines status.
Proof.
  induction status as [|[port b] status IH]; intros s; simpl.
  - exists s. rewrite app_nil_r. split; reflexivity.
  - unfold bind at 1. destruct b; simpl.
    + destruct (IH (emit (EvLog INFO (MsgPortOpen port)) s)) as (s2 & Hr & Ht).
      exists s2. split; [exact Hr|]. rewrite Ht. simpl. rewrite <- app_assoc. reflexivity.
    + destruct (IH (emit (EvLog ERROR (MsgPortClosed port)) s)) as (s2 & Hr & Ht).
      exists s2. split; [exact Hr|]. rewrite Ht. simpl. rewrite <- app_assoc. reflexivity.
Qed.

(** *** The progression poller *)

Lemma poll_unfold (fuel : nat) (url : string) (timeout start : Q) (base : Z)
      (s : machine W) :
  poll (S fuel) url timeout start base s =
    let t := fst (time_time (world s)) in
    let s1 := emit (EvTime t) (set_world (snd (time_time (world s))) s) in
    if Qlt_bool (float_sub t start) timeout then
      match fetch_latest_block_number url s1 with
      | (Ret h, s2) =>
          if advanced h base then (Ret true, s2)
          else poll fuel url timeout start base
                 (emit (EvSleep 5) (set_world (time_sleep 5 (world s2)) s2))
      | (Raise e, s2) => (Raise e, s2)
      | (OutOfFuel, s2) => (OutOfFuel, s2)
      end
    else (Ret false, s1).
Proof.
  simpl. unfold bind at 1. unfold time_now.
  destruct (time_time (world s)) as [t w1]; simpl.
  destruct (Qlt_bool (float_sub t start) timeout); [|reflexivity].
  unfold bind at 1.
  destruct (fetch_latest_block_number url _) as [[h|e|] s2]; try reflexivity.
  destruct (advanced h base); reflexivity.
Qed.

(** Every run of the loop follows the state machine, and the budget runs
    out exactly in the runs that went through as many full rounds as the
    budget counts. *)
Lemma poll_sound (fuel : nat) (url : string) (timeout start : Q) (base : Z) :
  forall s, exists evs,
    trace (snd (poll fuel url timeout start base s)) = trace s ++ evs
    /\ loop_trace float_sub url timeout start base evs
         (fst (poll fuel url timeout start base s))
    /\ (sleeps evs <= fuel)%nat
    /\ (fst (poll fuel url timeout start base s) = OutOfFuel <-> sleeps evs = fuel).
Proof.
  induction fuel as [|fuel IH]; intros s.
  - exists []. simpl. rewrite app_nil_r.
    split; [reflexivity|]. split; [constructor|]. split; [lia|]. split; reflexivity.
  - rewrite poll_unfold. cbv zeta.
    set (t := fst (time_time (world s))).
    set (s1 := emit (EvTime t) (set_world (snd (time_time (world s))) s)).
    destruct (Qlt_bool (float_sub t start) timeout) eqn:Hlt.
    + apply Qlt_bool_iff in Hlt.
      rewrite fetch_latest_block_number_run.
      set (r := fst (requests_post url block_number_payload (world s1))).
      set (s2 := emit (EvPost url block_number_payload r) _).
      destruct (head_of_response r) as [h|e|] eqn:Hr.
      * destruct (advanced h base) eqn:Ha.
        -- exists [EvTime t; EvPost url block_number_payload r]. simpl.
           split; [rewrite <- app_assoc; reflexivity|].
           split; [|split; [lia|split; [discriminate|intros H; discriminate H]]].
           destruct h as [c|]; [|discriminate]. simpl in Ha.
           apply Z.ltb_lt in Ha. eapply loop_success; eauto.
        -- destruct (IH (emit (EvSleep 5) (set_world (time_sleep 5 (world s2)) s2)))
             as (evs & Ht & Hl & Hle & Hout).
           exists (EvTime t :: EvPost url block_number_payload r :: EvSleep 5 :: evs).
           split; [rewrite Ht; simpl; rewrite <- !app_assoc; reflexivity|].
           split; [eapply loop_again; eauto|].
           cbn [sleeps]. split; [lia|].
           rewrite Hout. split; [intros ->; reflexivity|intros H; injection H as H; exact H].
      * exists [EvTime t; EvPost url block_number_payload r]. simpl.
        split; [rewrite <- app_assoc; reflexivity|].
        split; [eapply loop_raise; eauto|].
        split; [lia|split; [discriminate|intros H; discriminate H]].
      * exfalso. exact (head_of_response_fueled r Hr).
    + apply Qlt_bool_false in Hlt.
      exists [EvTime t]. simpl. split; [reflexivity|].
      split; [constructor; exact Hlt|].
      split; [lia|split; [discriminate|intros H; discriminate H]].
Qed.

End Runs.

(** ** What the polling state machine implies *)

Section LoopTrace.
Variables (sub : Q -> Q -> Q) (url : string) (timeout start : Q) (base : Z).

Lemma loop_trace_true (evs : list event) :
  loop_trace sub url timeout start base evs (Ret true) ->
  exists pre t r,
    evs = pre ++ [EvTime t; EvPost url block_number_payload r]
    /\ (sub t start < timeout)%Q
    /\ advanced_poll base (EvPost url block_number_payload r)
    /\ Forall (quiet_poll base) pre.
Proof.
  intros H. remember (Ret true) as o eqn:Ho.
  induction H as [|t Ht|t r c Ht Hr Hc|t r e Ht Hr|t r h evs o Ht Hr Ha Hl IH];
    try discriminate.
  - exists [], t, r. simpl. repeat split; eauto.
  - destruct (IH Ho) as (pre & t' & r' & -> & Ht' & Hadv & Hq).
    exists (EvTime t :: EvPost url block_number_payload r :: EvSleep 5 :: pre), t', r'.
    repeat split; auto.
    repeat constructor; auto. simpl. eauto.
Qed.

Lemma loop_trace_false (evs : list event) :
  loop_trace sub url timeout start base evs (Ret false) ->
  Forall (quiet_poll base) evs
  /\ exists pre t, evs = pre ++ [EvTime t] /\ (timeout <= sub t start)%Q.
Proof.
  intros H. remember (Ret false) as o eqn:Ho.
  induction H as [|t Ht|t r c Ht Hr Hc|t r e Ht Hr|t r h evs o Ht Hr Ha Hl IH];
    try discriminate.
  - split; [repeat constructor|]. exists [], t. split; [reflexivity|assumption].
  - destruct (IH Ho) as (Hq & pre & t' & -> & Ht').
    split.
    + repeat constructor; auto. simpl. eauto.
    + exists (EvTime t :: EvPost url block_number_payload r :: EvSleep 5 :: pre), t'.
      split; [reflexivity|assumption].
Qed.

(** A run whose last event is a clock reading left the loop on it. *)
Lemma loop_trace_last_reading (evs : list event) (o : outcome bool) (t : Q) :
  loop_trace sub url timeout start base evs o ->
  last evs (EvSleep 0) = EvTime t ->
  o = Ret false.
Proof.
  induction 1 as [|t0 Ht|t0 r c Ht Hr Hc|t0 r e Ht Hr|t0 r h evs o Ht Hr Ha Hl IH];
    intros Hlast; try reflexivity; try (simpl in Hlast; discriminate).
  destruct evs as [|ev evs]; [simpl in Hlast; discriminate|].
  apply IH. exact Hlast.
Qed.

Lemma advanced_not_quiet (ev : event) :
  advanced_poll base ev -> quiet_poll base ev -> False.
Proof.
  destruct ev; simpl; try contradiction.
  intros (c & Hc & Hlt) (h & Hh & Ha).
  rewrite Hc in Hh. inversion Hh; subst h. simpl in Ha.
  apply Z.ltb_ge in Ha. lia.
Qed.

Lemma loop_trace_advanced (evs : list event) (o : outcome bool) :
  loop_trace sub url timeout start base evs o ->
  Exists (advanced_poll base) evs -> o = Ret true.
Proof.
  induction 1 as [|t Ht|t r c Ht Hr Hc|t r e Ht Hr|t r h evs o Ht Hr Ha Hl IH];
    intros Hex; try reflexivity.
  - inversion Hex.
  - inversion Hex as [? ? Hx|? ? Hx]; subst; [destruct Hx|inversion Hx].
  - inversion Hex as [? ? Hx|? ? Hx]; subst; [destruct Hx|].
    inversion Hx as [? ? Hy|? ? Hy]; subst; [|inversion Hy].
    destruct Hy as (c & Hc & _). congruence.
  - inversion Hex as [? ? Hx|? ? Hx]; subst; [destruct Hx|].
    inversion Hx as [? ? Hy|? ? Hy]; subst.
    + exfalso. apply (advanced_not_quiet _ Hy). simpl. eauto.
    + inversion Hy as [? ? Hz|? ? Hz]; subst; [destruct Hz|]. auto.
Qed.

(** The loop queries nothing but the head of its own endpoint. *)
Lemma loop_trace_rpc (evs : list event) (o : outcome bool) :
  loop_trace sub url timeout start base evs o ->
  Forall (fun call => fst call = (url, block_number_payload)) (rpc_calls evs).
Proof.
  induction 1; simpl; repeat constructor; auto.
Qed.

End LoopTrace.

Lemma inject_Z_succ (n : nat) :
  (inject_Z (Z.of_nat (S n)) == inject_Z (Z.of_nat n) + 1)%Q.
Proof.
  rewrite Nat2Z.inj_succ. unfold Z.succ. rewrite inject_Z_plus. reflexivity.
Qed.

Section Progression.
Context {W : Type} {P : Platform W}.
Variable clk : W -> Q.
Hypothesis ticking : Ticking clk.

(** With a timeout that is a float, a rounded difference below the timeout
    comes from an exact difference below it. *)
Lemma in_window_exact (timeout a b : Q) :
  (float_sub timeout 0 == timeout)%Q ->
  (float_sub a b < timeout)%Q -> (a - b < timeout)%Q.
Proof.
  intros Hfloat Hlt. apply Qnot_le_lt. intros Hle.
  pose proof (tick_round clk ticking a b timeout Hfloat Hle) as Hr.
  apply (Qlt_irrefl timeout). eapply Qle_lt_trans; eauto.
Qed.

(** A difference of readings that did not run backwards is not rounded
    below zero. *)
Lemma elapsed_nonnegative (a b : Q) : (b <= a)%Q -> (0 <= float_sub a b)%Q.
Proof.
  intros Hle. apply (tick_round clk ticking a b 0); [apply (tick_zero clk ticking)|lra].
Qed.

(** With a clock that moves, the loop ends within [timeout / 5] rounds. *)
Lemma poll_terminates (url : string) (timeout start : Q) (base : Z) (n : nat) :
  (float_sub timeout 0 == timeout)%Q ->
  forall (s : machine W) (fuel : nat),
    (timeout - (clk (world s) - start) <= 5 * inject_Z (Z.of_nat n))%Q ->
    (n < fuel)%nat ->
    fst (poll fuel url timeout start base s) <> OutOfFuel.
Proof.
  intros Hfloat.
  induction n as [|n IH]; intros s fuel Hn Hfuel;
    (destruct fuel as [|fuel]; [lia|]);
    rewrite poll_unfold; cbv zeta;
    pose proof (tick_read clk ticking (world s)) as [Hr1 Hr2];
    destruct (Qlt_bool (float_sub (fst (time_time (world s))) start) timeout) eqn:Hlt;
    try (simpl; discriminate);
    apply Qlt_bool_iff in Hlt; apply (in_window_exact _ _ _ Hfloat) in Hlt.
  - exfalso. change (inject_Z (Z.of_nat 0)) with 0%Q in Hn. lra.
  - rewrite fetch_latest_block_number_run.
    set (s1 := emit _ (set_world (snd (time_time (world s))) s)).
    set (r := fst (requests_post url block_number_payload (world s1))).
    destruct (head_of_response r) as [h|e|] eqn:Hhead.
    + destruct (advanced h base); [simpl; discriminate|].
      apply IH; [|lia]. simpl.
      pose proof (tick_post clk ticking url block_number_payload
                    (snd (time_time (world s)))) as Hp.
      pose proof (tick_sleep clk ticking 5
                    (snd (requests_post url block_number_payload
                            (snd (time_time (world s)))))) as Hs.
      rewrite inject_Z_succ in Hn. lra.
    + simpl. discriminate.
    + exfalso. exact (head_of_response_fueled r Hhead).
Qed.

Lemma check_block_progression_unfold (fuel : nat) (url : string) (timeout : Q)
      (s : machine W) :
  check_block_progression fuel url timeout s =
    let t0 := fst (time_time (world s)) in
    let s1 := emit (EvTime t0) (set_world (snd (time_time (world s))) s) in
    match fetch_latest_block_number url s1 with
    | (Ret None, s2) => (Ret false, s2)
    | (Ret (Some b), s2) => poll fuel url timeout t0 b s2
    | (Raise e, s2) => (Raise e, s2)
    | (OutOfFuel, s2) => (OutOfFuel, s2)
    end.
Proof.
  unfold check_block_progression. unfold bind at 1. unfold time_now.
  destruct (time_time (world s)) as [t0 w1]; simpl.
  unfold bind at 1.
  destruct (fetch_latest_block_number url _) as [[[b|]|e|] s2]; reflexivity.
Qed.

(** The whole check queries nothing but the head of its own endpoint. *)
Lemma check_block_progression_rpc (fuel : nat) (url : string) (timeout : Q)
      (s : machine W) :
  exists evs,
    trace (snd (check_block_progression fuel url timeout s)) = trace s ++ evs
    /\ Forall (fun call => fst call = (url, block_number_payload)) (rpc_calls evs)
    /\ Forall (fun r => verdict_line (snd r) = false) (log_records evs).
Proof.
  rewrite check_block_progression_unfold. cbv zeta.
  rewrite fetch_latest_block_number_run.
  set (t0 := fst (time_time (world s))).
  set (s1 := emit (EvTime t0) _).
  set (r0 := fst (requests_post url block_number_payload (world s1))).
  set (s2 := emit (EvPost url block_number_payload r0) _).
  assert (Hbase : trace s2 = trace s ++ [EvTime t0; EvPost url block_number_payload r0]).
  { simpl. rewrite <- app_assoc. reflexivity. }
  destruct (head_of_response r0) as [[b|]|e|];
    try (exists [EvTime t0; EvPost url block_number_payload r0]; simpl;
         split; [exact Hbase|split; repeat constructor]).
  destruct (poll_sound fuel url timeout t0 b s2) as (evs & Ht & Hl & _).
  exists ([EvTime t0; EvPost url block_number_payload r0] ++ evs).
  split; [rewrite Ht, Hbase, <- app_assoc; reflexivity|].
  split.
  - simpl. constructor; [reflexivity|]. eapply loop_trace_rpc; eauto.
  - simpl. clear Ht. induction Hl; simpl; auto.
Qed.

(** C7. Whatever the endpoint and the timeout, when the baseline query of
    [eth_blockNumber] comes back absent, [check_block_progression] returns
    false at once: the state it ends in is the one the baseline query
    left, whose trace holds the start-time reading and that one query and
    nothing else (no poll, no sleep), and this for every loop budget,
    zero included. *)
Theorem absent_baseline_fails_at_once (fuel : nat) (url : string) (timeout : Q)
        (s s2 : machine W) :
  fetch_latest_block_number url (snd (time_now s)) = (Ret None, s2) ->
  check_block_progression fuel url timeout s = (Ret false, s2)
  /\ exists t r, trace s2 = trace s ++ [EvTime t; EvPost url block_number_payload r].
Proof.
  intros Hfetch.
  rewrite check_block_progression_unfold. cbv zeta.
  unfold time_now in Hfetch.
  destruct (time_time (world s)) as [t0 w1] eqn:Htime; simpl in *.
  rewrite Hfetch. split; [reflexivity|].
  rewrite fetch_latest_block_number_run in Hfetch.
  inversion Hfetch as [[Hhead Hs2]]. simpl.
  do 2 eexists. rewrite <- app_assoc. reflexivity.
Qed.

End Progression.

Section Verdict.
Context {W : Type} {P : Platform W}.

(** C5. For every endpoint, timeout and state of the world, a run of
    [check_block_progression] opens with the start-time reading and the
    baseline query, and with a present baseline what follows is a run of the
    polling state machine [loop_trace]: every round reads the clock, and
    while the elapsed time the loop computes is below the timeout it polls
    the head of the endpoint.  Hence the verdict is true exactly when some
    poll reported a head strictly above the baseline; the run then returns
    at the first such poll, which was made inside the time window and is the
    last event of the run (no sleep, no poll after it), every earlier poll
    having reported a head that was absent, equal or lower.  The verdict is
    false exactly when the run ends on a clock reading, which is then at or
    past the time bound, no poll having reported an increase.  The loop
    budget of the model runs out exactly in the runs that made that many
    full rounds; on a platform whose clock moves, and for a timeout that is
    a float, a budget above the timeout in seconds never runs out. *)
Theorem check_block_progression_verdict (url : string) (timeout : Q) (s : machine W)
        (fuel : nat) :
  let run := check_block_progression fuel url timeout s in
  exists start r0 evs,
    trace (snd run) = trace s ++ EvTime start :: EvPost url block_number_payload r0 :: evs
    /\ forall base, head_of_response r0 = Ret (Some base) ->
         loop_trace float_sub url timeout start base evs (fst run)
         /\ (fst run = OutOfFuel <-> sleeps evs = fuel)
         /\ (fst run = Ret true <-> Exists (advanced_poll base) evs)
         /\ (fst run = Ret true ->
             exists pre t r,
               evs = pre ++ [EvTime t; EvPost url block_number_payload r]
               /\ (float_sub t start < timeout)%Q
               /\ advanced_poll base (EvPost url block_number_payload r)
               /\ Forall (quiet_poll base) pre)
         /\ (fst run = Ret false <-> exists pre t, evs = pre ++ [EvTime t])
         /\ (fst run = Ret false ->
             Forall (quiet_poll base) evs
             /\ exists pre t, evs = pre ++ [EvTime t]
                              /\ (timeout <= float_sub t start)%Q)
         /\ (forall clk : W -> Q,
                Ticking clk ->
                (float_sub timeout 0 == timeout)%Q ->
                (Z.to_nat (Qceiling timeout) < fuel)%nat ->
                fst run <> OutOfFuel).
Proof.
  cbv zeta.
  rewrite check_block_progression_unfold. cbv zeta.
  rewrite fetch_latest_block_number_run.
  set (t0 := fst (time_time (world s))).
  set (s1 := emit (EvTime t0) _).
  set (r0 := fst (requests_post url block_number_payload (world s1))).
  set (s2 := emit (EvPost url block_number_payload r0) _).
  assert (Hbase : trace s2 = trace s ++ [EvTime t0; EvPost url block_number_payload r0]).
  { simpl. rewrite <- app_assoc. reflexivity. }
  destruct (head_of_response r0) as [[b|]|e|] eqn:Hhead.
  - destruct (poll_sound fuel url timeout t0 b s2) as (evs & Ht & Hl & _ & Hout).
    exists t0, r0, evs.
    split; [rewrite Ht, Hbase, <- app_assoc; reflexivity|].
    intros base Hb. rewrite Hhead in Hb. injection Hb as <-.
    set (o := fst (poll fuel url timeout t0 b s2)) in *.
    split; [exact Hl|]. split; [exact Hout|].
    split; [split|].
    { intros Ho. rewrite Ho in Hl.
      destruct (loop_trace_true _ _ _ _ _ _ Hl) as (pre & t & r & -> & _ & Ha & _).
      apply Exists_app. right. apply Exists_cons_tl. apply Exists_cons_hd. exact Ha. }
    { eapply loop_trace_advanced; eauto. }
    split.
    { intros Ho. rewrite Ho in Hl. eapply loop_trace_true; eauto. }
    split; [split|].
    { intros Ho. rewrite Ho in Hl.
      destruct (loop_trace_false _ _ _ _ _ _ Hl) as (_ & pre & t & Hevs & _). eauto. }
    { intros (pre & t & Hevs).
      apply (loop_trace_last_reading _ _ _ _ _ _ _ t Hl).
      rewrite Hevs. apply last_last. }
    split.
    { intros Ho. rewrite Ho in Hl. eapply loop_trace_false; eauto. }
    intros clk ticking Hfloat Hfuel.
    apply (poll_terminates clk ticking url timeout t0 b (Z.to_nat (Qceiling timeout)));
      [exact Hfloat| |lia].
    pose proof (tick_read clk ticking (world s)) as [_ Hr].
    pose proof (tick_post clk ticking url block_number_payload
                  (snd (time_time (world s)))) as Hp.
    pose proof (Qle_ceiling timeout) as Hc.
    assert (Hz : (inject_Z (Qceiling timeout)
                  <= inject_Z (Z.of_nat (Z.to_nat (Qceiling timeout))))%Q).
    { rewrite <- Zle_Qle. lia. }
    assert (Hn : (0 <= inject_Z (Z.of_nat (Z.to_nat (Qceiling timeout))))%Q).
    { change 0%Q with (inject_Z 0). rewrite <- Zle_Qle. lia. }
    simpl. fold t0 in Hr. lra.
  - exists t0, r0, []. split; [exact Hbase|].
    intros base Hb. rewrite Hhead in Hb. discriminate.
  - exists t0, r0, []. split; [exact Hbase|].
    intros base Hb. rewrite Hhead in Hb. discriminate.
  - exfalso. exact (head_of_response_fueled r0 Hhead).
Qed.

End Verdict.

(** ** The port sets and the port report *)

Lemma NoDup_service_ports : NoDup service_ports.
Proof.
  unfold service_ports.
  repeat (constructor; [simpl; intros H; repeat (destruct H as [H|H]; try discriminate); exact H|]).
  constructor.
Qed.

Lemma NoDup_cli_ports : NoDup cli_ports.
Proof.
  unfold cli_ports.
  repeat (constructor; [simpl; intros H; repeat (destruct H as [H|H]; try discriminate); exact H|]).
  constructor.
Qed.

Lemma port_lines_no_rpc_calls (status : list (Z * bool)) : rpc_calls (port_lines status) = [].
Proof. induction status as [|[p []] status IH]; simpl; auto. Qed.

Lemma port_lines_no_verdict (status : list (Z * bool)) :
  Forall (fun r => verdict_line (snd r) = false) (log_records (port_lines status)).
Proof.
  induction status as [|[p []] status IH]; simpl; constructor; auto.
Qed.

Lemma port_lines_not_connected (port : Z) (status : list (Z * bool)) :
  ~ connected port (port_lines status).
Proof.
  intros (fd & h & Hin). induction status as [|[p []] status IH]; simpl in Hin;
    try contradiction; destruct Hin as [H|H]; try discriminate; auto.
Qed.




(** The part of a run of [main] that comes before its first JSON-RPC call:
    the opening line, the probes, the port report. *)
Lemma cli_scan_quiet (probes : list event) (status : list (Z * bool)) :
  Forall probe_event probes ->
  rpc_calls (EvLog INFO MsgStarting :: probes ++ port_lines status) = []
  /\ Forall (fun r => verdict_line (snd r) = false)
            (log_records (EvLog INFO MsgStarting :: probes ++ port_lines status)).
Proof.
  intros Hp. destruct (probe_events_no_rpc probes Hp) as [Hr Hl]. split.
  - simpl. rewrite rpc_calls_app, Hr, port_lines_no_rpc_calls. reflexivity.
  - simpl. constructor; [reflexivity|].
    rewrite log_records_app. apply Forall_app. split; [exact Hl|apply port_lines_no_verdict].
Qed.

(** ** The aggregators *)

Section Aggregators.
Context {W : Type} {P : Platform W}.
Local Open Scope py_scope.

Lemma compare_and_poll_run (fuel : nat) (url ref : string) (timeout : Q) (n : Z)
      (s : machine W) :
  exists evs,
    trace (snd (compare_and_poll fuel url ref timeout n s)) = trace s ++ evs
    /\ phase_trace url ref n evs (fst (compare_and_poll fuel url ref timeout n s)).
Proof.
  destruct (compare_and_poll fuel url ref timeout n s) as [o s'] eqn:Hrun. simpl.
  unfold compare_and_poll in Hrun.
  unfold bind at 1 in Hrun. rewrite fetch_block_details_run in Hrun. cbv zeta in Hrun.
  set (r1 := fst (requests_post ref (block_details_payload (hex n)) (world s))) in Hrun.
  set (s1 := emit (EvPost ref (block_details_payload (hex n)) r1) _) in Hrun.
  destruct (details_of_response r1) as [d1|e|] eqn:H1.
  2:{ inversion Hrun; subst. eexists. split; [reflexivity|]. now constructor. }
  2:{ exfalso. exact (details_of_response_fueled r1 H1). }
  unfold bind at 1 in Hrun. rewrite fetch_block_details_run in Hrun. cbv zeta in Hrun.
  set (r2 := fst (requests_post url (block_details_payload (hex n)) (world s1))) in Hrun.
  set (s2 := emit (EvPost url (block_details_payload (hex n)) r2) _) in Hrun.
  assert (Ht2 : trace s2 = trace s ++ [EvPost ref (block_details_payload (hex n)) r1;
                                        EvPost url (block_details_payload (hex n)) r2]).
  { simpl. rewrite <- app_assoc. reflexivity. }
  destruct (details_of_response r2) as [d2|e|] eqn:H2.
  2:{ inversion Hrun; subst. eexists. split; [exact Ht2|]. econstructor; eauto. }
  2:{ exfalso. exact (details_of_response_fueled r2 H2). }
  unfold bind at 1 in Hrun. unfold block_hash at 1 in Hrun.
  destruct (py_get d1 "hash" JNull) as [h1|e] eqn:Hh1; simpl in Hrun.
  2:{ inversion Hrun; subst. eexists. split; [exact Ht2|].
      eapply phase_hash_raise; eauto. }
  unfold bind at 1 in Hrun. unfold block_hash at 1 in Hrun.
  destruct (py_get d2 "hash" JNull) as [h2|e] eqn:Hh2; simpl in Hrun.
  2:{ inversion Hrun; subst. eexists. split; [exact Ht2|].
      eapply phase_hash_raise; eauto. }
  unfold bind at 1 in Hrun.
  destruct (check_block_progression_rpc fuel url timeout s2) as (polls & Htp & Hrpc & Hlog).
  destruct (check_block_progression fuel url timeout s2) as [verdict s3] eqn:Hc.
  change (trace s3 = trace s2 ++ polls) in Htp.
  exists ([EvPost ref (block_details_payload (hex n)) r1;
           EvPost url (block_details_payload (hex n)) r2] ++ polls).
  assert (Hs : s' = s3 /\ o = match verdict with
                              | Ret p => Ret (h1, h2, p)
                              | Raise e => Raise e
                              | OutOfFuel => OutOfFuel
                              end).
  { destruct verdict; inversion Hrun; subst; split; reflexivity. }
  destruct Hs as [-> ->].
  split.
  - rewrite Htp, Ht2, <- app_assoc. reflexivity.
  - simpl. eapply phase_polled; eauto.
Qed.

(** [perform_checks], read as: scan, look the head up, then the shared
    steps. *)
Lemma perform_checks_phases (fuel : nat) (url ref : string) (timeout : Q)
      (s : machine W) :
  perform_checks fuel url ref timeout s =
    (port_results <- dict_comprehension (is_port_open url) service_ports ;;
     latest <- fetch_latest_block_number ref ;;
     match latest with
     | None => raise TypeError
     | Some n =>
         x <- compare_and_poll fuel url ref timeout n ;;
         ret {| port_status := port_results;
                block_hash_check := hashes_match (fst (fst x)) (snd (fst x));
                block_progression := snd x |}
     end) s.
Proof.
  unfold perform_checks, compare_and_poll, service_ports.
  unfold bind at 1. symmetry. unfold bind at 1. symmetry.
  destruct (dict_comprehension _ _ s) as [[ports|e|] s1]; try reflexivity.
  unfold bind at 1. symmetry. unfold bind at 1. symmetry.
  destruct (fetch_latest_block_number ref s1) as [[[n|]|e|] s2]; try reflexivity.
  unfold bind.
  destruct (fetch_block_details ref (Some n) s2) as [[d1|e|] s3]; try reflexivity.
  destruct (fetch_block_details url (Some n) s3) as [[d2|e|] s4]; try reflexivity.
  destruct (block_hash d1 s4) as [[h1|e|] s5]; try reflexivity.
  destruct (block_hash d2 s5) as [[h2|e|] s6]; try reflexivity.
  destruct (check_block_progression fuel url timeout s6) as [[p|e|] s7]; reflexivity.
Qed.

Lemma log_summary_run (n : Z) (h1 h2 : json) (p ports : bool) (s : machine W) :
  exists s',
    log_summary n h1 h2 p ports s = (Ret tt, s')
    /\ trace s' = trace s ++ summary_lines n h1 h2 p ports.
Proof.
  unfold log_summary, summary_lines, bind, logging_info, logging_error.
  destruct (hashes_match h1 h2), p, ports; simpl;
    (eexists; split; [reflexivity|]; simpl; rewrite <- !app_assoc; reflexivity).
Qed.

(** [main], read the same way. *)
Lemma main_phases (fuel : nat) (url ref : string) (timeout : Q) (s : machine W) :
  main fuel url ref timeout s =
    (logging_info MsgStarting ;;
     port_status <- dict_comprehension (is_port_open url) cli_ports ;;
     for_each port_status
       (fun entry =>
          if snd entry then logging_info (MsgPortOpen (fst entry))
          else logging_error (MsgPortClosed (fst entry))) ;;
     latest <- fetch_latest_block_number ref ;;
     match latest with
     | None => logging_error MsgFetchLatestFailed
     | Some n =>
         x <- compare_and_poll fuel url ref timeout n ;;
         log_summary n (fst (fst x)) (snd (fst x)) (snd x) (forallb snd port_status)
     end) s.
Proof.
  unfold main, compare_and_poll, cli_ports, log_summary.
  unfold bind at 1. symmetry. unfold bind at 1. symmetry.
  destruct (logging_info MsgStarting s) as [[[]|e|] s0]; try reflexivity.
  unfold bind at 1. symmetry. unfold bind at 1. symmetry.
  destruct (dict_comprehension _ _ s0) as [[ports|e|] s1]; try reflexivity.
  unfold bind at 1. symmetry. unfold bind at 1. symmetry.
  destruct (for_each ports _ s1) as [[[]|e|] s1']; try reflexivity.
  unfold bind at 1. symmetry. unfold bind at 1. symmetry.
  destruct (fetch_latest_block_number ref s1') as [[[n|]|e|] s2]; try reflexivity.
  unfold bind.
  destruct (fetch_block_details ref (Some n) s2) as [[d1|e|] s3]; try reflexivity.
  destruct (fetch_block_details url (Some n) s3) as [[d2|e|] s4]; try reflexivity.
  destruct (block_hash d1 s4) as [[h1|e|] s5]; try reflexivity.
  destruct (block_hash d2 s5) as [[h2|e|] s6]; try reflexivity.
  destruct (check_block_progression fuel url timeout s6) as [[p|e|] s7]; reflexivity.
Qed.

(** Every run of [perform_checks]: the port scan, which may be cut short by
    a socket that cannot be set up; then the head lookup at the reference;
    then the shared steps on the number it gave. *)
Lemma perform_checks_run (fuel : nat) (url ref : string) (timeout : Q)
      (s : machine W) :
  (exists e scan,
      fst (perform_checks fuel url ref timeout s) = Raise e
      /\ trace (snd (perform_checks fuel url ref timeout s)) = trace s ++ scan
      /\ Forall probe_event scan
      /\ scan_aborted e scan)
  \/ exists (status : list (Z * bool)) scan r0 rest,
    trace (snd (perform_checks fuel url ref timeout s))
    = trace s ++ scan ++ EvPost ref block_number_payload r0 :: rest
    /\ Forall probe_event scan
    /\ Forall (fun ev => setup_error ev = false) scan
    /\ map fst status = service_ports
    /\ (forall p b, In (p, b) status -> (b = true <-> connected p scan))
    /\ match head_of_response r0 with
       | Ret (Some n) =>
           exists x,
             phase_trace url ref n rest x
             /\ fst (perform_checks fuel url ref timeout s)
                = match x with
                  | Ret (h1, h2, p) =>
                      Ret {| port_status := status;
                             block_hash_check := hashes_match h1 h2;
                             block_progression := p |}
                  | Raise e => Raise e
                  | OutOfFuel => OutOfFuel
                  end
       | Ret None =>
           rest = [] /\ fst (perform_checks fuel url ref timeout s) = Raise TypeError
       | Raise e =>
           rest = [] /\ fst (perform_checks fuel url ref timeout s) = Raise e
       | OutOfFuel => False
       end.
Proof.
  destruct (perform_checks fuel url ref timeout s) as [o s'] eqn:Hrun.
  rewrite perform_checks_phases in Hrun.
  unfold bind at 1 in Hrun.
  destruct (port_scan_status url service_ports s)
    as (o1 & s1 & scan & Hscan & Ht1 & Hp & _ & Ho1).
  rewrite Hscan in Hrun.
  destruct o1 as [status|e|]; [| |contradiction].
  2:{ left. inversion Hrun; subst o s'. exists e, scan. cbn [fst snd].
      repeat split; assumption. }
  right. destruct Ho1 as (Hkeys & Hst & Hok & _).
  unfold bind at 1 in Hrun. rewrite fetch_latest_block_number_run in Hrun.
  set (r0 := fst (requests_post ref block_number_payload (world s1))) in Hrun.
  set (s2 := emit (EvPost ref block_number_payload r0) _) in Hrun.
  assert (Ht2 : trace s2 = trace s ++ scan ++ [EvPost ref block_number_payload r0]).
  { simpl. rewrite Ht1, <- app_assoc. reflexivity. }
  exists status, scan, r0.
  destruct (head_of_response r0) as [[n|]|e|] eqn:Hhead.
  - unfold bind at 1 in Hrun.
    destruct (compare_and_poll_run fuel url ref timeout n s2) as (evs & Hte & Hph).
    destruct (compare_and_poll fuel url ref timeout n s2) as [x s3] eqn:Hc.
    cbn [fst snd] in Hte, Hph.
    exists evs. cbn [fst snd].
    assert (Hs : s' = s3).
    { destruct x as [[[h1 h2] p]|e|]; inversion Hrun; reflexivity. }
    subst s'. split; [rewrite Hte, Ht2, <- !app_assoc; reflexivity|].
    split; [exact Hp|]. split; [exact Hok|]. split; [exact Hkeys|].
    split; [exact (Hst NoDup_service_ports)|].
    exists x. split; [exact Hph|].
    destruct x as [[[h1 h2] p]|e|]; inversion Hrun; reflexivity.
  - inversion Hrun; subst. exists []. cbn [fst snd].
    split; [exact Ht2|]. split; [exact Hp|]. split; [exact Hok|]. split; [exact Hkeys|].
    split; [exact (Hst NoDup_service_ports)|]. split; reflexivity.
  - inversion Hrun; subst. exists []. cbn [fst snd].
    split; [exact Ht2|]. split; [exact Hp|]. split; [exact Hok|]. split; [exact Hkeys|].
    split; [exact (Hst NoDup_service_ports)|]. split; reflexivity.
  - exfalso. exact (head_of_response_fueled r0 Hhead).
Qed.

(** Every run of [main]: the opening line; the port scan, which may be cut
    short by a socket that cannot be set up; the port report; the head
    lookup at the reference; then either the early return or the shared
    steps and the summary. *)
Lemma main_run (fuel : nat) (url ref : string) (timeout : Q) (s : machine W) :
  (exists e probes,
      fst (main fuel url ref timeout s) = Raise e
      /\ trace (snd (main fuel url ref timeout s))
         = trace s ++ EvLog INFO MsgStarting :: probes
      /\ Forall probe_event probes
      /\ scan_aborted e probes)
  \/ exists (status : list (Z * bool)) probes r0 rest,
    trace (snd (main fuel url ref timeout s))
    = trace s ++ (EvLog INFO MsgStarting :: probes ++ port_lines status)
              ++ EvPost ref block_number_payload r0 :: rest
    /\ Forall probe_event probes
    /\ Forall (fun ev => setup_error ev = false) probes
    /\ map fst status = cli_ports
    /\ (forall p b, In (p, b) status -> (b = true <-> connected p probes))
    /\ match head_of_response r0 with
       | Ret (Some n) =>
           exists evs x,
             phase_trace url ref n evs x
             /\ match x with
                | Ret (h1, h2, p) =>
                    fst (main fuel url ref timeout s) = Ret tt
                    /\ rest = evs ++ summary_lines n h1 h2 p (forallb snd status)
                | Raise e =>
                    fst (main fuel url ref timeout s) = Raise e /\ rest = evs
                | OutOfFuel =>
                    fst (main fuel url ref timeout s) = OutOfFuel /\ rest = evs
                end
       | Ret None =>
           fst (main fuel url ref timeout s) = Ret tt
           /\ rest = [EvLog ERROR MsgFetchLatestFailed]
       | Raise e =>
           fst (main fuel url ref timeout s) = Raise e /\ rest = []
       | OutOfFuel => False
       end.
Proof.
  destruct (main fuel url ref timeout s) as [o s'] eqn:Hrun.
  rewrite main_phases in Hrun.
  unfold bind at 1 in Hrun. unfold logging_info at 1 in Hrun.
  set (s0 := emit (EvLog INFO MsgStarting) s) in Hrun.
  unfold bind at 1 in Hrun.
  destruct (port_scan_status url cli_ports s0)
    as (o1 & s1 & e1 & Hscan & Ht1 & Hp1 & _ & Ho1).
  rewrite Hscan in Hrun.
  destruct o1 as [status|e|]; [| |contradiction].
  2:{ left. inversion Hrun; subst o s'. exists e, e1. cbn [fst snd].
      split; [reflexivity|]. split; [|split; assumption].
      rewrite Ht1. simpl. rewrite <- app_assoc. reflexivity. }
  right. destruct Ho1 as (Hkeys & Hst & Hok & _).
  unfold bind at 1 in Hrun.
  destruct (port_report_lines status s1) as (s1' & Hrep & Ht1').
  rewrite Hrep in Hrun.
  unfold bind at 1 in Hrun. rewrite fetch_latest_block_number_run in Hrun.
  set (r0 := fst (requests_post ref block_number_payload (world s1'))) in Hrun.
  set (s2 := emit (EvPost ref block_number_payload r0) _) in Hrun.
  set (scan := EvLog INFO MsgStarting :: e1 ++ port_lines status).
  assert (Ht2 : trace s2 = trace s ++ scan ++ [EvPost ref block_number_payload r0]).
  { simpl. rewrite Ht1', Ht1. simpl. rewrite <- !app_assoc. reflexivity. }
  exists status, e1, r0.
  destruct (head_of_response r0) as [[n|]|e|] eqn:Hhead.
  - unfold bind at 1 in Hrun.
    destruct (compare_and_poll_run fuel url ref timeout n s2) as (evs & Hte & Hph).
    destruct (compare_and_poll fuel url ref timeout n s2) as [x s3] eqn:Hc.
    cbn [fst snd] in Hte, Hph.
    destruct x as [[[h1 h2] p]|e|].
    + cbn [fst snd] in Hrun.
      destruct (log_summary_run n h1 h2 p (forallb snd status) s3) as (s4 & Hsum & Ht4).
      rewrite Hsum in Hrun. inversion Hrun; subst o s'.
      exists (evs ++ summary_lines n h1 h2 p (forallb snd status)). cbn [fst snd].
      split; [rewrite Ht4, Hte, Ht2, <- !app_assoc; reflexivity|].
      split; [exact Hp1|]. split; [exact Hok|]. split; [exact Hkeys|].
      split; [exact (Hst NoDup_cli_ports)|].
      exists evs, (Ret (h1, h2, p)). split; [exact Hph|]. split; reflexivity.
    + inversion Hrun; subst o s'. exists evs. cbn [fst snd].
      split; [rewrite Hte, Ht2, <- !app_assoc; reflexivity|].
      split; [exact Hp1|]. split; [exact Hok|]. split; [exact Hkeys|].
      split; [exact (Hst NoDup_cli_ports)|].
      exists evs, (Raise e). split; [exact Hph|]. split; reflexivity.
    + inversion Hrun; subst o s'. exists evs. cbn [fst snd].
      split; [rewrite Hte, Ht2, <- !app_assoc; reflexivity|].
      split; [exact Hp1|]. split; [exact Hok|]. split; [exact Hkeys|].
      split; [exact (Hst NoDup_cli_ports)|].
      exists evs, OutOfFuel. split; [exact Hph|]. split; reflexivity.
  - unfold logging_error in Hrun. inversion Hrun; subst o s'.
    exists [EvLog ERROR MsgFetchLatestFailed]. cbn [fst snd].
    split.
    { change (trace (emit (EvLog ERROR MsgFetchLatestFailed) s2))
        with (trace s2 ++ [EvLog ERROR MsgFetchLatestFailed]).
      rewrite Ht2, <- !app_assoc. reflexivity. }
    split; [exact Hp1|]. split; [exact Hok|]. split; [exact Hkeys|].
    split; [exact (Hst NoDup_cli_ports)|].
    split; reflexivity.
  - inversion Hrun; subst o s'. exists []. cbn [fst snd].
    split; [exact Ht2|].
    split; [exact Hp1|]. split; [exact Hok|]. split; [exact Hkeys|].
    split; [exact (Hst NoDup_cli_ports)|].
    split; reflexivity.
  - exfalso. exact (head_of_response_fueled r0 Hhead).
Qed.

End Aggregators.

(** ** What the shared steps imply *)

Lemma phase_trace_returns (url ref : string) (n : Z) (evs : list event)
      (h1 h2 : json) (p : bool) :
  phase_trace url ref n evs (Ret (h1, h2, p)) ->
  exists r1 r2 polls,
    evs = EvPost ref (block_details_payload (hex n)) r1
          :: EvPost url (block_details_payload (hex n)) r2 :: polls
    /\ identifier_of_response r1 = Ret h1
    /\ identifier_of_response r2 = Ret h2
    /\ Forall (fun call => fst call = (url, block_number_payload)) (rpc_calls polls)
    /\ Forall (fun r => verdict_line (snd r) = false) (log_records polls).
Proof.
  intros H. inversion H as [| | |r1 r2 d1 d2 g1 g2 polls verdict Hd1 Hd2 Hg1 Hg2 Hrpc Hlog Hevs Hout].
  destruct verdict as [q|e|]; try discriminate.
  injection Hout as <- <- <-.
  exists r1, r2, polls. unfold identifier_of_response.
  rewrite Hd1, Hd2, Hg1, Hg2. repeat split; auto.
Qed.

Lemma phase_trace_calls (url ref : string) (n : Z) (evs : list event)
      (x : outcome (json * json * bool)) :
  phase_trace url ref n evs x ->
  (exists r1 e,
      rpc_calls evs = [(ref, block_details_payload (hex n), r1)]
      /\ details_of_response r1 = Raise e
      /\ x = Raise e)
  \/ (exists r1 r2 d1 polls,
        rpc_calls evs = (ref, block_details_payload (hex n), r1)
                        :: (url, block_details_payload (hex n), r2) :: polls
        /\ details_of_response r1 = Ret d1
        /\ Forall (fun call => fst call = (url, block_number_payload)) polls).
Proof.
  intros H. destruct H; simpl.
  - left. exists r1, e. repeat split; auto.
  - right. exists r1, r2, d1, []. repeat split; auto.
  - right. exists r1, r2, d1, []. repeat split; auto.
  - right. exists r1, r2, d1, (rpc_calls polls). repeat split; auto.
Qed.

Lemma phase_trace_no_verdict (url ref : string) (n : Z) (evs : list event)
      (x : outcome (json * json * bool)) :
  phase_trace url ref n evs x ->
  Forall (fun r => verdict_line (snd r) = false) (log_records evs).
Proof. intros H. destruct H; simpl; try constructor; assumption. Qed.

Lemma in_log_records (lvl : level) (msg : message) (evs : list event) :
  In (EvLog lvl msg) evs <-> In (lvl, msg) (log_records evs).
Proof.
  induction evs as [|ev evs IH]; simpl; [tauto|].
  destruct ev; simpl; rewrite <- IH; split; intros H;
    try (destruct H as [H|H]; [discriminate|exact H]);
    try (right; exact H).
  - destruct H as [H|H]; [left; inversion H; reflexivity|right; exact H].
  - destruct H as [H|H]; [left; inversion H; reflexivity|right; exact H].
Qed.

Lemma summary_lines_no_rpc (n : Z) (h1 h2 : json) (p ok : bool) :
  rpc_calls (summary_lines n h1 h2 p ok) = [].
Proof. unfold summary_lines. destruct (hashes_match h1 h2), p, ok; reflexivity. Qed.

Lemma summary_lines_hash_passed (n : Z) (h1 h2 : json) (p ok : bool) :
  In (EvLog INFO MsgHashPassed) (summary_lines n h1 h2 p ok) <-> hashes_match h1 h2 = true.
Proof.
  unfold summary_lines.
  destruct (hashes_match h1 h2), p, ok; simpl; split; intros H;
    try discriminate; try reflexivity; try (left; reflexivity);
    repeat (destruct H as [H|H]; try discriminate); contradiction.
Qed.

Lemma summary_lines_block (n : Z) (h1 h2 : json) (p ok : bool)
      (lvl : level) (m : Z) (th rh : json) :
  In (EvLog lvl (MsgHashFailed m th rh)) (summary_lines n h1 h2 p ok) -> m = n.
Proof.
  unfold summary_lines.
  destruct (hashes_match h1 h2), p, ok; simpl; intros H;
    repeat (destruct H as [H|H]; try discriminate); try contradiction;
    injection H as _ -> _ _; reflexivity.
Qed.

Lemma hashes_match_identifiers (a b : option string) :
  hashes_match (json_of_identifier a) (json_of_identifier b) = true <-> a = b.
Proof.
  destruct a as [x|], b as [y|]; simpl; split; intros H;
    try discriminate; try reflexivity.
  - apply String.eqb_eq in H. now subst.
  - injection H as ->. apply String.eqb_refl.
Qed.

Section Reports.
Context {W : Type} {P : Platform W}.

(** A run of [perform_checks] that returns a report went through the whole
    comparison, and its hash verdict compares the two identifiers. *)
Lemma perform_checks_report (fuel : nat) (url ref : string) (timeout : Q)
      (s s' : machine W) (res : check_results) :
  perform_checks fuel url ref timeout s = (Ret res, s') ->
  exists evs n r0 r1 r2 h1 h2 polls,
    trace s' = trace s ++ evs
    /\ rpc_calls evs = (ref, block_number_payload, r0)
                       :: (ref, block_details_payload (hex n), r1)
                       :: (url, block_details_payload (hex n), r2) :: polls
    /\ head_of_response r0 = Ret (Some n)
    /\ Forall (fun call => fst call = (url, block_number_payload)) polls
    /\ identifier_of_response r1 = Ret h1
    /\ identifier_of_response r2 = Ret h2
    /\ block_hash_check res = hashes_match h1 h2.
Proof.
  intros Hrun.
  destruct (perform_checks_run fuel url ref timeout s)
    as [(e & scan & Hret & _)
       |(status & scan & r0 & rest & Ht & Hp & _ & _ & _ & Hm)];
    rewrite Hrun in *; cbn [fst snd] in *; [discriminate|].
  destruct (probe_events_no_rpc scan Hp) as [Hrpc _].
  destruct (head_of_response r0) as [[n|]|e|] eqn:Hhead;
    try (destruct Hm as [_ Hm]; discriminate); try contradiction.
  destruct Hm as (x & Hph & Hx).
  destruct x as [[[h1 h2] p]|e|]; try discriminate.
  injection Hx as ->.
  destruct (phase_trace_returns _ _ _ _ _ _ _ Hph) as (r1 & r2 & polls & -> & Hi1 & Hi2 & Hpolls & _).
  exists (scan ++ EvPost ref block_number_payload r0
               :: EvPost ref (block_details_payload (hex n)) r1
               :: EvPost url (block_details_payload (hex n)) r2 :: polls),
    n, r0, r1, r2, h1, h2, (rpc_calls polls).
  split; [exact Ht|]. split; [rewrite rpc_calls_app, Hrpc; reflexivity|].
  repeat split; auto.
Qed.

(** A run of [main] that returns either stopped at an absent reference
    head, or went through the whole comparison and ended on the summary. *)
Lemma main_report (fuel : nat) (url ref : string) (timeout : Q) (s s' : machine W) :
  main fuel url ref timeout s = (Ret tt, s') ->
  exists evs r0,
    trace s' = trace s ++ evs
    /\ ((head_of_response r0 = Ret None
         /\ rpc_calls evs = [(ref, block_number_payload, r0)]
         /\ Forall (fun r => verdict_line (snd r) = false) (log_records evs)
         /\ exists pre, evs = pre ++ [EvLog ERROR MsgFetchLatestFailed])
        \/ exists n r1 r2 h1 h2 p ok polls pre,
             head_of_response r0 = Ret (Some n)
             /\ rpc_calls evs = (ref, block_number_payload, r0)
                                :: (ref, block_details_payload (hex n), r1)
                                :: (url, block_details_payload (hex n), r2) :: polls
             /\ Forall (fun call => fst call = (url, block_number_payload)) polls
             /\ identifier_of_response r1 = Ret h1
             /\ identifier_of_response r2 = Ret h2
             /\ evs = pre ++ summary_lines n h1 h2 p ok
             /\ Forall (fun r => verdict_line (snd r) = false) (log_records pre)).
Proof.
  intros Hrun.
  destruct (main_run fuel url ref timeout s)
    as [(e & probes & Hret & _)
       |(status & probes & r0 & rest & Ht & Hp & _ & _ & _ & Hm)];
    rewrite Hrun in *; cbn [fst snd] in *; [discriminate|].
  destruct (cli_scan_quiet probes status Hp) as [Hrpc Hlog].
  set (scan := EvLog INFO MsgStarting :: probes ++ port_lines status) in *.
  destruct (head_of_response r0) as [[n|]|e|] eqn:Hhead;
    try (destruct Hm as [Hm _]; discriminate); try contradiction.
  - destruct Hm as (evs & x & Hph & Hx).
    destruct x as [[[h1 h2] p]|e|]; try (destruct Hx as [Hx _]; discriminate).
    destruct Hx as [_ ->].
    destruct (phase_trace_returns _ _ _ _ _ _ _ Hph)
      as (r1 & r2 & polls & -> & Hi1 & Hi2 & Hpolls & Hplog).
    eexists. exists r0. split; [exact Ht|]. right.
    exists n, r1, r2, h1, h2, p, (forallb snd status), (rpc_calls polls),
      (scan ++ EvPost ref block_number_payload r0
            :: EvPost ref (block_details_payload (hex n)) r1
            :: EvPost url (block_details_payload (hex n)) r2 :: polls).
    split; [exact Hhead|].
    split.
    { rewrite rpc_calls_app, Hrpc. simpl. rewrite rpc_calls_app, summary_lines_no_rpc.
      rewrite app_nil_r. reflexivity. }
    split; [exact Hpolls|]. split; [exact Hi1|]. split; [exact Hi2|].
    split; [rewrite <- app_assoc; reflexivity|].
    rewrite log_records_app. apply Forall_app. split; [exact Hlog|exact Hplog].
  - destruct Hm as [_ ->].
    eexists. exists r0. split; [exact Ht|]. left.
    split; [exact Hhead|].
    split; [rewrite rpc_calls_app, Hrpc; reflexivity|].
    split.
    + rewrite log_records_app. apply Forall_app. split; [exact Hlog|].
      simpl. repeat constructor.
    + exists (scan ++ [EvPost ref block_number_payload r0]).
      rewrite <- app_assoc. reflexivity.
Qed.

End Reports.

(* ================================================================= *)
(** * The claims, on every platform *)

Section Claims.
Context {W : Type} {P : Platform W}.
Local Open Scope py_scope.

(** C1 (as amended). For every RPC call of the client
    ([fetch_latest_block_number] and [fetch_block_details]): a non-200
    status, or a 200 answer whose JSON object has no [result] field,
    collapses to the Absent result ([None], or the empty object for block
    details); an exception of the transport (connection refused, timeout)
    and a body that is not JSON are not caught: they reach the caller as
    the exception raised. *)
Theorem rpc_client_failure_modes (url : string) (n : Z) (s : machine W) :
  let r_head := fst (requests_post url block_number_payload (world s)) in
  let r_block := fst (requests_post url (block_details_payload (hex n)) (world s)) in
  (forall e, r_head = Exc e -> fst (fetch_latest_block_number url s) = Raise e)
  /\ (forall e, r_block = Exc e -> fst (fetch_block_details url (Some n) s) = Raise e)
  /\ (forall resp, r_head = Ok resp -> status_code resp = 200 -> body_json resp = None ->
      fst (fetch_latest_block_number url s) = Raise JSONDecodeError)
  /\ (forall resp, r_block = Ok resp -> status_code resp = 200 -> body_json resp = None ->
      fst (fetch_block_details url (Some n) s) = Raise JSONDecodeError)
  /\ (forall resp, r_head = Ok resp -> status_code resp <> 200 ->
      fst (fetch_latest_block_number url s) = Ret None)
  /\ (forall resp, r_block = Ok resp -> status_code resp <> 200 ->
      fst (fetch_block_details url (Some n) s) = Ret (JObj []))
  /\ (forall resp fields, r_head = Ok resp -> status_code resp = 200 ->
      body_json resp = Some (JObj fields) -> assoc "result" fields = None ->
      fst (fetch_latest_block_number url s) = Ret None)
  /\ (forall resp fields, r_block = Ok resp -> status_code resp = 200 ->
      body_json resp = Some (JObj fields) -> assoc "result" fields = None ->
      fst (fetch_block_details url (Some n) s) = Ret (JObj [])).
Proof.
  cbv zeta. rewrite fetch_latest_block_number_run.
  pose proof (fetch_block_details_run url n s) as Hb. cbv zeta in Hb. rewrite Hb. clear Hb.
  cbn [fst].
  repeat split.
  - intros e ->. reflexivity.
  - intros e ->. reflexivity.
  - intros resp -> H200 Hbody. simpl. rewrite H200, Hbody. reflexivity.
  - intros resp -> H200 Hbody. simpl. rewrite H200, Hbody. reflexivity.
  - intros resp -> Hst. simpl. apply Z.eqb_neq in Hst. rewrite Hst. reflexivity.
  - intros resp -> Hst. simpl. apply Z.eqb_neq in Hst. rewrite Hst. reflexivity.
  - intros resp fields -> H200 Hbody Hres. simpl. rewrite H200, Hbody. simpl.
    rewrite Hres. reflexivity.
  - intros resp fields -> H200 Hbody Hres. simpl. rewrite H200, Hbody. simpl.
    rewrite Hres. reflexivity.
Qed.

(** C2 (as amended). In the command-line [main], when the answer to the
    head lookup at the reference (the first JSON-RPC call of the run)
    decodes to Absent, the run does not raise: it makes no further
    JSON-RPC call, its last act is to log that the latest block number
    could not be fetched, it logs no hash or progression verdict and no
    summary, and it returns. *)
Theorem main_absent_reference_head (fuel : nat) (url ref : string) (timeout : Q)
        (s : machine W) (evs : list event) (r0 : result response)
        (calls : list (string * json * result response)) :
  trace (snd (main fuel url ref timeout s)) = trace s ++ evs ->
  rpc_calls evs = (ref, block_number_payload, r0) :: calls ->
  head_of_response r0 = Ret None ->
  fst (main fuel url ref timeout s) = Ret tt
  /\ calls = []
  /\ (exists pre, evs = pre ++ [EvLog ERROR MsgFetchLatestFailed])
  /\ Forall (fun r => verdict_line (snd r) = false) (log_records evs).
Proof.
  intros Ht Hcalls Hhead.
  destruct (main_run fuel url ref timeout s)
    as [(e & probes & _ & Ht' & Hp & _)
       |(status & probes & r0' & rest & Ht' & Hp & _ & _ & _ & Hm)];
    rewrite Ht in Ht'; apply app_inv_head in Ht'; subst evs.
  { exfalso. simpl in Hcalls.
    rewrite (proj1 (probe_events_no_rpc probes Hp)) in Hcalls. discriminate. }
  destruct (cli_scan_quiet probes status Hp) as [Hrpc Hlog].
  set (scan := EvLog INFO MsgStarting :: probes ++ port_lines status) in *.
  rewrite rpc_calls_app, Hrpc in Hcalls. simpl in Hcalls.
  injection Hcalls as Hr0 Hrest. subst r0'.
  rewrite Hhead in Hm. destruct Hm as [Hret ->].
  split; [exact Hret|]. split; [symmetry; exact Hrest|]. split.
  - exists (scan ++ [EvPost ref block_number_payload r0]).
    rewrite <- app_assoc. reflexivity.
  - rewrite log_records_app. apply Forall_app. split; [exact Hlog|].
    simpl. repeat constructor.
Qed.

(** The consistency verdict of a reporting run, read off its second and
    third JSON-RPC calls. *)
Lemma consistency_verdicts (fuel : nat) (url ref : string) (timeout : Q)
      (s : machine W) (evs : list event) (c0 : string * json * result response)
      (u1 u2 : string) (p1 p2 : json) (r1 r2 : result response)
      (polls : list (string * json * result response)) (h1 h2 : json) :
  rpc_calls evs = c0 :: (u1, p1, r1) :: (u2, p2, r2) :: polls ->
  identifier_of_response r1 = Ret h1 ->
  identifier_of_response r2 = Ret h2 ->
  (forall res,
      fst (perform_checks fuel url ref timeout s) = Ret res ->
      trace (snd (perform_checks fuel url ref timeout s)) = trace s ++ evs ->
      (exists n, (u1, p1) = (ref, block_details_payload (hex n))
                 /\ (u2, p2) = (url, block_details_payload (hex n)))
      /\ block_hash_check res = hashes_match h1 h2)
  /\ (fst (main fuel url ref timeout s) = Ret tt ->
      trace (snd (main fuel url ref timeout s)) = trace s ++ evs ->
      (exists n, (u1, p1) = (ref, block_details_payload (hex n))
                 /\ (u2, p2) = (url, block_details_payload (hex n)))
      /\ (In (EvLog INFO MsgHashPassed) evs <-> hashes_match h1 h2 = true)).
Proof.
  intros Hcalls Hi1 Hi2. split.
  - intros res Hret Ht.
    destruct (perform_checks fuel url ref timeout s) as [o s'] eqn:Hrun.
    cbn [fst snd] in Hret, Ht. subst o.
    destruct (perform_checks_report _ _ _ _ _ _ _ Hrun)
      as (evs' & n & r0 & r1' & r2' & g1 & g2 & polls' & Ht' & Hc' & _ & _ & Hg1 & Hg2 & Hres).
    rewrite Ht in Ht'. apply app_inv_head in Ht'. subst evs'.
    rewrite Hcalls in Hc'. injection Hc' as -> -> -> -> -> -> -> ->.
    split; [exists n; split; reflexivity|].
    rewrite Hi1 in Hg1. rewrite Hi2 in Hg2.
    injection Hg1 as <-. injection Hg2 as <-. exact Hres.
  - intros Hret Ht.
    destruct (main fuel url ref timeout s) as [o s'] eqn:Hrun.
    cbn [fst snd] in Hret, Ht. subst o.
    destruct (main_report _ _ _ _ _ _ Hrun) as (evs' & r0 & Ht' & Hcases).
    rewrite Ht in Ht'. apply app_inv_head in Ht'. subst evs'.
    destruct Hcases as [(_ & Hc' & _)|
      (n & r1' & r2' & g1 & g2 & p & ok & polls' & pre & _ & Hc' & _ & Hg1 & Hg2 & Hevs & Hlog)].
    + rewrite Hcalls in Hc'. discriminate.
    + rewrite Hcalls in Hc'. injection Hc' as -> -> -> -> -> -> -> ->.
      split; [exists n; split; reflexivity|].
      rewrite Hi1 in Hg1. rewrite Hi2 in Hg2.
      injection Hg1 as <-. injection Hg2 as <-.
      rewrite <- summary_lines_hash_passed.
      rewrite Hevs, in_app_iff. split; [|intros H; right; exact H].
      intros [H|H]; [|exact H]. exfalso.
      apply in_log_records in H.
      rewrite Forall_forall in Hlog. specialize (Hlog _ H). discriminate.
Qed.

(** C3 (as amended). For every pair of answers the two endpoints give for
    the same block number in a run that reports, the consistency verdict
    is true if and only if the reference's and the target's canonical
    identifiers are equal, Absent being equal to Absent: true for
    identical hashes and when both are Absent, false on any mismatch and
    when exactly one is Absent.  In [perform_checks] the verdict is the
    [block_hash_check] of the report; in [main] it is the "hash check
    passed" line of the log. *)
Theorem consistency_iff_identifiers_equal (fuel : nat) (url ref : string) (timeout : Q)
        (s : machine W) (evs : list event) (c0 : string * json * result response)
        (u1 u2 : string) (p1 p2 : json) (r1 r2 : result response)
        (polls : list (string * json * result response)) (a b : option string) :
  rpc_calls evs = c0 :: (u1, p1, r1) :: (u2, p2, r2) :: polls ->
  identifier_of_response r1 = Ret (json_of_identifier a) ->
  identifier_of_response r2 = Ret (json_of_identifier b) ->
  (forall res,
      fst (perform_checks fuel url ref timeout s) = Ret res ->
      trace (snd (perform_checks fuel url ref timeout s)) = trace s ++ evs ->
      (exists n, (u1, p1) = (ref, block_details_payload (hex n))
                 /\ (u2, p2) = (url, block_details_payload (hex n)))
      /\ (block_hash_check res = true <-> a = b))
  /\ (fst (main fuel url ref timeout s) = Ret tt ->
      trace (snd (main fuel url ref timeout s)) = trace s ++ evs ->
      (exists n, (u1, p1) = (ref, block_details_payload (hex n))
                 /\ (u2, p2) = (url, block_details_payload (hex n)))
      /\ (In (EvLog INFO MsgHashPassed) evs <-> a = b)).
Proof.
  intros Hcalls Hi1 Hi2.
  destruct (consistency_verdicts fuel url ref timeout s evs c0 u1 u2 p1 p2 r1 r2 polls
              _ _ Hcalls Hi1 Hi2) as [Hservice Hcli].
  split.
  - intros res Hret Ht. destruct (Hservice res Hret Ht) as [Hsame Hres].
    split; [exact Hsame|]. rewrite Hres. apply hashes_match_identifiers.
  - intros Hret Ht. destruct (Hcli Hret Ht) as [Hsame Hlog].
    split; [exact Hsame|]. rewrite Hlog. apply hashes_match_identifiers.
Qed.

(** C4. When the identifiers both endpoints yield for the shared block are
    Absent (each block-details call failed with a non-200 status, or came
    back without a result or without a hash), the consistency check finds
    the two equal and passes: [perform_checks] reports
    [block_hash_check] true, and [main] logs that the hash check passed. *)
Theorem both_absent_identifiers_pass (fuel : nat) (url ref : string) (timeout : Q)
        (s : machine W) (evs : list event) (c0 : string * json * result response)
        (u1 u2 : string) (p1 p2 : json) (r1 r2 : result response)
        (polls : list (string * json * result response)) :
  rpc_calls evs = c0 :: (u1, p1, r1) :: (u2, p2, r2) :: polls ->
  identifier_of_response r1 = Ret JNull ->
  identifier_of_response r2 = Ret JNull ->
  (forall res,
      fst (perform_checks fuel url ref timeout s) = Ret res ->
      trace (snd (perform_checks fuel url ref timeout s)) = trace s ++ evs ->
      block_hash_check res = true)
  /\ (fst (main fuel url ref timeout s) = Ret tt ->
      trace (snd (main fuel url ref timeout s)) = trace s ++ evs ->
      In (EvLog INFO MsgHashPassed) evs).
Proof.
  intros Hcalls Hi1 Hi2.
  destruct (consistency_verdicts fuel url ref timeout s evs c0 u1 u2 p1 p2 r1 r2 polls
              _ _ Hcalls Hi1 Hi2) as [Hservice Hcli].
  split.
  - intros res Hret Ht. destruct (Hservice res Hret Ht) as [_ ->]. reflexivity.
  - intros Hret Ht. destruct (Hcli Hret Ht) as [_ Hlog]. apply Hlog. reflexivity.
Qed.

(** C9. In every aggregator run ([perform_checks] and [main]) that gets
    past the port scan, the first JSON-RPC call is the head lookup at the
    reference endpoint, and it is the only one that fetches the block
    number of the comparison: when its answer decodes to a number [n], the
    next call is the block-details query for [n] at the reference and,
    unless that one raised, the call after it is the block-details query
    for the same [n] at the target; every later call polls the target's
    head.  When the head lookup is absent or raised, no block-details query
    is made.  A run of [perform_checks] that returns a report has made both
    block-details queries with that one number, and so has a run of [main]
    that logs a verdict; the block number [main] names in its hash-failure
    line is that number.  A run that a socket error cut short in the port
    scan made no JSON-RPC call at all. *)
Theorem one_block_number_for_both_queries (fuel : nat) (url ref : string) (timeout : Q)
        (s : machine W) :
  (exists evs,
      trace (snd (perform_checks fuel url ref timeout s)) = trace s ++ evs
      /\ ((exists e, fst (perform_checks fuel url ref timeout s) = Raise e
                     /\ rpc_calls evs = []
                     /\ scan_aborted e evs)
          \/ exists r0 rest,
               rpc_calls evs = (ref, block_number_payload, r0) :: rest
               /\ calls_after_head url ref r0 rest
                    (fst (perform_checks fuel url ref timeout s)))
      /\ (forall res,
             fst (perform_checks fuel url ref timeout s) = Ret res ->
             exists n r1 r2, compared_block url ref n r1 r2 (rpc_calls evs)))
  /\ (exists evs,
        trace (snd (main fuel url ref timeout s)) = trace s ++ evs
        /\ ((exists e probes,
                fst (main fuel url ref timeout s) = Raise e
                /\ rpc_calls evs = []
                /\ evs = EvLog INFO MsgStarting :: probes
                /\ scan_aborted e probes)
            \/ exists r0 rest,
                 rpc_calls evs = (ref, block_number_payload, r0) :: rest
                 /\ calls_after_head url ref r0 rest
                      (fst (main fuel url ref timeout s)))
        /\ (forall lvl msg,
               In (EvLog lvl msg) evs ->
               verdict_line msg = true ->
               exists n r1 r2,
                 compared_block url ref n r1 r2 (rpc_calls evs)
                 /\ forall m th rh, msg = MsgHashFailed m th rh -> m = n)).
Proof.
  split.
  - destruct (perform_checks fuel url ref timeout s) as [o s'] eqn:Hrun.
    destruct (perform_checks_run fuel url ref timeout s)
      as [(e & scan & Hret & Ht & Hp & Hab)
         |(status & scan & r0 & rest & Ht & Hp & _ & _ & _ & Hm)];
      rewrite Hrun in *; cbn [fst snd] in *.
    + exists scan. split; [exact Ht|].
      destruct (probe_events_no_rpc scan Hp) as [Hrpc _]. split.
      * left. exists e. repeat split; assumption.
      * intros res Hres. rewrite Hres in Hret. discriminate.
    + exists (scan ++ EvPost ref block_number_payload r0 :: rest).
      split; [exact Ht|].
      destruct (probe_events_no_rpc scan Hp) as [Hrpc _].
      rewrite rpc_calls_app, Hrpc. cbn [app rpc_calls]. split.
      * right. exists r0, (rpc_calls rest). split; [reflexivity|].
        unfold calls_after_head.
        destruct (head_of_response r0) as [[n|]|e|]; try contradiction.
        -- destruct Hm as (x & Hph & Hx).
           destruct (phase_trace_calls _ _ _ _ _ Hph)
             as [(r1 & e & Hc & Hd & ->)|(r1 & r2 & d1 & polls & Hc & Hd & Hpolls)].
           ++ left. exists r1, e. repeat split; assumption.
           ++ right. exists r1, r2, d1, polls. repeat split; assumption.
        -- destruct Hm as [-> _]. reflexivity.
        -- destruct Hm as [-> ->]. split; reflexivity.
      * intros res ->.
        destruct (perform_checks_report _ _ _ _ _ _ _ Hrun)
          as (evs' & n & q0 & r1 & r2 & h1 & h2 & polls & Ht' & Hc & Hh & Hpolls & _).
        rewrite Ht in Ht'. apply app_inv_head in Ht'. subst evs'.
        rewrite rpc_calls_app, Hrpc in Hc. cbn [app rpc_calls] in Hc.
        exists n, r1, r2, q0, polls. repeat split; assumption.
  - destruct (main fuel url ref timeout s) as [o s'] eqn:Hrun.
    destruct (main_run fuel url ref timeout s)
      as [(e & probes & Hret & Ht & Hp & Hab)
         |(status & probes & r0 & rest & Ht & Hp & _ & _ & _ & Hm)];
      rewrite Hrun in *; cbn [fst snd] in *.
    + exists (EvLog INFO MsgStarting :: probes). split; [exact Ht|].
      destruct (probe_events_no_rpc probes Hp) as [Hrpc Hlog]. split.
      * left. exists e, probes. repeat split; assumption.
      * intros lvl msg Hin Hv. exfalso.
        apply in_log_records in Hin. simpl in Hin. destruct Hin as [Hin|Hin].
        -- injection Hin as _ <-. discriminate.
        -- rewrite Forall_forall in Hlog. specialize (Hlog _ Hin).
           simpl in Hlog. congruence.
    + destruct (cli_scan_quiet probes status Hp) as [Hrpc Hlog].
      set (scan := EvLog INFO MsgStarting :: probes ++ port_lines status) in *.
      exists (scan ++ EvPost ref block_number_payload r0 :: rest).
      split; [exact Ht|].
      rewrite rpc_calls_app, Hrpc. cbn [app rpc_calls].
      assert (Hquiet : forall evs lvl msg,
                 Forall (fun r => verdict_line (snd r) = false) (log_records evs) ->
                 In (EvLog lvl msg) evs -> verdict_line msg = true -> False).
      { intros evs lvl msg Hall Hin Hv. apply in_log_records in Hin.
        rewrite Forall_forall in Hall. specialize (Hall _ Hin). simpl in Hall.
        congruence. }
      destruct (head_of_response r0) as [[n|]|e|] eqn:Hhead; try contradiction.
      * destruct Hm as (evs & x & Hph & Hx).
        assert (Hrest : rpc_calls rest = rpc_calls evs).
        { destruct x as [[[h1 h2] p]|e|]; destruct Hx as [_ ->]; try reflexivity.
          rewrite rpc_calls_app, summary_lines_no_rpc, app_nil_r. reflexivity. }
        rewrite Hrest. split.
        -- right. exists r0, (rpc_calls evs). split; [reflexivity|].
           unfold calls_after_head. rewrite Hhead.
           destruct (phase_trace_calls _ _ _ _ _ Hph)
             as [(r1 & e & Hc & Hd & ->)|(r1 & r2 & d1 & polls & Hc & Hd & Hpolls)].
           ++ left. exists r1, e. destruct Hx as [Hx _]. repeat split; assumption.
           ++ right. exists r1, r2, d1, polls. repeat split; assumption.
        -- intros lvl msg Hin Hv.
           apply in_app_or in Hin. destruct Hin as [Hin|Hin];
             [exfalso; exact (Hquiet _ _ _ Hlog Hin Hv)|].
           destruct Hin as [Hin|Hin]; [discriminate|].
           pose proof (phase_trace_no_verdict _ _ _ _ _ Hph) as Hnv.
           destruct x as [[[h1 h2] p]|e|]; destruct Hx as [_ ->];
             try (exfalso; exact (Hquiet _ _ _ Hnv Hin Hv)).
           apply in_app_or in Hin. destruct Hin as [Hin|Hin];
             [exfalso; exact (Hquiet _ _ _ Hnv Hin Hv)|].
           destruct (phase_trace_returns _ _ _ _ _ _ _ Hph)
             as (r1 & r2 & polls & Hevs & _ & _ & Hpolls & _).
           exists n, r1, r2. split.
           ++ exists r0, (rpc_calls polls). rewrite Hevs.
              repeat split; [exact Hhead|exact Hpolls].
           ++ intros m th rh ->. eapply summary_lines_block; eauto.
      * destruct Hm as [Hret ->]. split.
        -- right. exists r0, []. split; [reflexivity|].
           unfold calls_after_head. rewrite Hhead. reflexivity.
        -- intros lvl msg Hin Hv. exfalso.
           apply in_app_or in Hin. destruct Hin as [Hin|Hin];
             [exact (Hquiet _ _ _ Hlog Hin Hv)|].
           destruct Hin as [Hin|[Hin|[]]]; [discriminate|].
           injection Hin as _ <-. discriminate.
      * destruct Hm as [Hret ->]. split.
        -- right. exists r0, []. split; [reflexivity|].
           unfold calls_after_head. rewrite Hhead. split; [reflexivity|exact Hret].
        -- intros lvl msg Hin Hv. exfalso.
           apply in_app_or in Hin. destruct Hin as [Hin|Hin];
             [exact (Hquiet _ _ _ Hlog Hin Hv)|].
           destruct Hin as [Hin|[]]. discriminate.
Qed.

(** C10 (as amended). For every GET on [/api/check]: when [rpc_url] is
    missing or empty the view answers status 400 with the body
    [{"error": "RPC URL is required"}] and performs nothing (the machine is
    left as it was: no probe, no JSON-RPC call).  When [rpc_url] is not
    empty the view runs [perform_checks] on it, with the default reference
    and timeout, and ends as that run ends: where [perform_checks] returns
    a report the view returns it with status 200, and the run behind it
    went through the whole comparison; where [perform_checks] raises, the
    view raises the same exception and returns nothing, as it does when the
    head lookup at the reference raises (the transport failed, or the body
    is not JSON). *)
Theorem api_check_requires_rpc_url (fuel : nat) (s : machine W) :
  (forall rpc_url,
      rpc_url = None \/ rpc_url = Some "" ->
      api_check fuel rpc_url s
      = (Ret {| resp_body := JsonError [("error", "RPC URL is required")];
                resp_status := 400 |}, s))
  /\ (forall url,
        url <> "" ->
        let checks := perform_checks fuel url default_reference_url default_timeout s in
        let view := api_check fuel (Some url) s in
        snd view = snd checks
        /\ fst view
           = match fst checks with
             | Ret res => Ret {| resp_body := JsonResults res; resp_status := 200 |}
             | Raise e => Raise e
             | OutOfFuel => OutOfFuel
             end
        /\ (forall r,
               fst view = Ret r ->
               exists res evs n r1 r2,
                 r = {| resp_body := JsonResults res; resp_status := 200 |}
                 /\ trace (snd view) = trace s ++ evs
                 /\ compared_block url default_reference_url n r1 r2 (rpc_calls evs))
        /\ (forall evs r0 rest e,
               trace (snd view) = trace s ++ evs ->
               rpc_calls evs = (default_reference_url, block_number_payload, r0) :: rest ->
               head_of_response r0 = Raise e ->
               fst view = Raise e)).
Proof.
  split.
  - intros rpc_url [-> | ->]; reflexivity.
  - intros url Hurl. cbv zeta.
    assert (Hview : api_check fuel (Some url) s
              = (results <- perform_checks fuel url default_reference_url default_timeout ;;
                 ret {| resp_body := JsonResults results; resp_status := 200 |}) s).
    { unfold api_check, truthy. apply String.eqb_neq in Hurl. rewrite Hurl. reflexivity. }
    rewrite Hview. unfold bind.
    destruct (perform_checks fuel url default_reference_url default_timeout s)
      as [o s'] eqn:Hrun.
    split; [destruct o; reflexivity|]. split; [destruct o; reflexivity|]. split.
    + intros r Hr. destruct o as [res|e|]; try discriminate.
      cbn [fst snd ret] in *. injection Hr as <-.
      destruct (perform_checks_report _ _ _ _ _ _ _ Hrun)
        as (evs & n & q0 & r1 & r2 & h1 & h2 & polls & Ht & Hc & Hh & Hpolls & _).
      exists res, evs, n, r1, r2. split; [reflexivity|]. split; [exact Ht|].
      exists q0, polls. repeat split; assumption.
    + intros evs r0 rest e0 Ht Hcalls He.
      assert (Hs : snd (let (o0, s'0) := (o, s') in
                        match o0 with
                        | Ret a => ret {| resp_body := JsonResults a; resp_status := 200 |} s'0
                        | Raise e => (Raise e, s'0)
                        | OutOfFuel => (OutOfFuel, s'0)
                        end) = s') by (destruct o; reflexivity).
      rewrite Hs in Ht. clear Hs.
      destruct (perform_checks_run fuel url default_reference_url default_timeout s)
        as [(e & scan & _ & Ht' & Hp & _)
           |(status & scan & q0 & rest' & Ht' & Hp & _ & _ & _ & Hm)];
        rewrite Hrun in *; cbn [fst snd] in *;
        rewrite Ht in Ht'; apply app_inv_head in Ht'; subst evs;
        destruct (probe_events_no_rpc scan Hp) as [Hrpc _].
      { rewrite Hrpc in Hcalls. discriminate. }
      rewrite rpc_calls_app, Hrpc in Hcalls. cbn [app rpc_calls] in Hcalls.
      injection Hcalls as <- _.
      rewrite He in Hm. destruct Hm as [_ ->]. reflexivity.
Qed.

End Claims.

(* ================================================================= *)
(** * The claims, on scripted platforms *)

#[local] Existing Instance Script.platform.

Lemma script_ticking : Ticking Script.clock.
Proof.
  split.
  - intros w. simpl. split; apply Qle_refl.
  - intros url payload w. simpl. unfold Script.do_post.
    destruct (Script.replies w); simpl; apply Qle_refl.
  - intros secs w. simpl. apply Qle_refl.
  - reflexivity.
  - intros a b c _ H. exact H.
Qed.

(** C1, refuted as stated: with the network down the POST raises, and both
    client functions let the exception through instead of returning the
    Absent result; a 200 answer that is not JSON does the same. *)
Lemma rpc_failure_reaches_caller :
  fst (fetch_latest_block_number Script.target (Script.boot Script.offline))
  = Raise RequestsConnectionError
  /\ fst (fetch_block_details Script.target (Some 1000) (Script.boot Script.offline))
     = Raise RequestsConnectionError
  /\ fst (fetch_latest_block_number Script.target
            (Script.boot (Script.scripted [Script.garbled] Script.all_open)))
     = Raise JSONDecodeError
  /\ fst (fetch_block_details Script.target (Some 1000)
            (Script.boot (Script.scripted [Script.garbled] Script.all_open)))
     = Raise JSONDecodeError.
Proof. repeat split. Qed.

Lemma rpc_client_failure_modes_witness :
  let down := Script.boot Script.offline in
  let bad_body := Script.boot (Script.scripted [Script.garbled] Script.all_open) in
  let busy := Script.boot (Script.scripted [Script.unavailable] Script.all_open) in
  let no_result := Script.boot (Script.scripted [Script.rpc_error] Script.all_open) in
  (fst (fetch_latest_block_number Script.target down) = Raise RequestsConnectionError
   /\ fst (fetch_block_details Script.target (Some 1000) down) = Raise RequestsConnectionError)
  /\ (fst (fetch_latest_block_number Script.target bad_body) = Raise JSONDecodeError
      /\ fst (fetch_block_details Script.target (Some 1000) bad_body) = Raise JSONDecodeError)
  /\ (fst (fetch_latest_block_number Script.target busy) = Ret None
      /\ fst (fetch_block_details Script.target (Some 1000) busy) = Ret (JObj []))
  /\ (fst (fetch_latest_block_number Script.target no_result) = Ret None
      /\ fst (fetch_block_details Script.target (Some 1000) no_result) = Ret (JObj [])).
Proof.
  cbv zeta.
  pose proof (rpc_client_failure_modes Script.target 1000 (Script.boot Script.offline)) as H1.
  pose proof (rpc_client_failure_modes Script.target 1000
                (Script.boot (Script.scripted [Script.garbled] Script.all_open))) as H2.
  pose proof (rpc_client_failure_modes Script.target 1000
                (Script.boot (Script.scripted [Script.unavailable] Script.all_open))) as H3.
  pose proof (rpc_client_failure_modes Script.target 1000
                (Script.boot (Script.scripted [Script.rpc_error] Script.all_open))) as H4.
  cbv zeta in H1, H2, H3, H4.
  destruct H1 as (A1 & B1 & _).
  destruct H2 as (_ & _ & A2 & B2 & _).
  destruct H3 as (_ & _ & _ & _ & A3 & B3 & _).
  destruct H4 as (_ & _ & _ & _ & _ & _ & A4 & B4).
  split; [split; [apply A1|apply B1]; reflexivity|].
  split; [split; [eapply A2|eapply B2]; reflexivity|].
  split; [split; [eapply A3|eapply B3]; try reflexivity; simpl; lia|].
  split; [eapply A4|eapply B4]; reflexivity.
Defined.

(** C2, refuted as stated: when the reference answers its head lookup with
    a 503, [perform_checks] raises a [TypeError] (it hands [None] to [hex]),
    and [main] returns after three port lines and the fetch-failure line,
    with no verdict for the hash or the progression check. *)
Lemma absent_reference_head_breaks_report :
  fst (perform_checks 31 Script.target default_reference_url default_timeout
         (Script.boot Script.reference_down))
  = Raise TypeError
  /\ fst (main 31 Script.target default_reference_url default_timeout
            (Script.boot Script.reference_down))
     = Ret tt
  /\ log_records (trace (snd (main 31 Script.target default_reference_url default_timeout
                                (Script.boot Script.reference_down))))
     = [(INFO, MsgStarting); (INFO, MsgPortOpen 30303); (INFO, MsgPortOpen 9003);
        (INFO, MsgPortOpen 30304); (ERROR, MsgFetchLatestFailed)].
Proof. repeat split. Qed.

Lemma main_absent_reference_head_witness :
  let run := main 31 Script.target default_reference_url default_timeout
               (Script.boot Script.reference_down) in
  head_of_response Script.unavailable = Ret None
  /\ fst run = Ret tt
  /\ (exists pre, trace (snd run) = pre ++ [EvLog ERROR MsgFetchLatestFailed])
  /\ Forall (fun r => verdict_line (snd r) = false) (log_records (trace (snd run))).
Proof.
  cbv zeta. split; [reflexivity|].
  destruct (main_absent_reference_head 31 Script.target default_reference_url
              default_timeout (Script.boot Script.reference_down)
              (trace (snd (main 31 Script.target default_reference_url default_timeout
                             (Script.boot Script.reference_down))))
              Script.unavailable [])
    as (Hret & _ & Hlast & Hlog); try reflexivity.
  split; [exact Hret|]. split; [exact Hlast|exact Hlog].
Defined.

(** C3, refuted as stated: when neither endpoint yields a hash for the
    shared block (a 503 from the reference, an empty block object from the
    target) both identifiers are Absent, and the consistency verdict is true,
    not false. *)
Lemma both_absent_is_not_a_failure :
  identifier_of_response Script.unavailable = Ret JNull
  /\ identifier_of_response (Script.rpc_result (JObj [])) = Ret JNull
  /\ fst (perform_checks 31 Script.target default_reference_url default_timeout
            (Script.boot Script.hashless))
     = Ret {| port_status := [(30303, true); (9003, true); (30304, true);
                              (8369, true); (18369, true)];
              block_hash_check := true;
              block_progression := true |}.
Proof. repeat split; vm_compute; reflexivity. Qed.

Lemma consistency_iff_identifiers_equal_witness :
  let service := perform_checks 31 Script.target default_reference_url default_timeout
                   (Script.boot Script.healthy) in
  let cli := main 31 Script.target default_reference_url default_timeout
               (Script.boot Script.healthy) in
  identifier_of_response (Script.block_reply "0xabc") = Ret (JStr "0xabc")
  /\ (exists res, fst service = Ret res
                  /\ (block_hash_check res = true <-> Some "0xabc" = Some "0xabc"))
  /\ fst cli = Ret tt
  /\ (In (EvLog INFO MsgHashPassed) (trace (snd cli)) <-> Some "0xabc" = Some "0xabc").
Proof.
  cbv zeta.
  assert (Hid : identifier_of_response (Script.block_reply "0xabc")
                = Ret (json_of_identifier (Some "0xabc"))) by reflexivity.
  split; [exact Hid|]. split.
  - eexists. split; [vm_compute; reflexivity|].
    set (evs := trace (snd (perform_checks 31 Script.target default_reference_url
                              default_timeout (Script.boot Script.healthy)))).
    assert (Hcalls : rpc_calls evs
                     = (default_reference_url, block_number_payload, Script.head_reply 1000)
                       :: (default_reference_url, block_details_payload (hex 1000),
                           Script.block_reply "0xabc")
                       :: (Script.target, block_details_payload (hex 1000),
                           Script.block_reply "0xabc")
                       :: skipn 3 (rpc_calls evs)) by (vm_compute; reflexivity).
    apply (proj1 (consistency_iff_identifiers_equal 31 Script.target default_reference_url
                    default_timeout (Script.boot Script.healthy) evs _ _ _ _ _ _ _ _
                    (Some "0xabc") (Some "0xabc") Hcalls Hid Hid));
      vm_compute; reflexivity.
  - split; [vm_compute; reflexivity|].
    set (evs := trace (snd (main 31 Script.target default_reference_url
                              default_timeout (Script.boot Script.healthy)))).
    assert (Hcalls : rpc_calls evs
                     = (default_reference_url, block_number_payload, Script.head_reply 1000)
                       :: (default_reference_url, block_details_payload (hex 1000),
                           Script.block_reply "0xabc")
                       :: (Script.target, block_details_payload (hex 1000),
                           Script.block_reply "0xabc")
                       :: skipn 3 (rpc_calls evs)) by (vm_compute; reflexivity).
    apply (proj2 (consistency_iff_identifiers_equal 31 Script.target default_reference_url
                    default_timeout (Script.boot Script.healthy) evs _ _ _ _ _ _ _ _
                    (Some "0xabc") (Some "0xabc") Hcalls Hid Hid));
      vm_compute; reflexivity.
Defined.

Lemma both_absent_identifiers_pass_witness :
  let service := perform_checks 31 Script.target default_reference_url default_timeout
                   (Script.boot Script.hashless) in
  let cli := main 31 Script.target default_reference_url default_timeout
               (Script.boot Script.hashless) in
  identifier_of_response Script.unavailable = Ret JNull
  /\ identifier_of_response (Script.rpc_result (JObj [])) = Ret JNull
  /\ (exists res, fst service = Ret res /\ block_hash_check res = true)
  /\ fst cli = Ret tt
  /\ In (EvLog INFO MsgHashPassed) (trace (snd cli)).
Proof.
  cbv zeta.
  assert (Hid1 : identifier_of_response Script.unavailable = Ret JNull) by reflexivity.
  assert (Hid2 : identifier_of_response (Script.rpc_result (JObj [])) = Ret JNull)
    by reflexivity.
  split; [exact Hid1|]. split; [exact Hid2|]. split.
  - eexists. split; [vm_compute; reflexivity|].
    set (evs := trace (snd (perform_checks 31 Script.target default_reference_url
                              default_timeout (Script.boot Script.hashless)))).
    assert (Hcalls : rpc_calls evs
                     = (default_reference_url, block_number_payload, Script.head_reply 1000)
                       :: (default_reference_url, block_details_payload (hex 1000),
                           Script.unavailable)
                       :: (Script.target, block_details_payload (hex 1000),
                           Script.rpc_result (JObj []))
                       :: skipn 3 (rpc_calls evs)) by (vm_compute; reflexivity).
    apply (proj1 (both_absent_identifiers_pass 31 Script.target default_reference_url
                    default_timeout (Script.boot Script.hashless) evs _ _ _ _ _ _ _ _
                    Hcalls Hid1 Hid2));
      vm_compute; reflexivity.
  - split; [vm_compute; reflexivity|].
    set (evs := trace (snd (main 31 Script.target default_reference_url
                              default_timeout (Script.boot Script.hashless)))).
    assert (Hcalls : rpc_calls evs
                     = (default_reference_url, block_number_payload, Script.head_reply 1000)
                       :: (default_reference_url, block_details_payload (hex 1000),
                           Script.unavailable)
                       :: (Script.target, block_details_payload (hex 1000),
                           Script.rpc_result (JObj []))
                       :: skipn 3 (rpc_calls evs)) by (vm_compute; reflexivity).
    apply (proj2 (both_absent_identifiers_pass 31 Script.target default_reference_url
                    default_timeout (Script.boot Script.hashless) evs _ _ _ _ _ _ _ _
                    Hcalls Hid1 Hid2));
      vm_compute; reflexivity.
Defined.

Lemma check_block_progression_verdict_witness :
  let advancing := check_block_progression 31 Script.target 30
                     (Script.boot Script.advancing) in
  let stalled := check_block_progression 31 Script.target 30
                   (Script.boot Script.stalled) in
  let poll n := EvPost Script.target block_number_payload (Script.head_reply n) in
  let two_rounds := [EvTime 100; poll 1000; EvSleep 5; EvTime 105; poll 1001] in
  let six_rounds := [EvTime 100; poll 1000; EvSleep 5; EvTime 105; poll 1000; EvSleep 5;
                     EvTime 110; poll 1000; EvSleep 5; EvTime 115; poll 1000; EvSleep 5;
                     EvTime 120; poll 1000; EvSleep 5; EvTime 125; poll 1000; EvSleep 5;
                     EvTime 130] in
  head_of_response (Script.head_reply 1000) = Ret (Some 1000)
  /\ (trace (snd advancing) = EvTime 100 :: poll 1000 :: two_rounds
      /\ loop_trace float_sub Script.target 30 100 1000 two_rounds (fst advancing)
      /\ Exists (advanced_poll 1000) two_rounds
      /\ fst advancing = Ret true
      /\ exists pre t r,
           two_rounds = pre ++ [EvTime t; EvPost Script.target block_number_payload r]
           /\ (float_sub t 100 < 30)%Q
           /\ advanced_poll 1000 (EvPost Script.target block_number_payload r)
           /\ Forall (quiet_poll 1000) pre)
  /\ (trace (snd stalled) = EvTime 100 :: poll 1000 :: six_rounds
      /\ loop_trace float_sub Script.target 30 100 1000 six_rounds (fst stalled)
      /\ (exists pre t, six_rounds = pre ++ [EvTime t])
      /\ fst stalled = Ret false
      /\ Forall (quiet_poll 1000) six_rounds
      /\ (exists pre t, six_rounds = pre ++ [EvTime t] /\ (30 <= float_sub t 100)%Q)
      /\ sleeps six_rounds <> 31%nat
      /\ fst stalled <> OutOfFuel).
Proof.
  cbv zeta.
  assert (Hhead : head_of_response (Script.head_reply 1000) = Ret (Some 1000))
    by (vm_compute; reflexivity).
  split; [exact Hhead|]. split.
  - assert (Htrace : trace (snd (check_block_progression 31 Script.target 30
                                   (Script.boot Script.advancing)))
                     = trace (Script.boot Script.advancing)
                       ++ EvTime 100
                          :: EvPost Script.target block_number_payload (Script.head_reply 1000)
                          :: [EvTime 100;
                              EvPost Script.target block_number_payload (Script.head_reply 1000);
                              EvSleep 5; EvTime 105;
                              EvPost Script.target block_number_payload (Script.head_reply 1001)])
      by (vm_compute; reflexivity).
    destruct (check_block_progression_verdict Script.target 30
                (Script.boot Script.advancing) 31)
      as (start & r0 & evs & Ht & Hrun).
    cbv zeta in Ht, Hrun. rewrite Htrace in Ht.
    apply app_inv_head in Ht. injection Ht as <- <- <-.
    destruct (Hrun 1000 Hhead) as (Hloop & _ & Htrue & Hlast & _).
    assert (Hadv : Exists (advanced_poll 1000)
                     [EvTime 100;
                      EvPost Script.target block_number_payload (Script.head_reply 1000);
                      EvSleep 5; EvTime 105;
                      EvPost Script.target block_number_payload (Script.head_reply 1001)]).
    { do 4 apply Exists_cons_tl. apply Exists_cons_hd.
      exists 1001. split; [vm_compute; reflexivity|lia]. }
    split; [exact Htrace|]. split; [exact Hloop|]. split; [exact Hadv|].
    split; [exact (proj2 Htrue Hadv)|].
    exact (Hlast (proj2 Htrue Hadv)).
  - assert (Htrace : trace (snd (check_block_progression 31 Script.target 30
                                   (Script.boot Script.stalled)))
                     = trace (Script.boot Script.stalled)
                       ++ EvTime 100
                          :: EvPost Script.target block_number_payload (Script.head_reply 1000)
                          :: [EvTime 100;
                              EvPost Script.target block_number_payload (Script.head_reply 1000);
                              EvSleep 5; EvTime 105;
                              EvPost Script.target block_number_payload (Script.head_reply 1000);
                              EvSleep 5; EvTime 110;
                              EvPost Script.target block_number_payload (Script.head_reply 1000);
                              EvSleep 5; EvTime 115;
                              EvPost Script.target block_number_payload (Script.head_reply 1000);
                              EvSleep 5; EvTime 120;
                              EvPost Script.target block_number_payload (Script.head_reply 1000);
                              EvSleep 5; EvTime 125;
                              EvPost Script.target block_number_payload (Script.head_reply 1000);
                              EvSleep 5; EvTime 130])
      by (vm_compute; reflexivity).
    destruct (check_block_progression_verdict Script.target 30
                (Script.boot Script.stalled) 31)
      as (start & r0 & evs & Ht & Hrun).
    cbv zeta in Ht, Hrun. rewrite Htrace in Ht.
    apply app_inv_head in Ht. injection Ht as <- <- <-.
    destruct (Hrun 1000 Hhead) as (Hloop & Hfuel & _ & _ & Hfalse & Hbound & Hend).
    assert (Hreading : exists pre t,
               [EvTime 100;
                EvPost Script.target block_number_payload (Script.head_reply 1000);
                EvSleep 5; EvTime 105;
                EvPost Script.target block_number_payload (Script.head_reply 1000);
                EvSleep 5; EvTime 110;
                EvPost Script.target block_number_payload (Script.head_reply 1000);
                EvSleep 5; EvTime 115;
                EvPost Script.target block_number_payload (Script.head_reply 1000);
                EvSleep 5; EvTime 120;
                EvPost Script.target block_number_payload (Script.head_reply 1000);
                EvSleep 5; EvTime 125;
                EvPost Script.target block_number_payload (Script.head_reply 1000);
                EvSleep 5; EvTime 130] = pre ++ [EvTime t]).
    { eexists (_ :: _ :: _ :: _ :: _ :: _ :: _ :: _ :: _ :: _ :: _ :: _ :: _ :: _ :: _
               :: _ :: _ :: [_]), _. reflexivity. }
    assert (Hsleeps : sleeps
               [EvTime 100;
                EvPost Script.target block_number_payload (Script.head_reply 1000);
                EvSleep 5; EvTime 105;
                EvPost Script.target block_number_payload (Script.head_reply 1000);
                EvSleep 5; EvTime 110;
                EvPost Script.target block_number_payload (Script.head_reply 1000);
                EvSleep 5; EvTime 115;
                EvPost Script.target block_number_payload (Script.head_reply 1000);
                EvSleep 5; EvTime 120;
                EvPost Script.target block_number_payload (Script.head_reply 1000);
                EvSleep 5; EvTime 125;
                EvPost Script.target block_number_payload (Script.head_reply 1000);
                EvSleep 5; EvTime 130] <> 31%nat) by (simpl; lia).
    split; [exact Htrace|]. split; [exact Hloop|]. split; [exact Hreading|].
    split; [exact (proj2 Hfalse Hreading)|].
    destruct (Hbound (proj2 Hfalse Hreading)) as [Hquiet Hpast].
    split; [exact Hquiet|]. split; [exact Hpast|]. split; [exact Hsleeps|].
    apply (Hend Script.clock script_ticking); [vm_compute; reflexivity|vm_compute; lia].
Defined.

(** The stalled target, run: six polls five seconds apart, then false. *)
Example stalled_target_times_out :
  fst (check_block_progression 31 Script.target 30 (Script.boot Script.stalled)) = Ret false
  /\ List.length (rpc_calls (trace (snd (check_block_progression 31 Script.target 30
                                           (Script.boot Script.stalled))))) = 7%nat.
Proof. split; vm_compute; reflexivity. Qed.

(** The advancing target, run: the second poll shows block 1001 and ends
    the check, five seconds after its start. *)
Example advancing_target_passes_early :
  fst (check_block_progression 31 Script.target 30 (Script.boot Script.advancing))
  = Ret true
  /\ map (fun ev => match ev with EvTime t => Some t | _ => None end)
         (trace (snd (check_block_progression 31 Script.target 30
                        (Script.boot Script.advancing))))
     = [Some 100%Q; None; Some 100%Q; None; None; Some (100 + 5)%Q; None].
Proof. split; vm_compute; reflexivity. Qed.

(** C6, at the failing input: the hostname does not resolve, the connect
    raises, the probe answers false from its [except] branch, and descriptor
    3, which it opened, is still in the socket table: no close was issued. *)
Lemma probe_leaves_socket_open_on_dns_failure :
  let run := is_port_open Script.target 30303 (Script.boot Script.offline) in
  fst run = Ret false
  /\ open_fds (snd run) = [3%nat]
  /\ trace (snd run)
     = [EvSocket 3; EvSetTimeout 3 1;
        EvConnect 3 "node.example" 30303 (Exc GaiError);
        EvLog ERROR (MsgPortError 30303 GaiError)].
Proof. repeat split; vm_compute; reflexivity. Qed.

(** For contrast: a refused connect goes through [sock.close()]. *)
Example probe_closes_socket_on_refusal :
  let run := is_port_open Script.target 30303
               (Script.boot (Script.scripted [] Script.all_refused)) in
  fst run = Ret false
  /\ open_fds (snd run) = []
  /\ trace (snd run)
     = [EvSocket 3; EvSetTimeout 3 1;
        EvConnect 3 "node.example" 30303 (Ok 111); EvClose 3].
Proof. repeat split; vm_compute; reflexivity. Qed.

Lemma absent_baseline_fails_at_once_witness :
  let s := Script.boot Script.reference_down in
  let s2 := snd (fetch_latest_block_number Script.target (snd (time_now s))) in
  fetch_latest_block_number Script.target (snd (time_now s)) = (Ret None, s2)
  /\ check_block_progression 0 Script.target 30 s = (Ret false, s2)
  /\ exists t r, trace s2 = trace s ++ [EvTime t; EvPost Script.target block_number_payload r].
Proof.
  cbv zeta.
  assert (Hbase : fetch_latest_block_number Script.target
                    (snd (time_now (Script.boot Script.reference_down)))
                  = (Ret None,
                     snd (fetch_latest_block_number Script.target
                            (snd (time_now (Script.boot Script.reference_down))))))
    by reflexivity.
  split; [exact Hbase|].
  exact (absent_baseline_fails_at_once 0 Script.target 30
           (Script.boot Script.reference_down) _ Hbase).
Defined.

(** C8, at the failing input: the process has no descriptor left, so
    [socket.socket] raises [OSError] on the first line of the probe, before
    the [try] block is entered; nothing catches it, no error line is
    logged, and the probe raises instead of answering false. *)
Lemma probe_raises_when_socket_is_refused :
  let run := is_port_open Script.target 30303
               (Script.boot (Script.short_of_descriptors 0)) in
  fst run = Raise OSError
  /\ trace (snd run) = [EvSocketError OSError]
  /\ log_records (trace (snd run)) = [].
Proof. repeat split; vm_compute; reflexivity. Qed.

(** The exception goes through the port scan and through the aggregators:
    with two descriptors left, the third probe ends [perform_checks] and
    [main] with [OSError], before any JSON-RPC call. *)
Example refused_socket_ends_the_run :
  let service := perform_checks 31 Script.target default_reference_url default_timeout
                   (Script.boot (Script.short_of_descriptors 2)) in
  let cli := main 31 Script.target default_reference_url default_timeout
               (Script.boot (Script.short_of_descriptors 2)) in
  fst service = Raise OSError
  /\ rpc_calls (trace (snd service)) = []
  /\ fst cli = Raise OSError
  /\ rpc_calls (trace (snd cli)) = []
  /\ log_records (trace (snd cli)) = [(INFO, MsgStarting)].
Proof. repeat split; vm_compute; reflexivity. Qed.

(** For contrast, what the [try] block does catch: a URL without a
    hostname makes the connect raise a [TypeError], and the probe answers
    false. *)
Example probe_answers_false_on_bad_url :
  let run := is_port_open "node.example" 30303 (Script.boot Script.healthy) in
  fst run = Ret false
  /\ log_records (trace (snd run)) = [(ERROR, MsgPortError 30303 TypeError)].
Proof. repeat split; vm_compute; reflexivity. Qed.

Lemma one_block_number_for_both_queries_witness :
  let service := perform_checks 31 Script.target default_reference_url default_timeout
                   (Script.boot Script.healthy) in
  let cli := main 31 Script.target default_reference_url default_timeout
               (Script.boot disagreeing) in
  (exists res, fst service = Ret res)
  /\ (exists n r1 r2,
         compared_block Script.target default_reference_url n r1 r2
           (rpc_calls (trace (snd service))))
  /\ In (EvLog ERROR (MsgHashFailed 1000 (JStr "0xdef") (JStr "0xabc"))) (trace (snd cli))
  /\ (exists n r1 r2,
         compared_block Script.target default_reference_url n r1 r2
           (rpc_calls (trace (snd cli)))
         /\ 1000 = n).
Proof.
  cbv zeta.
  assert (Hret : fst (perform_checks 31 Script.target default_reference_url default_timeout
                        (Script.boot Script.healthy))
                 = Ret {| port_status := [(30303, true); (9003, true); (30304, true);
                                          (8369, true); (18369, true)];
                          block_hash_check := true;
                          block_progression := true |})
    by (vm_compute; reflexivity).
  assert (Hline : In (EvLog ERROR (MsgHashFailed 1000 (JStr "0xdef") (JStr "0xabc")))
                     (trace (snd (main 31 Script.target default_reference_url
                                    default_timeout (Script.boot disagreeing)))))
    by (vm_compute; repeat (first [left; reflexivity|right])).
  split; [eexists; exact Hret|]. split; [|split; [exact Hline|]].
  - destruct (one_block_number_for_both_queries 31 Script.target default_reference_url
                default_timeout (Script.boot Script.healthy))
      as ((evs & Ht & _ & Hcompared) & _).
    change (trace (Script.boot Script.healthy) ++ evs) with evs in Ht.
    rewrite Ht. exact (Hcompared _ Hret).
  - destruct (one_block_number_for_both_queries 31 Script.target default_reference_url
                default_timeout (Script.boot disagreeing))
      as (_ & (evs & Ht & _ & Hverdict)).
    change (trace (Script.boot disagreeing) ++ evs) with evs in Ht.
    rewrite Ht in Hline |- *.
    destruct (Hverdict _ _ Hline eq_refl) as (n & r1 & r2 & Hc & Hn).
    exists n, r1, r2. split; [exact Hc|]. exact (Hn _ _ _ eq_refl).
Defined.

(** C10, refuted as stated: with a non-empty [rpc_url] and the network
    down, the head lookup at the reference raises, [perform_checks] lets the
    exception through and so does the view: no check results are
    returned. *)
Lemma api_check_raises_without_results :
  Script.target <> ""
  /\ fst (api_check 31 (Some Script.target) (Script.boot Script.offline))
     = Raise RequestsConnectionError
  /\ fst (api_check 31 (Some Script.target)
            (Script.boot (Script.scripted [Script.garbled] Script.all_open)))
     = Raise JSONDecodeError.
Proof. split; [discriminate|split; vm_compute; reflexivity]. Qed.

Lemma api_check_requires_rpc_url_witness :
  let s := Script.boot Script.healthy in
  let down := Script.boot Script.offline in
  api_check 31 None s
  = (Ret {| resp_body := JsonError [("error", "RPC URL is required")];
            resp_status := 400 |}, s)
  /\ api_check 31 (Some "") s
     = (Ret {| resp_body := JsonError [("error", "RPC URL is required")];
               resp_status := 400 |}, s)
  /\ Script.target <> ""
  /\ fst (api_check 31 (Some Script.target) s)
     = Ret {| resp_body :=
                JsonResults {| port_status := [(30303, true); (9003, true); (30304, true);
                                               (8369, true); (18369, true)];
                               block_hash_check := true;
                               block_progression := true |};
              resp_status := 200 |}
  /\ fst (api_check 31 (Some Script.target) down) = Raise RequestsConnectionError.
Proof.
  cbv zeta.
  destruct (api_check_requires_rpc_url 31 (Script.boot Script.healthy)) as (H400 & H200).
  destruct (api_check_requires_rpc_url 31 (Script.boot Script.offline)) as (_ & Hdown).
  split; [apply H400; left; reflexivity|].
  split; [apply H400; right; reflexivity|].
  assert (Hurl : Script.target <> "") by discriminate.
  split; [exact Hurl|].
  destruct (H200 Script.target Hurl) as (_ & Hview & _).
  destruct (Hdown Script.target Hurl) as (_ & Hraise & _).
  cbv zeta in Hview, Hraise.
  assert (Hrun : fst (perform_checks 31 Script.target default_reference_url default_timeout
                        (Script.boot Script.healthy))
                 = Ret {| port_status := [(30303, true); (9003, true); (30304, true);
                                          (8369, true); (18369, true)];
                          block_hash_check := true;
                          block_progression := true |})
    by (vm_compute; reflexivity).
  assert (Hoff : fst (perform_checks 31 Script.target default_reference_url default_timeout
                        (Script.boot Script.offline))
                 = Raise RequestsConnectionError)
    by (vm_compute; reflexivity).
  rewrite Hrun in Hview. rewrite Hoff in Hraise.
  split; [exact Hview|exact Hraise].
Defined.

(* ================================================================= *)
(** * Further properties of the code *)

(** ** [hex] and [int(_, 16)] *)

Lemma hex_char_facts (c : ascii) (v : N) :
  HexString.ascii_to_digit c = Some v ->
  Int16.digit_value c = Some (Z.of_N v)
  /\ Int16.is_space c = false
  /\ Ascii.eqb c "_" = false.
Proof.
  destruct c as [b0 b1 b2 b3 b4 b5 b6 b7].
  destruct b0, b1, b2, b3, b4, b5, b6, b7; vm_compute; intros H;
    try discriminate; injection H as <-; repeat split.
Qed.

Lemma digits_to_N (s : string) :
  forall acc : N,
    all_hex s = true ->
    Int16.digits (list_ascii_of_string s) (Z.of_N acc) false
    = Some (Z.of_N (HexString.Raw.to_N s acc)).
Proof.
  induction s as [|c s IH]; intros acc Hs;
    cbn [list_ascii_of_string Int16.digits HexString.Raw.to_N all_hex] in *;
    [reflexivity|].
  destruct (HexString.ascii_to_digit c) as [v|] eqn:Hc; [|discriminate].
  destruct (hex_char_facts c v Hc) as (Hd & _ & Hu).
  rewrite Hu, Hd.
  replace (16 * Z.of_N acc + Z.of_N v) with (Z.of_N (v + 16 * acc)) by lia.
  apply IH. exact Hs.
Qed.

Lemma of_pos_all_hex (n : nat) :
  forall (p : positive) (rest : string),
    (Pos.size_nat p <= n)%nat ->
    all_hex rest = true ->
    all_hex (HexString.Raw.of_pos p rest) = true.
Proof.
  induction n as [|n IH]; intros p rest Hn Hrest.
  - destruct p; simpl in Hn; lia.
  - do 4 try destruct p as [p|p|]; simpl in Hn |- *; try exact Hrest;
      apply IH; try lia; simpl; exact Hrest.
Qed.

Lemma all_hex_no_space (s : string) :
  all_hex s = true ->
  Forall (fun c => Int16.is_space c = false) (list_ascii_of_string s).
Proof.
  induction s as [|c s IH]; simpl; intros Hs; [constructor|].
  destruct (HexString.ascii_to_digit c) as [v|] eqn:Hc; [|discriminate].
  constructor; [apply (hex_char_facts c v Hc)|auto].
Qed.

Lemma strip_no_space (cs : list ascii) :
  Forall (fun c => Int16.is_space c = false) cs -> Int16.strip cs = cs.
Proof.
  intros Hall. unfold Int16.strip.
  assert (Hl : forall l, Forall (fun c => Int16.is_space c = false) l -> Int16.lstrip l = l).
  { intros l Hl. destruct Hl as [|c l Hc _]; simpl; [reflexivity|]. rewrite Hc. reflexivity. }
  rewrite (Hl cs Hall), (Hl (rev cs)); [apply rev_involutive|].
  apply Forall_rev. exact Hall.
Qed.

Lemma magnitude_of_pos (p : positive) :
  Int16.magnitude (list_ascii_of_string (HexString.of_pos p)) = Some (Z.pos p).
Proof.
  unfold HexString.of_pos.
  pose proof (of_pos_all_hex (Pos.size_nat p) p "" (Nat.le_refl _) eq_refl) as Hhex.
  pose proof (HexString.Raw.to_N_of_pos p "" 0%N) as Hto.
  destruct (HexString.Raw.of_pos p "") as [|c s] eqn:Hs; [discriminate Hto|].
  simpl in Hhex.
  destruct (HexString.ascii_to_digit c) as [v|] eqn:Hc; [|discriminate].
  destruct (hex_char_facts c v Hc) as (Hd & _ & Hu).
  unfold Int16.magnitude. simpl. rewrite Hu, Hd.
  simpl in Hto. rewrite Hc in Hto.
  rewrite (digits_to_N s v Hhex).
  replace (v + 0)%N with v in Hto by lia.
  rewrite Hto. reflexivity.
Qed.

Lemma of_pos_no_space (p : positive) :
  Forall (fun c => Int16.is_space c = false) (list_ascii_of_string (HexString.of_pos p)).
Proof.
  unfold HexString.of_pos. simpl.
  constructor; [reflexivity|]. constructor; [reflexivity|].
  apply all_hex_no_space.
  exact (of_pos_all_hex (Pos.size_nat p) p "" (Nat.le_refl _) eq_refl).
Qed.

(** Text in which every character is ASCII below DEL is read as it is. *)
Lemma to_ascii_plain (c : ascii) :
  (nat_of_ascii c < 127)%nat -> Int16.to_ascii (Z.of_nat (nat_of_ascii c)) = c.
Proof.
  intros Hc. unfold Int16.to_ascii.
  destruct (Z.ltb_spec (Z.of_nat (nat_of_ascii c)) 0) as [H|_]; [lia|].
  destruct (Z.ltb_spec (Z.of_nat (nat_of_ascii c)) 127) as [_|H]; [|lia].
  rewrite Nat2Z.id. apply ascii_nat_embedding.
Qed.

Lemma code_points_plain (s : string) :
  Forall (fun c => (nat_of_ascii c < 127)%nat) (list_ascii_of_string s) ->
  map Int16.to_ascii (Int16.code_points (Int16.bytes_of s)) = list_ascii_of_string s.
Proof.
  unfold Int16.bytes_of.
  induction s as [|c s IH]; intros Hall; [reflexivity|].
  cbn [list_ascii_of_string map Int16.code_points] in *.
  inversion Hall as [|? ? Hc Hrest]; subst.
  destruct (Z.ltb_spec (Z.of_nat (nat_of_ascii c)) 128) as [_|H]; [|lia].
  cbn [map]. rewrite (to_ascii_plain c Hc), (IH Hrest). reflexivity.
Qed.

Lemma hex_char_plain (c : ascii) (v : N) :
  HexString.ascii_to_digit c = Some v -> (nat_of_ascii c < 127)%nat.
Proof.
  destruct c as [b0 b1 b2 b3 b4 b5 b6 b7].
  destruct b0, b1, b2, b3, b4, b5, b6, b7; vm_compute; intros H;
    try discriminate; repeat constructor.
Qed.

Lemma all_hex_plain (s : string) :
  all_hex s = true ->
  Forall (fun c => (nat_of_ascii c < 127)%nat) (list_ascii_of_string s).
Proof.
  induction s as [|c s IH]; simpl; intros Hs; [constructor|].
  destruct (HexString.ascii_to_digit c) as [v|] eqn:Hc; [|discriminate].
  constructor; [exact (hex_char_plain c v Hc)|auto].
Qed.

Lemma of_pos_plain (p : positive) :
  Forall (fun c => (nat_of_ascii c < 127)%nat) (list_ascii_of_string (HexString.of_pos p)).
Proof.
  unfold HexString.of_pos. simpl.
  constructor; [vm_compute; repeat constructor|].
  constructor; [vm_compute; repeat constructor|].
  apply all_hex_plain.
  exact (of_pos_all_hex (Pos.size_nat p) p "" (Nat.le_refl _) eq_refl).
Qed.

Lemma parse_hex (n : Z) : Int16.parse (hex n) = Some n.
Proof.
  unfold hex, Int16.parse.
  destruct n as [|p|p]; [reflexivity| |]; unfold HexString.of_Z.
  - rewrite (code_points_plain _ (of_pos_plain p)).
    rewrite (strip_no_space _ (of_pos_no_space p)).
    pose proof (magnitude_of_pos p) as Hm.
    unfold HexString.of_pos in *. simpl list_ascii_of_string in *.
    cbv beta iota. change (Ascii.eqb "0" "-") with false. change (Ascii.eqb "0" "+") with false.
    cbv iota. rewrite Hm. reflexivity.
  - rewrite code_points_plain
      by (cbn [list_ascii_of_string]; constructor;
          [vm_compute; repeat constructor|apply of_pos_plain]).
    change (list_ascii_of_string (String "-" (HexString.of_pos p)))
      with ("-"%char :: list_ascii_of_string (HexString.of_pos p)).
    rewrite strip_no_space by (constructor; [reflexivity|apply of_pos_no_space]).
    cbv beta iota. change (Ascii.eqb "-" "-") with true. cbv iota.
    rewrite (magnitude_of_pos p). reflexivity.
Qed.

(** X1. [int(hex(n), 16) == n] for every integer [n], negative ones included:
    the text [fetch_block_details] puts on the wire for a block number decodes
    back, by the rule [fetch_latest_block_number] decodes heads with, to that
    number. *)
Theorem int16_hex_round_trip (n : Z) : py_int16 (JStr (hex n)) = Ok n.
Proof. unfold py_int16. rewrite parse_hex. reflexivity. Qed.

(** ** Decoding the answers of the transport *)

Section Decoding.
Context {W : Type} {P : Platform W}.

(** X2. What [fetch_latest_block_number] makes of a 200 answer: a result
    that is the hexadecimal text of [n] gives [n]; a result that is [null]
    gives [None]; a result that is text but no hexadecimal literal raises
    [ValueError]; a result that is neither [null] nor text (a JSON number,
    say) raises [TypeError]; a JSON body that is not an object raises
    [AttributeError].  None of the last three collapses to [None]. *)
Theorem head_lookup_decoding (url : string) (s : machine W) (resp : response) :
  fst (requests_post url block_number_payload (world s)) = Ok resp ->
  status_code resp = 200 ->
  (forall fields n,
      body_json resp = Some (JObj fields) ->
      assoc "result" fields = Some (JStr (hex n)) ->
      fst (fetch_latest_block_number url s) = Ret (Some n))
  /\ (forall fields,
        body_json resp = Some (JObj fields) ->
        assoc "result" fields = Some JNull ->
        fst (fetch_latest_block_number url s) = Ret None)
  /\ (forall fields text,
        body_json resp = Some (JObj fields) ->
        assoc "result" fields = Some (JStr text) ->
        Int16.parse text = None ->
        fst (fetch_latest_block_number url s) = Raise ValueError)
  /\ (forall fields v,
        body_json resp = Some (JObj fields) ->
        assoc "result" fields = Some v ->
        v <> JNull ->
        (forall text, v <> JStr text) ->
        fst (fetch_latest_block_number url s) = Raise TypeError)
  /\ (forall body,
        body_json resp = Some body ->
        is_object body = false ->
        fst (fetch_latest_block_number url s) = Raise AttributeError).
Proof.
  intros Hpost H200.
  rewrite fetch_latest_block_number_run, Hpost. cbn [fst head_of_response].
  rewrite H200. change (200 =? 200) with true. cbv iota.
  repeat split.
  - intros fields n -> Hres. cbn [py_get]. rewrite Hres.
    unfold py_int16. rewrite parse_hex. reflexivity.
  - intros fields -> Hres. cbn [py_get]. rewrite Hres. reflexivity.
  - intros fields text -> Hres Hparse. cbn [py_get]. rewrite Hres.
    cbn [py_int16]. rewrite Hparse. reflexivity.
  - intros fields v -> Hres Hnull Hstr. cbn [py_get]. rewrite Hres.
    destruct v; try reflexivity; [contradiction|exfalso; eapply Hstr; reflexivity].
  - intros body -> Hobj. destruct body; try reflexivity; discriminate.
Qed.

End Decoding.

Lemma py_get_non_object (d : json) (key : string) (default : json) :
  is_object d = false -> py_get d key default = Exc AttributeError.
Proof. destruct d; try reflexivity; discriminate. Qed.

Lemma py_get_object (d : json) (key : string) (default : json) :
  is_object d = true -> exists v, py_get d key default = Ok v.
Proof.
  destruct d; try discriminate. intros _. simpl.
  destruct (assoc key fields); eauto.
Qed.

Lemma phase_trace_non_object (url ref : string) (n : Z) (evs : list event)
      (x : outcome (json * json * bool))
      (u1 u2 : string) (p1 p2 : json) (r1 r2 : result response)
      (rest : list (string * json * result response)) (d1 d2 : json) :
  phase_trace url ref n evs x ->
  rpc_calls evs = (u1, p1, r1) :: (u2, p2, r2) :: rest ->
  details_of_response r1 = Ret d1 ->
  details_of_response r2 = Ret d2 ->
  is_object d1 && is_object d2 = false ->
  x = Raise AttributeError /\ rest = [].
Proof.
  intros Hph Hcalls H1 H2 Hobj.
  destruct Hph as [q1 e Hq1|q1 q2 g1 e Hq1 Hq2|q1 q2 g1 g2 e Hq1 Hq2 Hget
                   |q1 q2 g1 g2 h1 h2 polls verdict Hq1 Hq2 Hg1 Hg2 Hrpc Hlog];
    simpl in Hcalls; try discriminate;
    injection Hcalls as <- <- <- <- <- <- Hrest.
  - congruence.
  - rewrite H1 in Hq1. rewrite H2 in Hq2. injection Hq1 as <-. injection Hq2 as <-.
    split; [|symmetry; exact Hrest].
    destruct (is_object d1) eqn:Ho1.
    + simpl in Hobj. destruct Hget as [Hget|(h1 & _ & Hget)].
      * destruct (py_get_object d1 "hash" JNull Ho1) as (v & Hv). congruence.
      * rewrite (py_get_non_object d2 _ _ Hobj) in Hget. congruence.
    + destruct Hget as [Hget|(h1 & Hget & _)];
        rewrite (py_get_non_object d1 _ _ Ho1) in Hget; congruence.
  - exfalso. rewrite H1 in Hq1. rewrite H2 in Hq2. injection Hq1 as <-. injection Hq2 as <-.
    destruct (is_object d1) eqn:Ho1.
    + simpl in Hobj. rewrite (py_get_non_object d2 _ _ Hobj) in Hg2. discriminate.
    + rewrite (py_get_non_object d1 _ _ Ho1) in Hg1. discriminate.
Qed.

Section Extras.
Context {W : Type} {P : Platform W}.

(** X4. In both aggregators, when the two block-details calls return but
    the details of either one are not a JSON object (an endpoint that does
    not know the block answers [result: null]), the run raises
    [AttributeError] at the hash lookup, after those two calls and before
    any progression poll: no report is returned and no verdict is logged. *)
Theorem non_object_block_details_raise
        (fuel : nat) (url ref : string) (timeout : Q) (s : machine W)
        (evs : list event) (c0 : string * json * result response)
        (u1 u2 : string) (p1 p2 : json) (r1 r2 : result response)
        (rest : list (string * json * result response)) (d1 d2 : json) :
  rpc_calls evs = c0 :: (u1, p1, r1) :: (u2, p2, r2) :: rest ->
  details_of_response r1 = Ret d1 ->
  details_of_response r2 = Ret d2 ->
  is_object d1 && is_object d2 = false ->
  (trace (snd (perform_checks fuel url ref timeout s)) = trace s ++ evs ->
   fst (perform_checks fuel url ref timeout s) = Raise AttributeError /\ rest = [])
  /\ (trace (snd (main fuel url ref timeout s)) = trace s ++ evs ->
      fst (main fuel url ref timeout s) = Raise AttributeError /\ rest = []).
Proof.
  intros Hcalls H1 H2 Hobj. split; intros Ht.
  - destruct (perform_checks_run fuel url ref timeout s)
      as [(e & scan & _ & Ht' & Hp & _)
         |(status & scan & r0 & rest0 & Ht' & Hp & _ & _ & _ & Hm)];
      rewrite Ht in Ht'; apply app_inv_head in Ht'; subst evs;
      destruct (probe_events_no_rpc scan Hp) as [Hrpc _].
    { rewrite Hrpc in Hcalls. discriminate. }
    rewrite rpc_calls_app, Hrpc in Hcalls. simpl in Hcalls.
    injection Hcalls as _ Hcalls.
    destruct (head_of_response r0) as [[n|]|e|]; try contradiction;
      try (destruct Hm as [-> _]; discriminate).
    destruct Hm as (x & Hph & Hx).
    destruct (phase_trace_non_object _ _ _ _ _ _ _ _ _ _ _ _ _ _ Hph Hcalls H1 H2 Hobj)
      as [-> ->].
    split; [exact Hx|reflexivity].
  - destruct (main_run fuel url ref timeout s)
      as [(e & probes & _ & Ht' & Hp & _)
         |(status & probes & r0 & rest0 & Ht' & Hp & _ & _ & _ & Hm)];
      rewrite Ht in Ht'; apply app_inv_head in Ht'; subst evs.
    { simpl in Hcalls. rewrite (proj1 (probe_events_no_rpc probes Hp)) in Hcalls.
      discriminate. }
    destruct (cli_scan_quiet probes status Hp) as [Hrpc _].
    rewrite rpc_calls_app, Hrpc in Hcalls. simpl in Hcalls.
    injection Hcalls as _ Hcalls.
    destruct (head_of_response r0) as [[n|]|e|]; try contradiction;
      try (destruct Hm as [_ ->]; discriminate).
    destruct Hm as (evs' & x & Hph & Hx).
    assert (Hrest : rpc_calls rest0 = rpc_calls evs').
    { destruct x as [[[h1 h2] p]|e|]; destruct Hx as [_ ->]; try reflexivity.
      rewrite rpc_calls_app, summary_lines_no_rpc, app_nil_r. reflexivity. }
    rewrite Hrest in Hcalls.
    destruct (phase_trace_non_object _ _ _ _ _ _ _ _ _ _ _ _ _ _ Hph Hcalls H1 H2 Hobj)
      as [-> ->].
    destruct Hx as [Hx _]. split; [exact Hx|reflexivity].
Qed.

End Extras.

Section Budget.
Context {W : Type} {P : Platform W}.
Variable clk : W -> Q.
Hypothesis ticking : Ticking clk.

Lemma poll_budget (fuel : nat) (url : string) (timeout start : Q) (base : Z) :
  (float_sub timeout 0 == timeout)%Q ->
  forall s : machine W,
  exists evs,
    trace (snd (poll fuel url timeout start base s)) = trace s ++ evs
    /\ (rpc_calls evs = []
        \/ (5 * (inject_Z (Z.of_nat (List.length (rpc_calls evs))) - 1)
            + (clk (world s) - start) < timeout)%Q).
Proof.
  intros Hfloat.
  induction fuel as [|fuel IH]; intros s.
  - exists []. simpl. rewrite app_nil_r. split; [reflexivity|left; reflexivity].
  - rewrite poll_unfold. cbv zeta.
    pose proof (tick_read clk ticking (world s)) as [Hr1 Hr2].
    set (t := fst (time_time (world s))) in *.
    set (s1 := emit (EvTime t) (set_world (snd (time_time (world s))) s)).
    destruct (Qlt_bool (float_sub t start) timeout) eqn:Hlt.
    + apply Qlt_bool_iff in Hlt.
      apply (in_window_exact clk ticking _ _ _ Hfloat) in Hlt.
      rewrite fetch_latest_block_number_run.
      set (r := fst (requests_post url block_number_payload (world s1))).
      set (s2 := emit (EvPost url block_number_payload r) _).
      assert (Hone : (5 * (inject_Z (Z.of_nat 1) - 1) + (clk (world s) - start) < timeout)%Q).
      { change (inject_Z (Z.of_nat 1)) with 1%Q. lra. }
      destruct (head_of_response r) as [h|e|] eqn:Hr.
      * destruct (advanced h base).
        -- exists [EvTime t; EvPost url block_number_payload r]. simpl.
           split; [rewrite <- app_assoc; reflexivity|right; exact Hone].
        -- destruct (IH (emit (EvSleep 5) (set_world (time_sleep 5 (world s2)) s2)))
             as (evs & Ht & Hb).
           exists (EvTime t :: EvPost url block_number_payload r :: EvSleep 5 :: evs).
           split; [rewrite Ht; simpl; rewrite <- !app_assoc; reflexivity|].
           right. simpl rpc_calls. cbn [List.length].
           destruct Hb as [-> | Hb]; [exact Hone|].
           pose proof (tick_post clk ticking url block_number_payload
                         (snd (time_time (world s)))) as Hp.
           pose proof (tick_sleep clk ticking 5
                         (snd (requests_post url block_number_payload
                                 (snd (time_time (world s)))))) as Hs.
           simpl in Hb. rewrite inject_Z_succ. lra.
      * exists [EvTime t; EvPost url block_number_payload r]. simpl.
        split; [rewrite <- app_assoc; reflexivity|right; exact Hone].
      * exists [EvTime t; EvPost url block_number_payload r]. simpl.
        split; [rewrite <- app_assoc; reflexivity|right; exact Hone].
    + exists [EvTime t]. simpl. split; [reflexivity|left; reflexivity].
Qed.

(** X6. On a platform whose clock moves, and for a timeout that is a float
    (as 30 is), [check_block_progression] makes few calls: with [n] the
    number of JSON-RPC calls of a run (the baseline query included), either
    [n <= 1] or [5 * (n - 2) < timeout], whatever the answers and for every
    loop budget.  With the default timeout of 30 seconds that is at most 7
    calls, and with a timeout of zero or less the baseline query is the
    only one. *)
Theorem progression_poll_budget (fuel : nat) (url : string) (timeout : Q) (s : machine W) :
  (float_sub timeout 0 == timeout)%Q ->
  exists evs,
    trace (snd (check_block_progression fuel url timeout s)) = trace s ++ evs
    /\ ((List.length (rpc_calls evs) <= 1)%nat
        \/ (5 * (inject_Z (Z.of_nat (List.length (rpc_calls evs))) - 2) < timeout)%Q)
    /\ ((timeout <= 30)%Q -> (List.length (rpc_calls evs) <= 7)%nat)
    /\ ((timeout <= 0)%Q -> (List.length (rpc_calls evs) <= 1)%nat).
Proof.
  intros Hfloat.
  assert (Hmain : exists evs,
    trace (snd (check_block_progression fuel url timeout s)) = trace s ++ evs
    /\ ((List.length (rpc_calls evs) <= 1)%nat
        \/ (5 * (inject_Z (Z.of_nat (List.length (rpc_calls evs))) - 2) < timeout)%Q)).
  { rewrite check_block_progression_unfold. cbv zeta.
    rewrite fetch_latest_block_number_run.
    pose proof (tick_read clk ticking (world s)) as [_ Hr].
    pose proof (tick_post clk ticking url block_number_payload
                  (snd (time_time (world s)))) as Hp.
    set (t0 := fst (time_time (world s))) in *.
    set (s1 := emit (EvTime t0) _).
    set (r0 := fst (requests_post url block_number_payload (world s1))).
    set (s2 := emit (EvPost url block_number_payload r0) _).
    assert (Hbase : trace s2 = trace s ++ [EvTime t0; EvPost url block_number_payload r0]).
    { simpl. rewrite <- app_assoc. reflexivity. }
    destruct (head_of_response r0) as [[b|]|e|];
      try (exists [EvTime t0; EvPost url block_number_payload r0];
           split; [exact Hbase|left; simpl; lia]).
    destruct (poll_budget fuel url timeout t0 b Hfloat s2) as (evs & Ht & Hb).
    exists ([EvTime t0; EvPost url block_number_payload r0] ++ evs).
    split; [rewrite Ht, Hbase, <- app_assoc; reflexivity|].
    simpl rpc_calls. cbn [List.length].
    destruct Hb as [-> | Hb]; [left; simpl; lia|].
    right. rewrite inject_Z_succ. simpl in Hb. lra. }
  destruct Hmain as (evs & Ht & Hb). exists evs.
  split; [exact Ht|]. split; [exact Hb|].
  split; intros Hle.
  - destruct Hb as [Hb|Hb]; [lia|].
    assert (Hlt : (inject_Z (Z.of_nat (List.length (rpc_calls evs))) < inject_Z 8)%Q).
    { change (inject_Z 8) with 8%Q. lra. }
    rewrite <- Zlt_Qlt in Hlt. lia.
  - destruct Hb as [Hb|Hb]; [lia|].
    assert (Hlt : (inject_Z (Z.of_nat (List.length (rpc_calls evs))) < inject_Z 2)%Q).
    { change (inject_Z 2) with 2%Q. lra. }
    rewrite <- Zlt_Qlt in Hlt. lia.
Qed.

End Budget.

(** ** The port scan *)

Lemma first_post_split (scan scan' : list event) (u u' : string) (p p' : json)
      (r r' : result response) (rest rest' : list event) :
  scan ++ EvPost u p r :: rest = scan' ++ EvPost u' p' r' :: rest' ->
  rpc_calls scan = [] -> rpc_calls scan' = [] ->
  scan = scan' /\ rest = rest'.
Proof.
  revert scan'. induction scan as [|ev scan IH]; intros scan' Heq Hs Hs'.
  - destruct scan' as [|ev' scan']; simpl in Heq.
    + injection Heq as _ _ _ Hrest. split; [reflexivity|exact Hrest].
    + injection Heq as <- _. simpl in Hs'. discriminate.
  - destruct scan' as [|ev' scan']; simpl in Heq.
    + injection Heq as -> _. simpl in Hs. discriminate.
    + injection Heq as <- Heq.
      assert (Hs1 : rpc_calls scan = []) by (destruct ev; simpl in Hs; congruence).
      assert (Hs2 : rpc_calls scan' = []) by (destruct ev; simpl in Hs'; congruence).
      destruct (IH scan' Heq Hs1 Hs2) as [-> ->]. split; reflexivity.
Qed.

Lemma connected_scan_probes (port : Z) (probes : list event) (status : list (Z * bool)) :
  connected port (EvLog INFO MsgStarting :: probes ++ port_lines status)
  <-> connected port probes.
Proof.
  change (EvLog INFO MsgStarting :: probes ++ port_lines status)
    with ([EvLog INFO MsgStarting] ++ probes ++ port_lines status).
  rewrite !connected_app. split; [|tauto].
  intros [(fd & h & [H|[]])|[H|H]]; [discriminate|exact H|].
  exfalso. exact (port_lines_not_connected _ _ H).
Qed.

Lemma status_entry (port : Z) (status : list (Z * bool)) :
  In port (map fst status) -> exists b, In (port, b) status.
Proof.
  intros Hin. apply in_map_iff in Hin. destruct Hin as ([p b] & Hp & Hin).
  simpl in Hp. subst p. eauto.
Qed.

Section ExtraTheorems.
Context {W : Type} {P : Platform W}.

(** X7. The [port_status] of a report of [perform_checks] has one entry
    per service port, in the order 30303, 9003, 30304, 8369, 18369, and its
    entry for a port is true exactly when the scan (the events before the
    first JSON-RPC call) holds a connect to that port that reported
    success. *)
Theorem service_port_status (fuel : nat) (url ref : string) (timeout : Q) (s : machine W)
        (res : check_results) (scan rest : list event)
        (u : string) (p : json) (r : result response) :
  fst (perform_checks fuel url ref timeout s) = Ret res ->
  trace (snd (perform_checks fuel url ref timeout s)) = trace s ++ scan ++ EvPost u p r :: rest ->
  rpc_calls scan = [] ->
  map fst (port_status res) = service_ports
  /\ forall port b, In (port, b) (port_status res) -> (b = true <-> connected port scan).
Proof.
  intros Hret Ht Hscan.
  destruct (perform_checks_run fuel url ref timeout s)
    as [(e & scan' & Hraise & _)
       |(status & scan' & r0 & rest' & Ht' & Hp & _ & Hkeys & Hst & Hm)].
  { rewrite Hret in Hraise. discriminate. }
  rewrite Ht in Ht'. apply app_inv_head in Ht'.
  destruct (probe_events_no_rpc scan' Hp) as [Hscan' _].
  destruct (first_post_split _ _ _ _ _ _ _ _ _ _ Ht' Hscan Hscan') as [-> _].
  assert (Hres : port_status res = status).
  { rewrite Hret in Hm.
    destruct (head_of_response r0) as [[n|]|e|]; try contradiction;
      try (destruct Hm as [_ Hm]; discriminate).
    destruct Hm as (x & _ & Hx).
    destruct x as [[[h1 h2] q]|e|]; try discriminate.
    injection Hx as ->. reflexivity. }
  rewrite Hres. split; assumption.
Qed.



(** X9. When [main] logs its closing summary, the three flags in it are
    the verdicts of the run: the hash flag is the comparison of the
    identifiers the reference and the target gave for the shared block; the
    port flag is true exactly when a connect to each of the three ports
    reported success; the progression flag is true exactly when the
    "progression passed" line was logged; and a false hash flag comes with
    the error line naming the shared block number, the target's hash and the
    reference's hash, in that order. *)
Theorem main_summary_is_consistent (fuel : nat) (url ref : string) (timeout : Q)
        (s : machine W) (scan rest : list event)
        (u : string) (p : json) (r : result response)
        (u1 u2 : string) (p1 p2 : json) (r1 r2 : result response)
        (polls : list (string * json * result response)) (h1 h2 : json)
        (hash_pass progression_pass port_pass : bool) :
  trace (snd (main fuel url ref timeout s)) = trace s ++ scan ++ EvPost u p r :: rest ->
  rpc_calls scan = [] ->
  rpc_calls rest = (u1, p1, r1) :: (u2, p2, r2) :: polls ->
  identifier_of_response r1 = Ret h1 ->
  identifier_of_response r2 = Ret h2 ->
  In (EvLog INFO (MsgCompleted hash_pass progression_pass port_pass)) rest ->
  hash_pass = hashes_match h1 h2
  /\ (port_pass = true <-> forall port, In port cli_ports -> connected port scan)
  /\ (progression_pass = true <-> In (EvLog INFO MsgProgressionPassed) rest)
  /\ (hash_pass = false ->
      exists n, p1 = block_details_payload (hex n)
                /\ In (EvLog ERROR (MsgHashFailed n h2 h1)) rest).
Proof.
  intros Ht Hscan Hcalls Hi1 Hi2 Hdone.
  destruct (main_run fuel url ref timeout s)
    as [(e & probes & _ & Ht' & Hp & _)
       |(status & probes & r0 & rest' & Ht' & Hp & _ & Hkeys & Hst & Hm)];
    rewrite Ht in Ht'; apply app_inv_head in Ht'.
  { exfalso. apply (f_equal rpc_calls) in Ht'.
    rewrite rpc_calls_app, Hscan in Ht'. simpl in Ht'.
    rewrite (proj1 (probe_events_no_rpc probes Hp)) in Ht'. discriminate. }
  destruct (cli_scan_quiet probes status Hp) as [Hscan' _].
  destruct (first_post_split _ _ _ _ _ _ _ _ _ _ Ht' Hscan Hscan') as [-> <-].
  clear Ht'.
  assert (Hnot : forall evs x n, phase_trace url ref n evs x ->
                   forall lvl msg, In (EvLog lvl msg) evs -> verdict_line msg = false).
  { intros evs x n Hph lvl msg Hin. apply in_log_records in Hin.
    pose proof (phase_trace_no_verdict _ _ _ _ _ Hph) as Hall.
    rewrite Forall_forall in Hall. exact (Hall _ Hin). }
  destruct (head_of_response r0) as [[n|]|e|]; try contradiction.
  2:{ destruct Hm as [_ ->]. discriminate. }
  2:{ destruct Hm as [_ ->]. discriminate. }
  destruct Hm as (evs & x & Hph & Hx).
  destruct x as [[[g1 g2] q]|e|].
  2:{ destruct Hx as [_ ->]. pose proof (Hnot _ _ _ Hph _ _ Hdone) as Hv. discriminate Hv. }
  2:{ destruct Hx as [_ ->]. pose proof (Hnot _ _ _ Hph _ _ Hdone) as Hv. discriminate Hv. }
  destruct Hx as [_ ->].
  destruct (phase_trace_returns _ _ _ _ _ _ _ Hph)
    as (r1' & r2' & polls' & Hevs & Hg1 & Hg2 & _).
  rewrite rpc_calls_app, summary_lines_no_rpc, app_nil_r in Hcalls.
  rewrite Hevs in Hcalls. simpl in Hcalls.
  injection Hcalls as _ Hp1 Hr1 _ _ Hr2 _. subst r1' r2'.
  rewrite Hi1 in Hg1. rewrite Hi2 in Hg2. injection Hg1 as <-. injection Hg2 as <-.
  apply in_app_or in Hdone. destruct Hdone as [Hdone|Hdone];
    [pose proof (Hnot _ _ _ Hph _ _ Hdone) as Hv; discriminate Hv|].
  assert (Hflags : hash_pass = hashes_match h1 h2 /\ progression_pass = q
                   /\ port_pass = forallb snd status).
  { unfold summary_lines in Hdone.
    destruct (hashes_match h1 h2), q, (forallb snd status); simpl in Hdone;
      repeat (destruct Hdone as [Hdone|Hdone]; try discriminate);
      try contradiction; injection Hdone as <- <- <-; repeat split. }
  destruct Hflags as (-> & -> & ->).
  split; [reflexivity|]. split; [|split].
  - rewrite forallb_forall. split.
    + intros Hall port Hport. apply connected_scan_probes.
      rewrite <- Hkeys in Hport. destruct (status_entry _ _ Hport) as (b & Hb).
      apply (proj1 (Hst _ _ Hb)). exact (Hall _ Hb).
    + intros Hall [port b] Hin. simpl. apply (proj2 (Hst _ _ Hin)).
      apply (proj1 (connected_scan_probes port probes status)). apply Hall.
      rewrite <- Hkeys. apply (in_map fst) in Hin. exact Hin.
  - rewrite in_app_iff. split.
    + intros ->. right. unfold summary_lines.
      destruct (hashes_match h1 h2), (forallb snd status); simpl; auto.
    + intros [H|H]; [pose proof (Hnot _ _ _ Hph _ _ H) as Hv; discriminate Hv|].
      unfold summary_lines in H.
      destruct (hashes_match h1 h2), q, (forallb snd status); simpl in H;
        repeat (destruct H as [H|H]; try discriminate); try contradiction; reflexivity.
  - intros Hfalse. exists n. split; [symmetry; exact Hp1|].
    apply in_or_app. right. unfold summary_lines. rewrite Hfalse. left. reflexivity.
Qed.

End ExtraTheorems.

(** ** Edge cases of the client and of the poller *)

Section Edge.
Context {W : Type} {P : Platform W}.

(** X3. What [fetch_block_details] makes of a 200 answer: a result that
    is present is returned as it is, [null] included (it is not replaced by
    the empty object); only a missing result gives the empty object; a JSON
    body that is not an object raises [AttributeError]. *)
Theorem block_details_decoding (url : string) (n : Z) (s : machine W) (resp : response) :
  fst (requests_post url (block_details_payload (hex n)) (world s)) = Ok resp ->
  status_code resp = 200 ->
  (forall fields v,
      body_json resp = Some (JObj fields) ->
      assoc "result" fields = Some v ->
      fst (fetch_block_details url (Some n) s) = Ret v)
  /\ (forall fields,
        body_json resp = Some (JObj fields) ->
        assoc "result" fields = None ->
        fst (fetch_block_details url (Some n) s) = Ret (JObj []))
  /\ (forall body,
        body_json resp = Some body ->
        is_object body = false ->
        fst (fetch_block_details url (Some n) s) = Raise AttributeError).
Proof.
  intros Hpost H200.
  pose proof (fetch_block_details_run url n s) as Hrun. cbv zeta in Hrun.
  rewrite Hrun, Hpost. cbn [fst details_of_response].
  rewrite H200. change (200 =? 200) with true. cbv iota.
  repeat split.
  - intros fields v -> Hres. cbn [py_get]. rewrite Hres. reflexivity.
  - intros fields -> Hres. cbn [py_get]. rewrite Hres. reflexivity.
  - intros body -> Hobj. destruct body; try reflexivity; discriminate.
Qed.

Variable clk : W -> Q.
Hypothesis ticking : Ticking clk.

(** X5. With a timeout of zero or less, on a platform whose clock does
    not run backwards, [check_block_progression] with a present baseline
    returns false after the baseline query and one clock reading: it never
    polls, so even a target whose head is advancing fails the check. *)
Theorem nonpositive_timeout_fails (fuel : nat) (url : string) (timeout : Q)
        (s : machine W) (start : Q) (r0 : result response) (rest : list event) (b : Z) :
  (timeout <= 0)%Q ->
  (0 < fuel)%nat ->
  trace (snd (check_block_progression fuel url timeout s))
  = trace s ++ EvTime start :: EvPost url block_number_payload r0 :: rest ->
  head_of_response r0 = Ret (Some b) ->
  fst (check_block_progression fuel url timeout s) = Ret false
  /\ exists t, rest = [EvTime t].
Proof.
  intros Htimeout Hfuel Ht Hhead.
  rewrite check_block_progression_unfold in Ht |- *. cbv zeta in Ht |- *.
  rewrite fetch_latest_block_number_run in Ht |- *.
  pose proof (tick_read clk ticking (world s)) as [_ Hr].
  pose proof (tick_post clk ticking url block_number_payload
                (snd (time_time (world s)))) as Hp.
  set (t0 := fst (time_time (world s))) in *.
  set (s1 := emit (EvTime t0) (set_world (snd (time_time (world s))) s)) in *.
  set (r0' := fst (requests_post url block_number_payload (world s1))) in *.
  set (s2 := emit (EvPost url block_number_payload r0') _) in *.
  assert (Hbase : trace s2 = trace s ++ [EvTime t0; EvPost url block_number_payload r0']).
  { simpl. rewrite <- app_assoc. reflexivity. }
  assert (Hsame : forall tail,
             trace s ++ [EvTime t0; EvPost url block_number_payload r0'] ++ tail
             = trace s ++ EvTime start :: EvPost url block_number_payload r0 :: rest ->
             r0' = r0 /\ tail = rest).
  { intros tail Heq. apply app_inv_head in Heq. simpl in Heq.
    injection Heq as _ <- <-. split; reflexivity. }
  destruct (head_of_response r0') as [[b'|]|e|] eqn:Hhead'.
  - destruct fuel as [|fuel]; [lia|].
    rewrite poll_unfold in Ht |- *. cbv zeta in Ht |- *.
    pose proof (tick_read clk ticking (world s2)) as [Hr2 _].
    destruct (Qlt_bool (float_sub (fst (time_time (world s2))) t0) timeout) eqn:Hlt.
    + exfalso. apply Qlt_bool_iff in Hlt.
      change (world s2)
        with (snd (requests_post url block_number_payload (snd (time_time (world s)))))
        in Hlt, Hr2.
      assert (Hnn : (0 <= float_sub
                            (fst (time_time
                                    (snd (requests_post url block_number_payload
                                            (snd (time_time (world s)))))))
                            t0)%Q)
        by (apply (elapsed_nonnegative clk ticking); lra).
      lra.
    + cbn [fst snd] in Ht |- *. split; [reflexivity|].
      change (trace (emit (EvTime (fst (time_time (world s2))))
                       (set_world (snd (time_time (world s2))) s2)))
        with (trace s2 ++ [EvTime (fst (time_time (world s2)))]) in Ht.
      rewrite Hbase, <- app_assoc in Ht.
      destruct (Hsame _ Ht) as [_ <-]. eexists. reflexivity.
  - exfalso. cbn [fst snd] in Ht. rewrite Hbase in Ht.
    rewrite <- (app_nil_r [EvTime t0; EvPost url block_number_payload r0']) in Ht.
    destruct (Hsame _ Ht) as [<- _]. congruence.
  - exfalso. cbn [fst snd] in Ht. rewrite Hbase in Ht.
    rewrite <- (app_nil_r [EvTime t0; EvPost url block_number_payload r0']) in Ht.
    destruct (Hsame _ Ht) as [<- _]. congruence.
  - exfalso. exact (head_of_response_fueled r0' Hhead').
Qed.

End Edge.

(** ** Runs on scripted platforms *)

Lemma head_lookup_decoding_witness :
  fst (fetch_latest_block_number Script.target (answering (Script.head_reply 1000)))
  = Ret (Some 1000)
  /\ fst (fetch_latest_block_number Script.target (answering (Script.rpc_result JNull)))
     = Ret None
  /\ fst (fetch_latest_block_number Script.target
            (answering (Script.rpc_result (JStr "latest"))))
     = Raise ValueError
  /\ fst (fetch_latest_block_number Script.target
            (answering (Script.rpc_result (JInt 1000))))
     = Raise TypeError
  /\ fst (fetch_latest_block_number Script.target (answering list_body))
     = Raise AttributeError.
Proof.
  split; [|split; [|split; [|split]]].
  - destruct (head_lookup_decoding Script.target (answering (Script.head_reply 1000))
                (answer_of (Script.head_reply 1000))) as (H & _);
      [vm_compute; reflexivity|vm_compute; reflexivity|].
    eapply H; vm_compute; reflexivity.
  - destruct (head_lookup_decoding Script.target (answering (Script.rpc_result JNull))
                (answer_of (Script.rpc_result JNull))) as (_ & H & _);
      [vm_compute; reflexivity|vm_compute; reflexivity|].
    eapply H; vm_compute; reflexivity.
  - destruct (head_lookup_decoding Script.target
                (answering (Script.rpc_result (JStr "latest")))
                (answer_of (Script.rpc_result (JStr "latest")))) as (_ & _ & H & _);
      [vm_compute; reflexivity|vm_compute; reflexivity|].
    eapply H; vm_compute; reflexivity.
  - destruct (head_lookup_decoding Script.target
                (answering (Script.rpc_result (JInt 1000)))
                (answer_of (Script.rpc_result (JInt 1000)))) as (_ & _ & _ & H & _);
      [vm_compute; reflexivity|vm_compute; reflexivity|].
    eapply H; try (vm_compute; reflexivity); discriminate.
  - destruct (head_lookup_decoding Script.target (answering list_body)
                (answer_of list_body)) as (_ & _ & _ & _ & H);
      [vm_compute; reflexivity|vm_compute; reflexivity|].
    eapply H; vm_compute; reflexivity.
Defined.

Lemma block_details_decoding_witness :
  fst (fetch_block_details Script.target (Some 1000) (answering (Script.rpc_result JNull)))
  = Ret JNull
  /\ fst (fetch_block_details Script.target (Some 1000) (answering Script.rpc_error))
     = Ret (JObj [])
  /\ fst (fetch_block_details Script.target (Some 1000) (answering list_body))
     = Raise AttributeError.
Proof.
  split; [|split].
  - destruct (block_details_decoding Script.target 1000
                (answering (Script.rpc_result JNull))
                (answer_of (Script.rpc_result JNull))) as (H & _);
      [vm_compute; reflexivity|vm_compute; reflexivity|].
    eapply H; vm_compute; reflexivity.
  - destruct (block_details_decoding Script.target 1000 (answering Script.rpc_error)
                (answer_of Script.rpc_error)) as (_ & H & _);
      [vm_compute; reflexivity|vm_compute; reflexivity|].
    eapply H; vm_compute; reflexivity.
  - destruct (block_details_decoding Script.target 1000 (answering list_body)
                (answer_of list_body)) as (_ & _ & H);
      [vm_compute; reflexivity|vm_compute; reflexivity|].
    eapply H; vm_compute; reflexivity.
Defined.

Lemma non_object_block_details_raise_witness :
  let service := perform_checks 31 Script.target default_reference_url default_timeout
                   (Script.boot lagging_target) in
  let cli := main 31 Script.target default_reference_url default_timeout
               (Script.boot lagging_target) in
  details_of_response (Script.block_reply "0xabc")
  = Ret (JObj [("number", JStr "0x3e8"); ("hash", JStr "0xabc")])
  /\ details_of_response (Script.rpc_result JNull) = Ret JNull
  /\ fst service = Raise AttributeError
  /\ fst cli = Raise AttributeError.
Proof.
  cbv zeta.
  assert (H1 : details_of_response (Script.block_reply "0xabc")
               = Ret (JObj [("number", JStr "0x3e8"); ("hash", JStr "0xabc")]))
    by reflexivity.
  assert (H2 : details_of_response (Script.rpc_result JNull) = Ret JNull) by reflexivity.
  split; [exact H1|]. split; [exact H2|]. split.
  - set (evs := trace (snd (perform_checks 31 Script.target default_reference_url
                              default_timeout (Script.boot lagging_target)))).
    assert (Hcalls : rpc_calls evs
                     = (default_reference_url, block_number_payload, Script.head_reply 1000)
                       :: (default_reference_url, block_details_payload (hex 1000),
                           Script.block_reply "0xabc")
                       :: (Script.target, block_details_payload (hex 1000),
                           Script.rpc_result JNull)
                       :: []) by (vm_compute; reflexivity).
    assert (Htrace : trace (snd (perform_checks 31 Script.target default_reference_url
                                   default_timeout (Script.boot lagging_target)))
                     = trace (Script.boot lagging_target) ++ evs)
      by (vm_compute; reflexivity).
    exact (proj1 (proj1 (non_object_block_details_raise 31 Script.target
                           default_reference_url default_timeout
                           (Script.boot lagging_target) evs _ _ _ _ _ _ _ _ _ _
                           Hcalls H1 H2 eq_refl) Htrace)).
  - set (evs := trace (snd (main 31 Script.target default_reference_url
                              default_timeout (Script.boot lagging_target)))).
    assert (Hcalls : rpc_calls evs
                     = (default_reference_url, block_number_payload, Script.head_reply 1000)
                       :: (default_reference_url, block_details_payload (hex 1000),
                           Script.block_reply "0xabc")
                       :: (Script.target, block_details_payload (hex 1000),
                           Script.rpc_result JNull)
                       :: []) by (vm_compute; reflexivity).
    assert (Htrace : trace (snd (main 31 Script.target default_reference_url
                                   default_timeout (Script.boot lagging_target)))
                     = trace (Script.boot lagging_target) ++ evs)
      by (vm_compute; reflexivity).
    exact (proj1 (proj2 (non_object_block_details_raise 31 Script.target
                           default_reference_url default_timeout
                           (Script.boot lagging_target) evs _ _ _ _ _ _ _ _ _ _
                           Hcalls H1 H2 eq_refl) Htrace)).
Defined.

Lemma nonpositive_timeout_fails_witness :
  let s := Script.boot (Script.scripted [Script.head_reply 1000; Script.head_reply 1001]
                          Script.all_open) in
  Ticking Script.clock
  /\ (0 <= 0)%Q
  /\ head_of_response (Script.head_reply 1000) = Ret (Some 1000)
  /\ fst (check_block_progression 5 Script.target 0 s) = Ret false
  /\ exists t, skipn 2 (trace (snd (check_block_progression 5 Script.target 0 s)))
               = [EvTime t].
Proof.
  cbv zeta. split; [exact script_ticking|].
  assert (Hle : (0 <= 0)%Q) by apply Qle_refl.
  split; [exact Hle|]. split; [reflexivity|].
  apply (nonpositive_timeout_fails Script.clock script_ticking 5 Script.target 0
           (Script.boot (Script.scripted [Script.head_reply 1000; Script.head_reply 1001]
                           Script.all_open))
           100%Q (Script.head_reply 1000) _ 1000 Hle);
    [lia|vm_compute; reflexivity|reflexivity].
Defined.

Lemma progression_poll_budget_witness :
  Ticking Script.clock
  /\ (float_sub 30 0 == 30)%Q
  /\ exists evs,
       trace (snd (check_block_progression 31 Script.target 30 (Script.boot Script.stalled)))
       = trace (Script.boot Script.stalled) ++ evs
       /\ ((List.length (rpc_calls evs) <= 1)%nat
           \/ (5 * (inject_Z (Z.of_nat (List.length (rpc_calls evs))) - 2) < 30)%Q)
       /\ ((30 <= 30)%Q -> (List.length (rpc_calls evs) <= 7)%nat)
       /\ ((30 <= 0)%Q -> (List.length (rpc_calls evs) <= 1)%nat).
Proof.
  split; [exact script_ticking|].
  assert (Hfloat : (float_sub 30 0 == 30)%Q) by (vm_compute; reflexivity).
  split; [exact Hfloat|].
  exact (progression_poll_budget Script.clock script_ticking 31 Script.target 30
           (Script.boot Script.stalled) Hfloat).
Defined.

Lemma service_port_status_witness :
  let run := perform_checks 31 Script.target default_reference_url default_timeout
               (Script.boot disagreeing) in
  let scan := firstn 20 (trace (snd run)) in
  rpc_calls scan = []
  /\ (exists res, fst run = Ret res
        /\ map fst (port_status res) = service_ports
        /\ forall port b, In (port, b) (port_status res) ->
                          (b = true <-> connected port scan)).
Proof.
  cbv zeta.
  set (run := perform_checks 31 Script.target default_reference_url default_timeout
                (Script.boot disagreeing)).
  assert (Hscan : rpc_calls (firstn 20 (trace (snd run))) = []) by (vm_compute; reflexivity).
  split; [exact Hscan|].
  eexists. split; [vm_compute; reflexivity|].
  apply (service_port_status 31 Script.target default_reference_url default_timeout
           (Script.boot disagreeing) _ (firstn 20 (trace (snd run)))
           (skipn 21 (trace (snd run)))
           default_reference_url block_number_payload (Script.head_reply 1000));
    [vm_compute; reflexivity|vm_compute; reflexivity|exact Hscan].
Defined.


Lemma main_summary_is_consistent_witness :
  let run := main 31 Script.target default_reference_url default_timeout
               (Script.boot disagreeing) in
  let scan := firstn 16 (trace (snd run)) in
  let rest := skipn 17 (trace (snd run)) in
  In (EvLog INFO (MsgCompleted false true false)) rest
  /\ false = hashes_match (JStr "0xabc") (JStr "0xdef")
  /\ (false = true <-> forall port, In port cli_ports -> connected port scan)
  /\ (true = true <-> In (EvLog INFO MsgProgressionPassed) rest)
  /\ (false = false ->
      exists n, block_details_payload (hex 1000) = block_details_payload (hex n)
                /\ In (EvLog ERROR (MsgHashFailed n (JStr "0xdef") (JStr "0xabc"))) rest).
Proof.
  cbv zeta.
  set (run := main 31 Script.target default_reference_url default_timeout
                (Script.boot disagreeing)).
  assert (Hdone : In (EvLog INFO (MsgCompleted false true false))
                     (skipn 17 (trace (snd run)))).
  { vm_compute. repeat (first [left; reflexivity|right]). }
  split; [exact Hdone|].
  apply (main_summary_is_consistent 31 Script.target default_reference_url default_timeout
           (Script.boot disagreeing) (firstn 16 (trace (snd run)))
           (skipn 17 (trace (snd run)))
           default_reference_url block_number_payload (Script.head_reply 1000)
           default_reference_url Script.target
           (block_details_payload (hex 1000)) (block_details_payload (hex 1000))
           (Script.block_reply "0xabc") (Script.block_reply "0xdef")
           (skipn 2 (rpc_calls (skipn 17 (trace (snd run)))))
           (JStr "0xabc") (JStr "0xdef") false true false);
    try (vm_compute; reflexivity); exact Hdone.
Defined.
